(** * Employee Management System: attendance and payroll engines

    A shallow embedding of the request handlers of
    [backend/controllers/locations.js] and
    [backend/controllers/paymentRecords.js], of the Mongoose schemas they
    rely on (the Location and Employee models, [models/PaymentRecord.js])
    and of the validation chains of the routes, followed by the properties
    the specification states about them.

    Conventions of the model.
    - A MongoDB collection is the list of its documents in insertion order;
      [findOne] returns the first match, [findById] the first document with
      the given [_id].
    - A handler is a function from the request and the database to the
      response it sends and the database it leaves behind.  An exception
      thrown inside [try { ... }] is a value of [exn]; the [catch] branch of
      each handler turns it into its 500 response.
    - [Date.now()] / [new Date()] is read from the request environment; a
      date is the instant it denotes.
    - A JavaScript number is [NaN], an infinity, or a finite value.  Finite
      values are exact rationals: binary64 rounding and the sign of zero are
      not represented.  Sums are written in the order in which the code
      adds, and no statement about them uses a law of addition.
    - [handle] and [run] serve requests one at a time.  A handler gives way
      to other requests at each [await]; for [checkIn] the two stretches
      around the pre-check are modelled apart, and [overlappingCheckIns] is
      the schedule in which a second check-in comes between them.
    - Of a request, the handlers see [req.user], [req.params.id] and the
      fields of [req.body] and [req.query] they read.  An identifier in a
      URL or a body is one the cast accepts; a body field is of the JSON
      type the handler expects (amounts are JSON numbers), a date is in a
      form [new Date] reads, and a text has one UTF-16 unit per character.
      The [populate] of the documents sent back and the
      [createdAt]/[updatedAt] stamps of [timestamps: true] are left out. *)

From Stdlib Require Import List String Ascii Bool Arith ZArith QArith Qcanon Lia.
From Stdlib Require Import Sorted Permutation.
Import ListNotations.

Close Scope Qc_scope.
Close Scope Q_scope.

Set Implicit Arguments.

(* ================================================================== *)
(** ** JavaScript numbers and values *)
(* ================================================================== *)

Module JS.

Inductive number : Type :=
| NaN
| PosInf
| NegInf
| Fin (q : Qc).

Definition zero : number := Fin (Q2Qc 0).

Definition neg (a : number) : number :=
  match a with
  | NaN => NaN
  | PosInf => NegInf
  | NegInf => PosInf
  | Fin x => Fin (Qcopp x)
  end.

(** [a + b] *)
Definition add (a b : number) : number :=
  match a, b with
  | NaN, _ | _, NaN => NaN
  | PosInf, NegInf | NegInf, PosInf => NaN
  | PosInf, _ | _, PosInf => PosInf
  | NegInf, _ | _, NegInf => NegInf
  | Fin x, Fin y => Fin (Qcplus x y)
  end.

(** [a - b] *)
Definition sub (a b : number) : number := add a (neg b).

Definition sign (a : number) : comparison :=
  match a with
  | NaN => Eq
  | PosInf => Gt
  | NegInf => Lt
  | Fin x => Qccompare x (Q2Qc 0)
  end.

(** [a * b] *)
Definition mul (a b : number) : number :=
  match a, b with
  | NaN, _ | _, NaN => NaN
  | Fin x, Fin y => Fin (Qcmult x y)
  | _, _ =>
      match sign a, sign b with
      | Eq, _ | _, Eq => NaN
      | Lt, Lt | Gt, Gt => PosInf
      | _, _ => NegInf
      end
  end.

Definition isNaN (a : number) : bool :=
  match a with NaN => true | _ => false end.

(** [a >= 0], false on [NaN]. *)
Definition geZero (a : number) : bool :=
  match a with
  | NaN | NegInf => false
  | PosInf => true
  | Fin x => match Qccompare x (Q2Qc 0) with Lt => false | _ => true end
  end.

(** ToBoolean on a number: [0] and [NaN] are falsy. *)
Definition truthyNum (a : number) : bool :=
  match a with
  | NaN => false
  | PosInf | NegInf => true
  | Fin x => negb (Qc_eq_bool x (Q2Qc 0))
  end.

(** The part of a JSON request body value the handlers look at. *)
Inductive value : Type :=
| JUndefined
| JNull
| JBool (b : bool)
| JNum (n : number)
| JStr (s : string).

(** ToBoolean: what [if (v)], [v ? a : b] and [v || d] test. *)
Definition truthy (v : value) : bool :=
  match v with
  | JUndefined | JNull => false
  | JBool b => b
  | JNum n => truthyNum n
  | JStr s => negb (String.eqb s EmptyString)
  end.

(** *** [parseFloat] *)

Definition isDigit (c : ascii) : bool :=
  let n := nat_of_ascii c in (48 <=? n)%nat && (n <=? 57)%nat.

Definition digitVal (c : ascii) : Z := Z.of_nat (nat_of_ascii c - 48).

(** StrWhiteSpaceChar, on the ASCII range: TAB, LF, VT, FF, CR, SP. *)
Definition isWhite (c : ascii) : bool :=
  let n := nat_of_ascii c in
  ((9 <=? n)%nat && (n <=? 13)%nat) || (n =? 32)%nat.

Fixpoint skipWhite (l : list ascii) : list ascii :=
  match l with
  | c :: r => if isWhite c then skipWhite r else l
  | [] => []
  end.

(** The longest prefix of digits, and what follows it. *)
Fixpoint takeDigits (l : list ascii) : list ascii * list ascii :=
  match l with
  | c :: r =>
      if isDigit c
      then let (ds, rest) := takeDigits r in (c :: ds, rest)
      else ([], l)
  | [] => ([], [])
  end.

Definition digitsToZ (ds : list ascii) : Z :=
  fold_left (fun acc c => 10 * acc + digitVal c)%Z ds 0%Z.

Fixpoint startsWith (p l : list ascii) : bool :=
  match p, l with
  | [], _ => true
  | a :: p', b :: l' => Ascii.eqb a b && startsWith p' l'
  | _ :: _, [] => false
  end.

(** [m * 10^e] *)
Definition scale10 (m e : Z) : Qc :=
  match e with
  | Zneg p => Q2Qc (Qmake m (Pos.pow 10 p))
  | _ => Q2Qc (Qmake (m * 10 ^ e) 1)
  end.

(** The exponent part [e[+-]ddd] at the head of [l]; [0] when there is no
    well-formed one (it is then not part of the literal). *)
Definition exponentPart (l : list ascii) : Z :=
  match l with
  | c :: r =>
      if Ascii.eqb c "e"%char || Ascii.eqb c "E"%char then
        match r with
        | s :: r' =>
            if Ascii.eqb s "-"%char then
              match takeDigits r' with
              | ([], _) => 0
              | (ds, _) => - digitsToZ ds
              end
            else if Ascii.eqb s "+"%char then digitsToZ (fst (takeDigits r'))
            else digitsToZ (fst (takeDigits r))
        | [] => 0
        end
      else 0
  | [] => 0
  end%Z.

(** StrUnsignedDecimalLiteral: the value of the longest prefix of [l] that is
    one, or [NaN]. *)
Definition unsignedLiteral (l : list ascii) : number :=
  if startsWith (list_ascii_of_string "Infinity") l then PosInf
  else
    let (ints, r1) := takeDigits l in
    let (fracs, r2) :=
      match r1 with
      | c :: r => if Ascii.eqb c "."%char then takeDigits r else ([], r1)
      | [] => ([], r1)
      end in
    match ints ++ fracs with
    | [] => NaN
    | ds => Fin (scale10 (digitsToZ ds)
                   (exponentPart r2 - Z.of_nat (List.length fracs)))
    end.

Definition parseFloatString (s : string) : number :=
  match skipWhite (list_ascii_of_string s) with
  | c :: r =>
      if Ascii.eqb c "-"%char then neg (unsignedLiteral r)
      else if Ascii.eqb c "+"%char then unsignedLiteral r
      else unsignedLiteral (c :: r)
  | [] => NaN
  end.

(** [parseFloat(v)] is [parseFloat(String(v))]: a number reads back as
    itself, ["undefined"], ["null"], ["true"] and ["false"] have no numeric
    prefix. *)
Definition parseFloat (v : value) : number :=
  match v with
  | JNum n => n
  | JStr s => parseFloatString s
  | JUndefined | JNull | JBool _ => NaN
  end.

End JS.

(* ================================================================== *)
(** ** Documents, responses and the database *)
(* ================================================================== *)

Definition objectId := nat.

Inductive role : Type := admin | employee.

Definition role_eqb (a b : role) : bool :=
  match a, b with
  | admin, admin | employee, employee => true
  | _, _ => false
  end.

(** Modelled from the spec: [req.user], set by the [protect] middleware of
    middleware/auth.js, which is not part of the sources.  Section 2: the
    identity provider "resolves an inbound request to a (userId, role)
    pair". *)
Record caller : Type := { id : objectId; userRole : role }.

(** Modelled from the spec: models/User.js is not part of the sources.
    Section 3: a User is an identity with a role in {admin, employee};
    its [_id] and [role] are all that [populate] and the handlers read. *)
Module User.
Record t : Type := { _id : objectId; role : role }.
End User.

(** The Employee model, with the paths the handlers read or write; the
    employee code, the documents, the emergency contact and the status play
    no part in them. *)
Module Employee.
Record t : Type := {
  _id : objectId;
  user : objectId;
  locations : list objectId
}.
End Employee.

Inductive locationStatus : Type := checked_in | checked_out.

Definition locationStatus_eqb (a b : locationStatus) : bool :=
  match a, b with
  | checked_in, checked_in | checked_out, checked_out => true
  | _, _ => false
  end.

(** The stored [address]: the text the client sent, or the template string
    [`Lat: ${latitude}, Lng: ${longitude}`] built from the raw inputs. *)
Inductive addressText : Type :=
| Address (s : string)
| LatLng (latitude longitude : JS.value).

Module Location.
Record t : Type := {
  _id : objectId;
  employee : objectId;
  latitude : JS.number;
  longitude : JS.number;
  address : addressText;
  checkInTime : Z;
  checkOutTime : option Z;
  status : locationStatus;
  device : string;
  ipAddress : option string;
  accuracy : option JS.number;
  lastUpdated : Z;
  createdAt : Z
}.
End Location.

Inductive payStatus : Type := pending | paid | cancelled.

Definition payStatus_eqb (a b : payStatus) : bool :=
  match a, b with
  | pending, pending | paid, paid | cancelled, cancelled => true
  | _, _ => false
  end.

Inductive payMethod : Type := bank_transfer | cash | check | other.

(** One entry of [bonuses] or [deductions]. *)
Module LineItem.
Record t : Type := { description : string; amount : JS.number }.
End LineItem.

(** The nested [overtime] object, in a request body and in a document; a key
    that is not there is [None]. *)
Module Overtime.
Record t : Type := {
  hours : option JS.number;
  rate : option JS.number;
  amount : option JS.number
}.
End Overtime.

Module PaymentRecord.
Record t : Type := {
  _id : objectId;
  employee : objectId;
  weekStartDate : Z;
  weekEndDate : Z;
  (** ["Week of <start> - <end>"], kept as the two dates it prints. *)
  payPeriod : option (Z * Z);
  basicSalary : JS.number;
  overtime : Overtime.t;
  bonuses : list LineItem.t;
  deductions : list LineItem.t;
  grossPay : option JS.number;
  totalDeductions : JS.number;
  netPay : option JS.number;
  paymentStatus : payStatus;
  paymentDate : option Z;
  paymentMethod : payMethod;
  notes : option string;
  uploadedBy : objectId;
  isViewed : bool;
  viewedAt : option Z
}.
End PaymentRecord.

Record db : Type := {
  users : list User.t;
  employees : list Employee.t;
  locations : list Location.t;
  paymentRecords : list PaymentRecord.t
}.

(** What a handler can throw inside its [try] block. *)
Inductive exn : Type :=
| ValidationError (paths : list string)  (* Mongoose: cast or validator failed *)
| TypeError.                             (* property read on [null] *)

Inductive errorText : Type :=
| Msg (s : string)
| MessageOf (e : exn).             (* [err.message] *)

Inductive response : Type :=
| ValidationErrors                                   (* 400 { errors } *)
| Failure (status : nat) (error : errorText)         (* { success: false, error } *)
| LocationOk (status : nat) (data : Location.t)
| PaymentOk (status : nat) (data : PaymentRecord.t)
| EmptyOk (status : nat).

Definition statusOf (r : response) : nat :=
  match r with
  | ValidationErrors => 400
  | Failure s _ | LocationOk s _ | PaymentOk s _ | EmptyOk s => s
  end.

Record env : Type := {
  now : Z;                  (* Date.now() *)
  ip : option string        (* req.ip || req.connection.remoteAddress || ... *)
}.

(* ------------------------------------------------------------------ *)
(** *** Control flow of a handler body *)

Inductive step (A : Type) : Type :=
| Next (a : A)
| Reply (r : response)      (* [return res.status(..).json(..)] *)
| Throw (e : exn).

Arguments Next {A} a.
Arguments Reply {A} r.
Arguments Throw {A} e.

Definition bind {A B : Type} (c : step A) (k : A -> step B) : step B :=
  match c with
  | Next a => k a
  | Reply r => Reply r
  | Throw e => Throw e
  end.

Declare Scope step_scope.
Delimit Scope step_scope with step.
Notation "x <- c ;; k" := (bind c (fun x => k))
  (at level 61, c at next level, right associativity) : step_scope.
Notation "c ;;; k" := (bind c (fun _ => k))
  (at level 61, right associativity) : step_scope.
Open Scope step_scope.

(** [if (!x) return reply] *)
Definition orReply {A : Type} (o : option A) (r : response) : step A :=
  match o with Some a => Next a | None => Reply r end.

(** a property of [x] is read: [TypeError] when [x] is [null] *)
Definition deref {A : Type} (o : option A) : step A :=
  match o with Some a => Next a | None => Throw TypeError end.

(** [if (b) return reply] *)
Definition replyIf (b : bool) (r : response) : step unit :=
  if b then Reply r else Next tt.

(** [try { body } catch (err) { onError(err) }]: the database is only
    written by the last statements of a body, so a throw leaves it as it
    was. *)
Definition tryCatch (d : db) (onError : exn -> response)
    (body : step (response * db)) : response * db :=
  match body with
  | Next out => out
  | Reply r => (r, d)
  | Throw e => (onError e, d)
  end.

Definition serverError (_ : exn) : response := Failure 500 (Msg "Server Error").

(* ------------------------------------------------------------------ *)
(** *** Collections *)

Section Collection.
Variable doc : Type.
Variable docId : doc -> objectId.

Definition findOne (p : doc -> bool) (l : list doc) : option doc := find p l.

Definition findById (i : objectId) (l : list doc) : option doc :=
  find (fun x => docId x =? i) l.

(** [findByIdAndUpdate] / [doc.save()] of a loaded document *)
Fixpoint updateById (i : objectId) (f : doc -> doc) (l : list doc) : list doc :=
  match l with
  | [] => []
  | x :: r => if docId x =? i then f x :: r else x :: updateById i f r
  end.

Fixpoint deleteById (i : objectId) (l : list doc) : list doc :=
  match l with
  | [] => []
  | x :: r => if docId x =? i then r else x :: deleteById i r
  end.

(** A new [_id]: one that no document of the collection carries. *)
Definition freshId (l : list doc) : objectId := S (list_max (map docId l)).
End Collection.


Definition isSome {A : Type} (o : option A) : bool :=
  match o with Some _ => true | None => false end.

(** Mongoose casts and validates every path and throws one error that
    names the paths that failed; nothing is thrown when there are none. *)
Definition throwIfAny (paths : list string) : step unit :=
  match paths with
  | [] => Next tt
  | _ => Throw (ValidationError paths)
  end.

(** The cast of a [Number] path refuses [NaN]. *)
Definition nanAt (path : string) (n : JS.number) : list string :=
  if JS.isNaN n then [path] else [].

Definition nanAtOpt (path : string) (o : option JS.number) : list string :=
  match o with Some n => nanAt path n | None => [] end.

(* ================================================================== *)
(** ** controllers/locations.js *)
(* ================================================================== *)

Module Locations.

Record checkInBody : Type := {
  latitude : JS.value;
  longitude : JS.value;
  address : option string;
  device : option string;
  accuracy : JS.value
}.

Record liveUpdateBody : Type := {
  liveLatitude : JS.value;
  liveLongitude : JS.value;
  liveAccuracy : JS.value
}.

(** routes/locations.js, [check(field).not().isEmpty()], for a field sent
    in the body: the validator looks at the text of the value, which is
    empty for [undefined], [null], [NaN] and [""]. *)
Definition notEmpty (v : JS.value) : bool :=
  match v with
  | JS.JUndefined | JS.JNull => false
  | JS.JBool _ => true
  | JS.JNum n => negb (JS.isNaN n)
  | JS.JStr s => negb (String.eqb s EmptyString)
  end.

Definition checkinValidation (b : checkInBody) : bool :=
  notEmpty (latitude b) && notEmpty (longitude b).

Definition isOpenSessionOf (e : objectId) (l : Location.t) : bool :=
  (Location.employee l =? e) && locationStatus_eqb (Location.status l) checked_in.

(** [Location.create({...})] of [checkIn]: cast, validate, insert. *)
Definition Location_create (ev : env) (d : db) (employeeId : objectId)
    (lat lng : JS.number) (addr : addressText) (dev : string)
    (acc : option JS.number) : step Location.t :=
  throwIfAny (nanAt "latitude" lat ++ nanAt "longitude" lng
              ++ nanAtOpt "accuracy" acc) ;;;
  Next {| Location._id := freshId Location._id (locations d);
          Location.employee := employeeId;
          Location.latitude := lat;
          Location.longitude := lng;
          Location.address := addr;
          Location.checkInTime := now ev;
          Location.checkOutTime := None;
          Location.status := checked_in;
          Location.device := dev;
          Location.ipAddress := ip ev;
          Location.accuracy := acc;
          Location.lastUpdated := now ev;
          Location.createdAt := now ev |}.

Definition pushLocation (i : objectId) (e : Employee.t) : Employee.t :=
  {| Employee._id := Employee._id e;
     Employee.user := Employee.user e;
     Employee.locations := Employee.locations e ++ [i] |}.

Definition checkIn (ev : env) (u : caller) (b : checkInBody) (d : db)
  : response * db :=
  if negb (checkinValidation b) then (ValidationErrors, d) else
  tryCatch d (fun err => Failure 500 (MessageOf err)) (
    (* Prevent admin from checking in *)
    replyIf (role_eqb (userRole u) admin)
      (Failure 403 (Msg "Admins cannot check in. Only employees can check in.")) ;;;
    (* Find employee *)
    employee <- orReply (findOne (fun e => Employee.user e =? id u) (employees d))
                  (Failure 404 (Msg "Employee not found")) ;;
    (* Check if employee is already checked in *)
    replyIf (isSome (findOne (isOpenSessionOf (Employee._id employee)) (locations d)))
      (Failure 400 (Msg "You are already checked in. Please check out first.")) ;;;
    location <- Location_create ev d (Employee._id employee)
                  (JS.parseFloat (latitude b))
                  (JS.parseFloat (longitude b))
                  (match address b with
                   | Some s => if String.eqb s EmptyString
                               then LatLng (latitude b) (longitude b)
                               else Address s
                   | None => LatLng (latitude b) (longitude b)
                   end)
                  (match device b with
                   | Some s => if String.eqb s EmptyString
                               then "Unknown Device"%string else s
                   | None => "Unknown Device"%string
                   end)
                  (if JS.truthy (accuracy b)
                   then Some (JS.parseFloat (accuracy b)) else None) ;;
    (* Add location to employee's locations array *)
    Next (LocationOk 201 location,
          {| users := users d;
             employees := updateById Employee._id (Employee._id employee)
                            (pushLocation (Location._id location)) (employees d);
             locations := locations d ++ [location];
             paymentRecords := paymentRecords d |})).

(** [checkIn] in the two stretches another request can come between.  Every
    [await] of the handler hands control back to the server, and the query
    for an open session (line 126) and [Location.create] (line 143) are two
    trips to the database: [checkInPrecheck] is what the handler does up to
    the first, reading only, and [checkInStore] what it does from the second
    on, against the database as it is by then. *)
Definition checkInPrecheck (u : caller) (b : checkInBody) (d : db)
  : step Employee.t :=
  replyIf (negb (checkinValidation b)) ValidationErrors ;;;
  (* Prevent admin from checking in *)
  replyIf (role_eqb (userRole u) admin)
    (Failure 403 (Msg "Admins cannot check in. Only employees can check in.")) ;;;
  (* Find employee *)
  employee <- orReply (findOne (fun e => Employee.user e =? id u) (employees d))
                (Failure 404 (Msg "Employee not found")) ;;
  (* Check if employee is already checked in *)
  replyIf (isSome (findOne (isOpenSessionOf (Employee._id employee)) (locations d)))
    (Failure 400 (Msg "You are already checked in. Please check out first.")) ;;;
  Next employee.

Definition checkInStore (ev : env) (b : checkInBody) (employee : Employee.t)
    (d : db) : step (response * db) :=
  location <- Location_create ev d (Employee._id employee)
                (JS.parseFloat (latitude b))
                (JS.parseFloat (longitude b))
                (match address b with
                 | Some s => if String.eqb s EmptyString
                             then LatLng (latitude b) (longitude b)
                             else Address s
                 | None => LatLng (latitude b) (longitude b)
                 end)
                (match device b with
                 | Some s => if String.eqb s EmptyString
                             then "Unknown Device"%string else s
                 | None => "Unknown Device"%string
                 end)
                (if JS.truthy (accuracy b)
                 then Some (JS.parseFloat (accuracy b)) else None) ;;
  (* Add location to employee's locations array *)
  Next (LocationOk 201 location,
        {| users := users d;
           employees := updateById Employee._id (Employee._id employee)
                          (pushLocation (Location._id location)) (employees d);
           locations := locations d ++ [location];
           paymentRecords := paymentRecords d |}).

(** The handler taken up again on the database [d], with what its pre-check
    found. *)
Definition checkInResume (ev : env) (b : checkInBody)
    (checked : step Employee.t) (d : db) : response * db :=
  tryCatch d (fun err => Failure 500 (MessageOf err)) (
    employee <- checked ;; checkInStore ev b employee d).

Definition setLocations (ls : list Location.t) (d : db) : db :=
  {| users := users d; employees := employees d; locations := ls;
     paymentRecords := paymentRecords d |}.

Definition getLocation (u : caller) (i : objectId) (d : db) : response * db :=
  tryCatch d serverError (
    location <- orReply (findById Location._id i (locations d))
                  (Failure 404 (Msg "Location not found")) ;;
    (* Make sure user is location owner or admin *)
    (if negb (role_eqb (userRole u) admin) then
       employee <- deref (findById Employee._id (Location.employee location)
                            (employees d)) ;;
       owner <- deref (findById User._id (Employee.user employee) (users d)) ;;
       replyIf (negb (User._id owner =? id u))
         (Failure 403 (Msg "Not authorized to access this location"))
     else Next tt) ;;;
    Next (LocationOk 200 location, d)).

Definition closeSession (t : Z) (l : Location.t) : Location.t :=
  {| Location._id := Location._id l;
     Location.employee := Location.employee l;
     Location.latitude := Location.latitude l;
     Location.longitude := Location.longitude l;
     Location.address := Location.address l;
     Location.checkInTime := Location.checkInTime l;
     Location.checkOutTime := Some t;
     Location.status := checked_out;
     Location.device := Location.device l;
     Location.ipAddress := Location.ipAddress l;
     Location.accuracy := Location.accuracy l;
     Location.lastUpdated := Location.lastUpdated l;
     Location.createdAt := Location.createdAt l |}.

Definition checkOut (ev : env) (u : caller) (i : objectId) (d : db)
  : response * db :=
  tryCatch d serverError (
    location <- orReply (findById Location._id i (locations d))
                  (Failure 404 (Msg "Location not found")) ;;
    (* Make sure user is location owner *)
    employee <- deref (findById Employee._id (Location.employee location)
                         (employees d)) ;;
    replyIf (negb (Employee.user employee =? id u))
      (Failure 403 (Msg "Not authorized to check out from this location")) ;;;
    (* Update location *)
    Next (LocationOk 200 (closeSession (now ev) location),
          setLocations (updateById Location._id i (closeSession (now ev))
                          (locations d)) d)).

(** How [req.params.id] spells the identifier it stands for.  [findById]
    and [findByIdAndDelete] cast the text, and the cast reads hexadecimal
    digits in either case; [toString()] of a stored identifier prints them
    in lower case.  A text is [AsPrinted] when it is what [toString()]
    prints for the identifier it casts to, and [OtherCase] when some digit
    is in upper case. *)
Inductive spelling : Type := AsPrinted | OtherCase.

(** [loc.toString() === req.params.id], for a parameter that casts to [i]:
    a text with an upper-case digit is the [toString()] of no identifier. *)
Definition sameText (txt : spelling) (loc i : objectId) : bool :=
  match txt with
  | AsPrinted => loc =? i
  | OtherCase => false
  end.

Definition dropLocation (txt : spelling) (i : objectId) (e : Employee.t)
  : Employee.t :=
  {| Employee._id := Employee._id e;
     Employee.user := Employee.user e;
     Employee.locations :=
       filter (fun loc => negb (sameText txt loc i)) (Employee.locations e) |}.

Definition deleteLocation (u : caller) (i : objectId) (txt : spelling) (d : db)
  : response * db :=
  tryCatch d serverError (
    location <- orReply (findById Location._id i (locations d))
                  (Failure 404 (Msg "Location not found")) ;;
    (* Make sure user is admin *)
    replyIf (negb (role_eqb (userRole u) admin))
      (Failure 403 (Msg "Not authorized to delete this location")) ;;;
    (* Remove location from employee's locations array *)
    employee <- deref (findById Employee._id (Location.employee location)
                         (employees d)) ;;
    Next (EmptyOk 200,
          {| users := users d;
             employees := updateById Employee._id (Employee._id employee)
                            (dropLocation txt i) (employees d);
             locations := deleteById Location._id i (locations d);
             paymentRecords := paymentRecords d |})).

Definition moveSession (t : Z) (lat lng : JS.number) (acc : option JS.number)
    (l : Location.t) : Location.t :=
  {| Location._id := Location._id l;
     Location.employee := Location.employee l;
     Location.latitude := lat;
     Location.longitude := lng;
     Location.address := Location.address l;
     Location.checkInTime := Location.checkInTime l;
     Location.checkOutTime := Location.checkOutTime l;
     Location.status := Location.status l;
     Location.device := Location.device l;
     Location.ipAddress := Location.ipAddress l;
     Location.accuracy := acc;
     Location.lastUpdated := t;
     Location.createdAt := Location.createdAt l |}.

Definition updateLiveLocation (ev : env) (u : caller) (i : objectId)
    (b : liveUpdateBody) (d : db) : response * db :=
  tryCatch d serverError (
    (* Find the location record *)
    location <- orReply (findById Location._id i (locations d))
                  (Failure 404 (Msg "Location not found")) ;;
    (* Make sure user is location owner *)
    employee <- deref (findById Employee._id (Location.employee location)
                         (employees d)) ;;
    replyIf (negb (Employee.user employee =? id u))
      (Failure 403 (Msg "Not authorized to update this location")) ;;;
    (* Make sure location is still checked in *)
    replyIf (negb (locationStatus_eqb (Location.status location) checked_in))
      (Failure 400 (Msg "Cannot update location for checked-out session")) ;;;
    (* Update location with new coordinates *)
    let lat := JS.parseFloat (liveLatitude b) in
    let lng := JS.parseFloat (liveLongitude b) in
    let acc := if JS.truthy (liveAccuracy b)
               then Some (JS.parseFloat (liveAccuracy b))
               else Location.accuracy location in
    throwIfAny (nanAt "latitude" lat ++ nanAt "longitude" lng
                ++ nanAtOpt "accuracy" acc) ;;;
    Next (LocationOk 200 (moveSession (now ev) lat lng acc location),
          setLocations (updateById Location._id i
                          (moveSession (now ev) lat lng acc) (locations d)) d)).

End Locations.

(* ================================================================== *)
(** ** models/PaymentRecord.js *)
(* ================================================================== *)

(** [n || 0] *)
Definition orZero (n : JS.number) : JS.number :=
  if JS.truthyNum n then n else JS.zero.

(** [items.reduce((sum, item) => sum + (item.amount || 0), 0)] *)
Definition reduceAmounts (items : list LineItem.t) : JS.number :=
  fold_left (fun sum item => JS.add sum (orZero (LineItem.amount item)))
    items JS.zero.

Module PaymentModel.
Import PaymentRecord.

(** The document after the assignments of a handler: the fields named by the
    arguments take the given values, every other field is kept. *)
Definition assign (r : t) (salary : JS.number) (ot : Overtime.t)
    (bs ds : list LineItem.t) (st : payStatus) (pd : option Z)
    (pm : payMethod) (ns : option string) : t :=
  {| _id := _id r; employee := employee r;
     weekStartDate := weekStartDate r; weekEndDate := weekEndDate r;
     payPeriod := payPeriod r;
     basicSalary := salary; overtime := ot; bonuses := bs; deductions := ds;
     grossPay := grossPay r; totalDeductions := totalDeductions r;
     netPay := netPay r;
     paymentStatus := st; paymentDate := pd; paymentMethod := pm; notes := ns;
     uploadedBy := uploadedBy r;
     isViewed := isViewed r; viewedAt := viewedAt r |}.

(** [paymentRecordSchema.pre('save', ...)]: calculate the totals and the pay
    period string. *)
Definition preSave (r : t) : t :=
  (* Calculate total bonuses *)
  let totalBonuses := reduceAmounts (bonuses r) in
  (* Calculate total deductions *)
  let totalDeductions' := reduceAmounts (deductions r) in
  (* Calculate gross pay (basic salary + overtime + bonuses) *)
  let basicSalary' := orZero (basicSalary r) in
  let overtimeAmount :=
    match Overtime.amount (overtime r) with
    | Some a => if JS.truthyNum a then a else JS.zero
    | None => JS.zero
    end in
  let grossPay' := JS.add (JS.add basicSalary' overtimeAmount) totalBonuses in
  (* Calculate net pay (gross pay - total deductions) *)
  let netPay' := JS.sub grossPay' totalDeductions' in
  {| _id := _id r; employee := employee r;
     weekStartDate := weekStartDate r; weekEndDate := weekEndDate r;
     payPeriod := Some (weekStartDate r, weekEndDate r);
     basicSalary := basicSalary r; overtime := overtime r;
     bonuses := bonuses r; deductions := deductions r;
     grossPay := Some grossPay'; totalDeductions := totalDeductions';
     netPay := Some netPay';
     paymentStatus := paymentStatus r; paymentDate := paymentDate r;
     paymentMethod := paymentMethod r; notes := notes r;
     uploadedBy := uploadedBy r;
     isViewed := isViewed r; viewedAt := viewedAt r |}.

(** [markAsViewed]: set the flag and the date, then [this.save()], which
    runs the pre-save hook. *)
Definition markAsViewed (t0 : Z) (r : t) : t :=
  preSave
    {| _id := _id r; employee := employee r;
       weekStartDate := weekStartDate r; weekEndDate := weekEndDate r;
       payPeriod := payPeriod r;
       basicSalary := basicSalary r; overtime := overtime r;
       bonuses := bonuses r; deductions := deductions r;
       grossPay := grossPay r; totalDeductions := totalDeductions r;
       netPay := netPay r;
       paymentStatus := paymentStatus r; paymentDate := paymentDate r;
       paymentMethod := paymentMethod r; notes := notes r;
       uploadedBy := uploadedBy r;
       isViewed := true; viewedAt := Some t0 |}.

(** Schema validators of a [Number] path with [min: 0]; the cast has already
    refused [NaN]. *)
Definition minZeroAt (path : string) (n : JS.number) : list string :=
  if JS.geZero n then [] else [path].

Definition minZeroAtOpt (path : string) (o : option JS.number) : list string :=
  match o with Some n => minZeroAt path n | None => [] end.

Definition maxLengthAt (path : string) (o : option string) : list string :=
  match o with
  | Some s => if (String.length s <=? 500)%nat then [] else [path]
  | None => []
  end.

(** The validators of the stored subdocuments of [bonuses] or [deductions]:
    [description] is [required], which an empty text does not meet, and
    [amount] is a number with [min: 0]. *)
Definition itemsPaths (path : string) (l : list LineItem.t) : list string :=
  if forallb (fun i => negb (String.eqb (LineItem.description i) EmptyString)
                       && JS.geZero (LineItem.amount i)) l
  then [] else [path].

(** The validation [save()] runs before the pre-save hook on a document
    that was loaded with [findById]: the schema validators of every path the
    document was loaded with, changed since or not.  [grossPay],
    [totalDeductions] and [netPay] are among them, with the values the
    document was stored with. *)
Definition validate (r : t) : list string :=
  minZeroAt "basicSalary" (basicSalary r)
  ++ minZeroAtOpt "overtime.hours" (Overtime.hours (overtime r))
  ++ minZeroAtOpt "overtime.rate" (Overtime.rate (overtime r))
  ++ minZeroAtOpt "overtime.amount" (Overtime.amount (overtime r))
  ++ itemsPaths "bonuses" (bonuses r)
  ++ itemsPaths "deductions" (deductions r)
  ++ minZeroAtOpt "grossPay" (grossPay r)
  ++ minZeroAt "totalDeductions" (totalDeductions r)
  ++ minZeroAtOpt "netPay" (netPay r)
  ++ maxLengthAt "notes" (notes r).

End PaymentModel.

(* ================================================================== *)
(** ** controllers/paymentRecords.js and its route validators *)
(* ================================================================== *)

Module Payments.
Import PaymentModel.

(** One entry of [req.body.bonuses] / [req.body.deductions]. *)
Module ItemBody.
Record t : Type := {
  description : option string;
  amount : option JS.number
}.
End ItemBody.

(** The body of [POST /api/payment-records].  Amounts are JSON numbers;
    the dates are the instants [new Date(...)] reads from the ISO strings.
    [grossPay], [totalDeductions] and [netPay] stand for values a client may
    put in the body under the names of the derived fields. *)
Module CreateBody.
Record t : Type := {
  employeeId : objectId;
  weekStartDate : Z;
  weekEndDate : Z;
  basicSalary : option JS.number;
  overtime : option Overtime.t;
  bonuses : option (list ItemBody.t);
  deductions : option (list ItemBody.t);
  paymentMethod : option payMethod;
  notes : option string;
  grossPay : option JS.number;
  totalDeductions : option JS.number;
  netPay : option JS.number
}.
End CreateBody.

(** The body of [PUT /api/payment-records/:id]. *)
Module UpdateBody.
Record t : Type := {
  basicSalary : option JS.number;
  overtime : option Overtime.t;
  bonuses : option (list ItemBody.t);
  deductions : option (list ItemBody.t);
  paymentStatus : option payStatus;
  paymentMethod : option payMethod;
  notes : option string;
  grossPay : option JS.number;
  totalDeductions : option JS.number;
  netPay : option JS.number
}.
End UpdateBody.

(* ------------------------------------------------------------------ *)
(** *** Route validators *)

(** [.isNumeric().isFloat({ min: 0 })] on a JSON number.  The validators
    read the text of the value, [String(n)], and [isNumeric] takes digits
    with at most one point and no exponent; a number prints without an
    exponent when it is 0 or lies between 1e-6 (included) and 1e21
    (excluded). *)
Definition printsPlain (q : Qc) : bool :=
  match Qccompare q (Q2Qc (1 # 1000000)),
        Qccompare q (Q2Qc (inject_Z (10 ^ 21))) with
  | Lt, _ => false
  | _, Lt => true
  | _, _ => false
  end.

Definition numericMin0 (n : JS.number) : bool :=
  match n with
  | JS.Fin q =>
      match Qccompare q (Q2Qc 0) with
      | Lt => false
      | Eq => true
      | Gt => printsPlain q
      end
  | _ => false
  end.

(** [.optional()] skips a field that is [undefined]. *)
Definition optional {A : Type} (p : A -> bool) (o : option A) : bool :=
  match o with Some a => p a | None => true end.

Definition notEmptyText (s : string) : bool := negb (String.eqb s EmptyString).

Definition itemValidation (i : ItemBody.t) : bool :=
  optional notEmptyText (ItemBody.description i)
  && optional numericMin0 (ItemBody.amount i).

Definition overtimeValidation (o : Overtime.t) : bool :=
  optional numericMin0 (Overtime.hours o)
  && optional numericMin0 (Overtime.rate o)
  && optional numericMin0 (Overtime.amount o).

(** [.isLength({ max: 500 })] counts characters; a text of the model has
    one UTF-16 unit per character, so its length is that count. *)
Definition notesValidation (s : string) : bool :=
  (String.length s <=? 500)%nat.

Definition createPaymentRecordValidation (b : CreateBody.t) : bool :=
  match CreateBody.basicSalary b with
  | Some n => numericMin0 n
  | None => false
  end
  && optional overtimeValidation (CreateBody.overtime b)
  && optional (forallb itemValidation) (CreateBody.bonuses b)
  && optional (forallb itemValidation) (CreateBody.deductions b)
  && optional notesValidation (CreateBody.notes b).

Definition updatePaymentRecordValidation (b : UpdateBody.t) : bool :=
  optional numericMin0 (UpdateBody.basicSalary b)
  && optional overtimeValidation (UpdateBody.overtime b)
  && optional (forallb itemValidation) (UpdateBody.bonuses b)
  && optional (forallb itemValidation) (UpdateBody.deductions b)
  && optional notesValidation (UpdateBody.notes b).

(* ------------------------------------------------------------------ *)
(** *** Casting request values into the document *)

Definition fromOption (o : option JS.number) : JS.value :=
  match o with Some n => JS.JNum n | None => JS.JUndefined end.

Definition truthyOpt (o : option JS.number) : bool := JS.truthy (fromOption o).

(** Operands of [hours * rate]; [undefined] is [NaN] as a number. *)
Definition toNumber (o : option JS.number) : JS.number :=
  match o with Some n => n | None => JS.NaN end.

(** [if (overtime.hours && overtime.rate) overtime.amount = hours * rate] *)
Definition processOvertime (o : Overtime.t) : Overtime.t :=
  if truthyOpt (Overtime.hours o) && truthyOpt (Overtime.rate o)
  then {| Overtime.hours := Overtime.hours o;
          Overtime.rate := Overtime.rate o;
          Overtime.amount :=
            Some (JS.mul (toNumber (Overtime.hours o))
                         (toNumber (Overtime.rate o))) |}
  else o.

(** The schema defaults ([default: 0]) of a new document's [overtime]. *)
Definition overtimeDefaults (o : Overtime.t) : Overtime.t :=
  let dflt (x : option JS.number) :=
    Some (match x with Some n => n | None => JS.zero end) in
  {| Overtime.hours := dflt (Overtime.hours o);
     Overtime.rate := dflt (Overtime.rate o);
     Overtime.amount := dflt (Overtime.amount o) |}.

(** An array entry becomes a subdocument: [description] and [amount] are
    [required], [amount] is a number with [min: 0]. *)
Definition castItem (i : ItemBody.t) : option LineItem.t :=
  match ItemBody.description i, ItemBody.amount i with
  | Some s, Some a =>
      if notEmptyText s && negb (JS.isNaN a) && JS.geZero a
      then Some {| LineItem.description := s; LineItem.amount := a |}
      else None
  | _, _ => None
  end.

Fixpoint castItems (l : list ItemBody.t) : option (list LineItem.t) :=
  match l with
  | [] => Some []
  | i :: r =>
      match castItem i, castItems r with
      | Some x, Some xs => Some (x :: xs)
      | _, _ => None
      end
  end.

Definition itemsAt (path : string) (l : list ItemBody.t) : list string :=
  if isSome (castItems l) then [] else [path].

Definition itemsOf (l : list ItemBody.t) : list LineItem.t :=
  match castItems l with Some xs => xs | None => [] end.

Definition overtimeAt (o : Overtime.t) : list string :=
  nanAtOpt "overtime.hours" (Overtime.hours o)
  ++ minZeroAtOpt "overtime.hours" (Overtime.hours o)
  ++ nanAtOpt "overtime.rate" (Overtime.rate o)
  ++ minZeroAtOpt "overtime.rate" (Overtime.rate o)
  ++ nanAtOpt "overtime.amount" (Overtime.amount o)
  ++ minZeroAtOpt "overtime.amount" (Overtime.amount o).

Definition sameWeek (e : objectId) (ws we : Z) (r : PaymentRecord.t) : bool :=
  (PaymentRecord.employee r =? e)
  && (PaymentRecord.weekStartDate r =? ws)%Z
  && (PaymentRecord.weekEndDate r =? we)%Z.

Definition setPayments (rs : list PaymentRecord.t) (d : db) : db :=
  {| users := users d; employees := employees d; locations := locations d;
     paymentRecords := rs |}.

(* ------------------------------------------------------------------ *)
(** *** Handlers *)

Definition createPaymentRecord (u : caller) (b : CreateBody.t) (d : db)
  : response * db :=
  tryCatch d (fun _ => Failure 500 (Msg "Failed to create payment record")) (
    replyIf (negb (createPaymentRecordValidation b))
      (Failure 400 (Msg "Validation failed")) ;;;
    (* Find employee by ID *)
    _ <- orReply (findById Employee._id (CreateBody.employeeId b) (employees d))
           (Failure 404 (Msg "Employee not found")) ;;
    (* Check if payment record already exists for this employee and week *)
    replyIf (isSome (findOne (sameWeek (CreateBody.employeeId b)
                                (CreateBody.weekStartDate b)
                                (CreateBody.weekEndDate b))
                       (paymentRecords d)))
      (Failure 400
         (Msg "Payment record already exists for this employee and week period")) ;;;
    (* Process overtime data *)
    let processedOvertime :=
      processOvertime
        (match CreateBody.overtime b with
         | Some o => o
         | None => {| Overtime.hours := Some JS.zero;
                      Overtime.rate := Some JS.zero;
                      Overtime.amount := Some JS.zero |}
         end) in
    (* Process bonuses and deductions *)
    let processedBonuses :=
      match CreateBody.bonuses b with Some l => l | None => [] end in
    let processedDeductions :=
      match CreateBody.deductions b with Some l => l | None => [] end in
    (* Create payment record *)
    let salary := JS.parseFloat (fromOption (CreateBody.basicSalary b)) in
    let ot := overtimeDefaults processedOvertime in
    (* await paymentRecord.save(): validation, then the pre-save hook *)
    throwIfAny (nanAt "basicSalary" salary ++ minZeroAt "basicSalary" salary
                ++ overtimeAt ot
                ++ itemsAt "bonuses" processedBonuses
                ++ itemsAt "deductions" processedDeductions
                ++ maxLengthAt "notes" (CreateBody.notes b)) ;;;
    let paymentRecord :=
      preSave
        {| PaymentRecord._id := freshId PaymentRecord._id (paymentRecords d);
           PaymentRecord.employee := CreateBody.employeeId b;
           PaymentRecord.weekStartDate := CreateBody.weekStartDate b;
           PaymentRecord.weekEndDate := CreateBody.weekEndDate b;
           PaymentRecord.payPeriod := None;
           PaymentRecord.basicSalary := salary;
           PaymentRecord.overtime := ot;
           PaymentRecord.bonuses := itemsOf processedBonuses;
           PaymentRecord.deductions := itemsOf processedDeductions;
           PaymentRecord.grossPay := None;
           PaymentRecord.totalDeductions := JS.zero;
           PaymentRecord.netPay := None;
           PaymentRecord.paymentStatus := pending;
           PaymentRecord.paymentDate := None;
           PaymentRecord.paymentMethod :=
             match CreateBody.paymentMethod b with
             | Some m => m
             | None => bank_transfer
             end;
           PaymentRecord.notes := CreateBody.notes b;
           PaymentRecord.uploadedBy := id u;
           PaymentRecord.isViewed := false;
           PaymentRecord.viewedAt := None |} in
    Next (PaymentOk 201 paymentRecord,
          setPayments (paymentRecords d ++ [paymentRecord]) d)).

Definition getPaymentRecord (ev : env) (u : caller) (i : objectId) (d : db)
  : response * db :=
  tryCatch d (fun _ => Failure 500 (Msg "Failed to fetch payment record")) (
    paymentRecord <- orReply (findById PaymentRecord._id i (paymentRecords d))
                       (Failure 404 (Msg "Payment record not found")) ;;
    (* Check if employee can access this payment record *)
    if negb (role_eqb (userRole u) admin) then
      match findOne (fun e => Employee.user e =? id u) (employees d) with
      | None => Reply (Failure 403 (Msg "Access denied"))
      | Some callerEmployee =>
          (* paymentRecord.employee is the populated document *)
          owner <- deref (findById Employee._id
                            (PaymentRecord.employee paymentRecord)
                            (employees d)) ;;
          replyIf (negb (Employee._id owner =? Employee._id callerEmployee))
            (Failure 403 (Msg "Access denied")) ;;;
          (* Mark as viewed if employee is viewing *)
          if negb (PaymentRecord.isViewed paymentRecord) then
            (* markAsViewed() ends in save(): validation, then the hook *)
            throwIfAny (validate paymentRecord) ;;;
            let viewed := markAsViewed (now ev) paymentRecord in
            Next (PaymentOk 200 viewed,
                  setPayments (updateById PaymentRecord._id i (fun _ => viewed)
                                 (paymentRecords d)) d)
          else Next (PaymentOk 200 paymentRecord, d)
      end
    else Next (PaymentOk 200 paymentRecord, d)).

Definition updatePaymentRecord (ev : env) (i : objectId) (b : UpdateBody.t)
    (d : db) : response * db :=
  tryCatch d (fun _ => Failure 500 (Msg "Failed to update payment record")) (
    replyIf (negb (updatePaymentRecordValidation b))
      (Failure 400 (Msg "Validation failed")) ;;;
    paymentRecord <- orReply (findById PaymentRecord._id i (paymentRecords d))
                       (Failure 404 (Msg "Payment record not found")) ;;
    (* Update fields with proper processing *)
    let salary :=
      match UpdateBody.basicSalary b with
      | Some n => JS.parseFloat (JS.JNum n)
      | None => PaymentRecord.basicSalary paymentRecord
      end in
    let ot :=
      match UpdateBody.overtime b with
      | Some o => processOvertime o
      | None => PaymentRecord.overtime paymentRecord
      end in
    let bs :=
      match UpdateBody.bonuses b with
      | Some l => itemsOf l
      | None => PaymentRecord.bonuses paymentRecord
      end in
    let ds :=
      match UpdateBody.deductions b with
      | Some l => itemsOf l
      | None => PaymentRecord.deductions paymentRecord
      end in
    let st :=
      match UpdateBody.paymentStatus b with
      | Some s => s
      | None => PaymentRecord.paymentStatus paymentRecord
      end in
    let pm :=
      match UpdateBody.paymentMethod b with
      | Some m => m
      | None => PaymentRecord.paymentMethod paymentRecord
      end in
    let ns :=
      match UpdateBody.notes b with
      | Some s => Some s
      | None => PaymentRecord.notes paymentRecord
      end in
    (* Set payment date if status is being changed to paid: the test reads
       paymentRecord.paymentStatus after it has been assigned above *)
    let pd :=
      if isSome (UpdateBody.paymentStatus b)
         && optional (fun s => payStatus_eqb s paid) (UpdateBody.paymentStatus b)
         && negb (payStatus_eqb st paid)
      then Some (now ev)
      else PaymentRecord.paymentDate paymentRecord in
    (* await paymentRecord.save(): the values assigned above are cast, every
       path of the document is validated, then the pre-save hook runs *)
    throwIfAny
      (validate (assign paymentRecord salary ot bs ds st pd pm ns)
       ++ match UpdateBody.basicSalary b with
       | Some _ => nanAt "basicSalary" salary ++ minZeroAt "basicSalary" salary
       | None => []
       end
       ++ match UpdateBody.overtime b with
          | Some _ => overtimeAt ot
          | None => []
          end
       ++ match UpdateBody.bonuses b with
          | Some l => itemsAt "bonuses" l
          | None => []
          end
       ++ match UpdateBody.deductions b with
          | Some l => itemsAt "deductions" l
          | None => []
          end
       ++ match UpdateBody.notes b with
          | Some _ => maxLengthAt "notes" ns
          | None => []
          end) ;;;
    let saved := preSave (assign paymentRecord salary ot bs ds st pd pm ns) in
    Next (PaymentOk 200 saved,
          setPayments (updateById PaymentRecord._id i (fun _ => saved)
                         (paymentRecords d)) d)).

Definition deletePaymentRecord (i : objectId) (d : db) : response * db :=
  tryCatch d (fun _ => Failure 500 (Msg "Failed to delete payment record")) (
    _ <- orReply (findById PaymentRecord._id i (paymentRecords d))
           (Failure 404 (Msg "Payment record not found")) ;;
    Next (EmptyOk 200,
          setPayments (deleteById PaymentRecord._id i (paymentRecords d)) d)).

End Payments.

(* ================================================================== *)
(** ** The API: routes/locations.js and the payment-record routes *)
(* ================================================================== *)

(** A request to one of the routes.  An identifier in a URL is given by the
    identifier it casts to; [DeleteLocation] carries its spelling as well,
    which [deleteLocation] is the one handler to look at. *)
Inductive request : Type :=
| CheckIn (b : Locations.checkInBody)
| GetLocation (i : objectId)
| CheckOut (i : objectId)
| DeleteLocation (i : objectId) (txt : Locations.spelling)
| UpdateLiveLocation (i : objectId) (b : Locations.liveUpdateBody)
| CreatePaymentRecord (b : Payments.CreateBody.t)
| GetPaymentRecord (i : objectId)
| UpdatePaymentRecord (i : objectId) (b : Payments.UpdateBody.t)
| DeletePaymentRecord (i : objectId).

(** Modelled from the spec: [authorize(role)] of middleware/auth.js, which is
    not part of the sources.  Section 4.1: [authorizeRole(caller,
    requiredRole)] gates an operation restricted to a single role regardless
    of ownership, and a denial is a distinguishable "forbidden" outcome. *)
Definition authorize (required : role) (u : caller)
    (next : db -> response * db) (d : db) : response * db :=
  if role_eqb (userRole u) required then next d
  else (Failure 403 (Msg "Forbidden"), d).

Definition handle (ev : env) (u : caller) (req : request) (d : db)
  : response * db :=
  match req with
  | CheckIn b => Locations.checkIn ev u b d
  | GetLocation i => Locations.getLocation u i d
  | CheckOut i => Locations.checkOut ev u i d
  | DeleteLocation i txt =>
      authorize admin u (Locations.deleteLocation u i txt) d
  | UpdateLiveLocation i b => Locations.updateLiveLocation ev u i b d
  | CreatePaymentRecord b =>
      authorize admin u (Payments.createPaymentRecord u b) d
  | GetPaymentRecord i => Payments.getPaymentRecord ev u i d
  | UpdatePaymentRecord i b =>
      authorize admin u (Payments.updatePaymentRecord ev i b) d
  | DeletePaymentRecord i =>
      authorize admin u (Payments.deletePaymentRecord i) d
  end.

(** The database after a sequence of requests, oldest first. *)
Fixpoint run (reqs : list (env * caller * request)) (d : db) : db :=
  match reqs with
  | [] => d
  | (ev, u, req) :: rest => run rest (snd (handle ev u req d))
  end.

(** Two check-ins that overlap: both handlers have made their pre-check
    before either stores its session. *)
Definition overlappingCheckIns (ev1 ev2 : env) (u1 u2 : caller)
    (b1 b2 : Locations.checkInBody) (d : db) : response * response * db :=
  let checked1 := Locations.checkInPrecheck u1 b1 d in
  let checked2 := Locations.checkInPrecheck u2 b2 d in
  let (r1, d1) := Locations.checkInResume ev1 b1 checked1 d in
  let (r2, d2) := Locations.checkInResume ev2 b2 checked2 d1 in
  (r1, r2, d2).

Definition emptyDb : db :=
  {| users := []; employees := []; locations := []; paymentRecords := [] |}.

(* ================================================================== *)
(** ** Properties stated by the specification *)
(* ================================================================== *)

(** The sum of the amounts of a list of bonuses or deductions, added up
    from 0 in the order of the array, [((0 + a1) + a2) + ...], the order in
    which the hook's [reduce] adds them: the statements below then hold for
    whatever [+] computes, and lean on no law of addition. *)
Definition sumAmounts (items : list LineItem.t) : JS.number :=
  fold_left (fun sum item => JS.add sum (LineItem.amount item)) items JS.zero.

(** The overtime amount of a record; an amount that was never set counts
    for nothing. *)
Definition overtimeAmount (r : PaymentRecord.t) : JS.number :=
  match Overtime.amount (PaymentRecord.overtime r) with
  | Some a => a
  | None => JS.zero
  end.

(** The three derived fields agree with the fields they derive from. *)
Definition derivedOk (r : PaymentRecord.t) : Prop :=
  PaymentRecord.grossPay r
    = Some (JS.add (JS.add (PaymentRecord.basicSalary r) (overtimeAmount r))
                   (sumAmounts (PaymentRecord.bonuses r)))
  /\ PaymentRecord.totalDeductions r = sumAmounts (PaymentRecord.deductions r)
  /\ (exists g, PaymentRecord.grossPay r = Some g
                /\ PaymentRecord.netPay r
                   = Some (JS.sub g (PaymentRecord.totalDeductions r))).

Definition itemOk (i : LineItem.t) : Prop := JS.isNaN (LineItem.amount i) = false.

(** The amounts of a stored record are numbers: the cast lets no [NaN] in. *)
Definition castOk (r : PaymentRecord.t) : Prop :=
  JS.isNaN (PaymentRecord.basicSalary r) = false
  /\ JS.isNaN (overtimeAmount r) = false
  /\ Forall itemOk (PaymentRecord.bonuses r)
  /\ Forall itemOk (PaymentRecord.deductions r).

Definition paymentsOk (d : db) : Prop :=
  forall r, In r (paymentRecords d) -> castOk r /\ derivedOk r.

(** At most one open session per employee. *)
Definition openSessionsUnique (d : db) : Prop :=
  forall e, List.length (filter (Locations.isOpenSessionOf e) (locations d)) <= 1.

(** At most one payment record per employee and week window. *)
Definition weekUnique (d : db) : Prop :=
  forall e ws we,
    List.length (filter (Payments.sameWeek e ws we) (paymentRecords d)) <= 1.

(** The request with other client-supplied values under the names of the
    derived fields. *)
Definition withClientTotals (g t n : option JS.number) (req : request)
  : request :=
  match req with
  | CreatePaymentRecord b =>
      CreatePaymentRecord
        {| Payments.CreateBody.employeeId := Payments.CreateBody.employeeId b;
           Payments.CreateBody.weekStartDate := Payments.CreateBody.weekStartDate b;
           Payments.CreateBody.weekEndDate := Payments.CreateBody.weekEndDate b;
           Payments.CreateBody.basicSalary := Payments.CreateBody.basicSalary b;
           Payments.CreateBody.overtime := Payments.CreateBody.overtime b;
           Payments.CreateBody.bonuses := Payments.CreateBody.bonuses b;
           Payments.CreateBody.deductions := Payments.CreateBody.deductions b;
           Payments.CreateBody.paymentMethod := Payments.CreateBody.paymentMethod b;
           Payments.CreateBody.notes := Payments.CreateBody.notes b;
           Payments.CreateBody.grossPay := g;
           Payments.CreateBody.totalDeductions := t;
           Payments.CreateBody.netPay := n |}
  | UpdatePaymentRecord i b =>
      UpdatePaymentRecord i
        {| Payments.UpdateBody.basicSalary := Payments.UpdateBody.basicSalary b;
           Payments.UpdateBody.overtime := Payments.UpdateBody.overtime b;
           Payments.UpdateBody.bonuses := Payments.UpdateBody.bonuses b;
           Payments.UpdateBody.deductions := Payments.UpdateBody.deductions b;
           Payments.UpdateBody.paymentStatus := Payments.UpdateBody.paymentStatus b;
           Payments.UpdateBody.paymentMethod := Payments.UpdateBody.paymentMethod b;
           Payments.UpdateBody.notes := Payments.UpdateBody.notes b;
           Payments.UpdateBody.grossPay := g;
           Payments.UpdateBody.totalDeductions := t;
           Payments.UpdateBody.netPay := n |}
  | _ => req
  end.

Definition isPaymentWrite (req : request) : bool :=
  match req with
  | CreatePaymentRecord _ | UpdatePaymentRecord _ _ => true
  | _ => false
  end.

(** The fields of a payment record that no edit touches. *)
Definition sameIdentity (r r' : PaymentRecord.t) : Prop :=
  PaymentRecord._id r' = PaymentRecord._id r
  /\ PaymentRecord.employee r' = PaymentRecord.employee r
  /\ PaymentRecord.weekStartDate r' = PaymentRecord.weekStartDate r
  /\ PaymentRecord.weekEndDate r' = PaymentRecord.weekEndDate r
  /\ PaymentRecord.uploadedBy r' = PaymentRecord.uploadedBy r
  /\ PaymentRecord.isViewed r' = PaymentRecord.isViewed r
  /\ PaymentRecord.viewedAt r' = PaymentRecord.viewedAt r.


Definition isFailure (r : response) : Prop :=
  match r with
  | ValidationErrors | Failure _ _ => True
  | _ => False
  end.

(* ================================================================== *)
(** ** A small database and a few requests *)
(* ================================================================== *)

Definition num (z : Z) : JS.number := JS.Fin (Q2Qc (inject_Z z)).

Definition at_time (t : Z) : env := {| now := t; ip := Some "10.0.0.7"%string |}.

Definition adminCaller : caller := {| id := 1; userRole := admin |}.
Definition aliceCaller : caller := {| id := 2; userRole := employee |}.
Definition bobCaller : caller := {| id := 3; userRole := employee |}.

(** An administrator and two employees, nobody checked in, nobody paid. *)
Definition sampleDb : db :=
  {| users := [ {| User._id := 1; User.role := admin |};
                {| User._id := 2; User.role := employee |};
                {| User._id := 3; User.role := employee |} ];
     employees := [ {| Employee._id := 10; Employee.user := 2;
                       Employee.locations := [] |};
                    {| Employee._id := 11; Employee.user := 3;
                       Employee.locations := [] |} ];
     locations := [];
     paymentRecords := [] |}.

(** Week 2024-01-01..2024-01-07 for employee 10: salary 1000, one bonus of
    50, one deduction of 20, no overtime. *)
Definition janBody : Payments.CreateBody.t :=
  {| Payments.CreateBody.employeeId := 10;
     Payments.CreateBody.weekStartDate := 1704067200000;
     Payments.CreateBody.weekEndDate := 1704585600000;
     Payments.CreateBody.basicSalary := Some (num 1000);
     Payments.CreateBody.overtime := None;
     Payments.CreateBody.bonuses :=
       Some [ {| Payments.ItemBody.description := Some "referral"%string;
                 Payments.ItemBody.amount := Some (num 50) |} ];
     Payments.CreateBody.deductions :=
       Some [ {| Payments.ItemBody.description := Some "uniform"%string;
                 Payments.ItemBody.amount := Some (num 20) |} ];
     Payments.CreateBody.paymentMethod := None;
     Payments.CreateBody.notes := None;
     Payments.CreateBody.grossPay := Some (num 999999);
     Payments.CreateBody.totalDeductions := Some (num 0);
     Payments.CreateBody.netPay := Some (num 999999) |}.

Definition officeBody : Locations.checkInBody :=
  {| Locations.latitude := JS.JStr "12.97";
     Locations.longitude := JS.JStr "77.59";
     Locations.address := None;
     Locations.device := Some "Pixel 8"%string;
     Locations.accuracy := JS.JNum (num 15) |}.

(** The sample database after Alice checked in at time 100. *)
Definition aliceIn : db :=
  snd (handle (at_time 100) aliceCaller (CheckIn officeBody) sampleDb).

Definition conflict : response :=
  Failure 400
    (Msg "Payment record already exists for this employee and week period").

(** The sample database after the administrator stored [janBody]. *)
Definition janDb : db :=
  snd (handle (at_time 5) adminCaller (CreatePaymentRecord janBody) sampleDb).

(** Another record for the same employee and week, with other amounts. *)
Definition janRetry : Payments.CreateBody.t :=
  {| Payments.CreateBody.employeeId := 10;
     Payments.CreateBody.weekStartDate := 1704067200000;
     Payments.CreateBody.weekEndDate := 1704585600000;
     Payments.CreateBody.basicSalary := Some (num 2000);
     Payments.CreateBody.overtime := None;
     Payments.CreateBody.bonuses := None;
     Payments.CreateBody.deductions := None;
     Payments.CreateBody.paymentMethod := Some cash;
     Payments.CreateBody.notes := None;
     Payments.CreateBody.grossPay := None;
     Payments.CreateBody.totalDeductions := None;
     Payments.CreateBody.netPay := None |}.

(** The sample database after Alice checked out at time 300. *)
Definition aliceOut : db :=
  snd (handle (at_time 300) aliceCaller (CheckOut 1) aliceIn).

Definition moveBody : Locations.liveUpdateBody :=
  {| Locations.liveLatitude := JS.JStr "12.98";
     Locations.liveLongitude := JS.JStr "77.60";
     Locations.liveAccuracy := JS.JUndefined |}.

Definition forbiddenRead : response :=
  Failure 403 (Msg "Not authorized to access this location").
Definition forbiddenCheckOut : response :=
  Failure 403 (Msg "Not authorized to check out from this location").
Definition forbiddenLiveUpdate : response :=
  Failure 403 (Msg "Not authorized to update this location").
Definition sessionClosed : response :=
  Failure 400 (Msg "Cannot update location for checked-out session").

(** The overtime object a payment request carries, if any. *)
Definition suppliedOvertime (req : request) : option Overtime.t :=
  match req with
  | CreatePaymentRecord b => Payments.CreateBody.overtime b
  | UpdatePaymentRecord _ b => Payments.UpdateBody.overtime b
  | _ => None
  end.

(** What is stored as [overtime.amount] for a supplied [overtime] object:
    [hours * rate] when both are non-zero numbers, the supplied amount when
    one of them is missing or zero. *)
Definition overtimeRule (supplied stored : Overtime.t) : Prop :=
  (forall h r,
      Overtime.hours supplied = Some h -> Overtime.rate supplied = Some r ->
      JS.truthyNum h = true -> JS.truthyNum r = true ->
      Overtime.amount stored = Some (JS.mul h r))
  /\ (forall a,
         Payments.truthyOpt (Overtime.hours supplied)
         && Payments.truthyOpt (Overtime.rate supplied) = false ->
         Overtime.amount supplied = Some a ->
         Overtime.amount stored = Some a).

(** Two hours at 10, and an amount of 5 given explicitly. *)
Definition overtimeBody : Payments.CreateBody.t :=
  {| Payments.CreateBody.employeeId := 11;
     Payments.CreateBody.weekStartDate := 1704067200000;
     Payments.CreateBody.weekEndDate := 1704585600000;
     Payments.CreateBody.basicSalary := Some (num 1000);
     Payments.CreateBody.overtime :=
       Some {| Overtime.hours := Some (num 2);
               Overtime.rate := Some (num 10);
               Overtime.amount := Some (num 5) |};
     Payments.CreateBody.bonuses := None;
     Payments.CreateBody.deductions := None;
     Payments.CreateBody.paymentMethod := None;
     Payments.CreateBody.notes := None;
     Payments.CreateBody.grossPay := None;
     Payments.CreateBody.totalDeductions := None;
     Payments.CreateBody.netPay := None |}.

(** The same hours and rate, no amount. *)
Definition overtimeUpdate : Payments.UpdateBody.t :=
  {| Payments.UpdateBody.basicSalary := None;
     Payments.UpdateBody.overtime :=
       Some {| Overtime.hours := Some (num 3);
               Overtime.rate := Some (num 10);
               Overtime.amount := None |};
     Payments.UpdateBody.bonuses := None;
     Payments.UpdateBody.deductions := None;
     Payments.UpdateBody.paymentStatus := None;
     Payments.UpdateBody.paymentMethod := None;
     Payments.UpdateBody.notes := None;
     Payments.UpdateBody.grossPay := None;
     Payments.UpdateBody.totalDeductions := None;
     Payments.UpdateBody.netPay := None |}.

(** The raw latitude, longitude and accuracy of a check-in or live update. *)
Definition suppliedCoordinates (req : request)
  : option (JS.value * JS.value * JS.value) :=
  match req with
  | CheckIn b =>
      Some (Locations.latitude b, Locations.longitude b, Locations.accuracy b)
  | UpdateLiveLocation _ b =>
      Some (Locations.liveLatitude b, Locations.liveLongitude b,
            Locations.liveAccuracy b)
  | _ => None
  end.

(** [parseFloat] finds no number at the head of the latitude, the longitude
    or an accuracy that is used. *)
Definition coordinatesNaN (c : JS.value * JS.value * JS.value) : bool :=
  let '(lat, lng, acc) := c in
  JS.isNaN (JS.parseFloat lat) || JS.isNaN (JS.parseFloat lng)
  || (JS.truthy acc && JS.isNaN (JS.parseFloat acc)).

Definition isLocationWrite (req : request) : bool :=
  match req with
  | CheckIn _ | UpdateLiveLocation _ _ => true
  | _ => false
  end.

Definition noNaN (l : Location.t) : Prop :=
  JS.isNaN (Location.latitude l) = false
  /\ JS.isNaN (Location.longitude l) = false
  /\ (forall a, Location.accuracy l = Some a -> JS.isNaN a = false).

(** A latitude with a numeric prefix and a tail that is not numeric. *)
Definition prefixBody : Locations.checkInBody :=
  {| Locations.latitude := JS.JStr "12abc";
     Locations.longitude := JS.JStr "77.59";
     Locations.address := None;
     Locations.device := None;
     Locations.accuracy := JS.JUndefined |}.

(** A latitude with no number in it. *)
Definition wordBody : Locations.checkInBody :=
  {| Locations.latitude := JS.JStr "north";
     Locations.longitude := JS.JStr "77.59";
     Locations.address := None;
     Locations.device := None;
     Locations.accuracy := JS.JUndefined |}.

Definition wordMove : Locations.liveUpdateBody :=
  {| Locations.liveLatitude := JS.JStr "12.98";
     Locations.liveLongitude := JS.JStr "77.60";
     Locations.liveAccuracy := JS.JStr "good" |}.

(** An update that only sets the status to paid. *)
Definition markPaid : Payments.UpdateBody.t :=
  {| Payments.UpdateBody.basicSalary := None;
     Payments.UpdateBody.overtime := None;
     Payments.UpdateBody.bonuses := None;
     Payments.UpdateBody.deductions := None;
     Payments.UpdateBody.paymentStatus := Some paid;
     Payments.UpdateBody.paymentMethod := None;
     Payments.UpdateBody.notes := None;
     Payments.UpdateBody.grossPay := None;
     Payments.UpdateBody.totalDeductions := None;
     Payments.UpdateBody.netPay := None |}.

(** Documents of a collection carry distinct [_id]s. *)
Definition idsUnique (d : db) : Prop :=
  NoDup (map Location._id (locations d))
  /\ NoDup (map Employee._id (employees d)).

(** The [locations] array of an employee is an index: each entry is the
    [_id] of a stored session of that employee. *)
Definition indexOk (d : db) : Prop :=
  forall emp i,
    In emp (employees d) -> In i (Employee.locations emp) ->
    exists l, In l (locations d) /\ Location._id l = i
              /\ Location.employee l = Employee._id emp.

(** Every entry of a list of bonuses or deductions carries a description
    and an amount. *)
Definition itemsComplete (l : option (list Payments.ItemBody.t)) : bool :=
  match l with
  | Some items =>
      forallb (fun i => isSome (Payments.ItemBody.description i)
                        && isSome (Payments.ItemBody.amount i)) items
  | None => true
  end.

(** A bonus without a description. *)
Definition namelessBonus : Payments.CreateBody.t :=
  {| Payments.CreateBody.employeeId := 11;
     Payments.CreateBody.weekStartDate := 1704067200000;
     Payments.CreateBody.weekEndDate := 1704585600000;
     Payments.CreateBody.basicSalary := Some (num 1000);
     Payments.CreateBody.overtime := None;
     Payments.CreateBody.bonuses :=
       Some [ {| Payments.ItemBody.description := None;
                 Payments.ItemBody.amount := Some (num 50) |} ];
     Payments.CreateBody.deductions := None;
     Payments.CreateBody.paymentMethod := None;
     Payments.CreateBody.notes := None;
     Payments.CreateBody.grossPay := None;
     Payments.CreateBody.totalDeductions := None;
     Payments.CreateBody.netPay := None |}.

Definition failedCreate : response :=
  Failure 500 (Msg "Failed to create payment record").

(* ================================================================== *)
(** ** The list and statistics endpoints, the employees controller *)
(* ================================================================== *)

(** What a handler that only reads, or that answers with documents of
    another kind, sends: a status with its data, or a status with an error
    text. *)
Inductive reply (A : Type) : Type :=
| Sent (status : nat) (data : A)
| Refused (status : nat) (error : errorText).

Arguments Sent {A} status data.
Arguments Refused {A} status error.

(** [{ success: true, count, data }] *)
Record listing (A : Type) : Type := { count : nat; data : list A }.

(** controllers/locations.js, [getLocations]: an administrator gets every
    session, anybody else the sessions of the employee profile of the
    caller. *)
Definition getLocations (u : caller) (d : db) : reply (listing Location.t) :=
  (* If user is not admin, only show their locations *)
  if negb (role_eqb (userRole u) admin) then
    match findOne (fun e => Employee.user e =? id u) (employees d) with
    | None => Refused 404 (Msg "Employee not found")
    | Some profile =>
        let found :=
          filter (fun l => Location.employee l =? Employee._id profile)
            (locations d) in
        Sent 200 {| count := List.length found; data := found |}
    end
  else Sent 200 {| count := List.length (locations d); data := locations d |}.

(* ------------------------------------------------------------------ *)
(** *** [getPaymentRecords] *)

(** [req.query] of [GET /api/payment-records].  [status] is the text the
    client sent; [employeeId] is a well-formed identifier, the two dates are
    instants.  [page] and [limit] are left out ([undefined] takes the
    defaults 1 and 10) or are plain decimal numerals of positive whole
    numbers, for which [page - 1], [(page - 1) * limit], [parseInt(page)]
    and [parseInt(limit)] are the numbers one expects.  Other texts have no
    value here: the handler reads 0 as "no limit", and a numeral with an
    exponent in one way for the skip and in another for the limit. *)
Record paymentQuery : Type := {
  status : option string;
  employeeId : option objectId;
  page : option positive;
  limit : option positive;
  startDate : option Z;
  endDate : option Z
}.

(** The text of a stored [paymentStatus]. *)
Definition statusName (s : payStatus) : string :=
  match s with
  | pending => "pending"
  | paid => "paid"
  | cancelled => "cancelled"
  end.

(** [if (status) query.paymentStatus = status] *)
Definition statusMatches (q : paymentQuery) (r : PaymentRecord.t) : bool :=
  match status q with
  | Some s =>
      if String.eqb s EmptyString then true
      else String.eqb (statusName (PaymentRecord.paymentStatus r)) s
  | None => true
  end.

(** The filter an administrator's query builds. *)
Definition adminFilter (q : paymentQuery) (r : PaymentRecord.t) : bool :=
  statusMatches q r
  && match employeeId q with
     | Some e => PaymentRecord.employee r =? e
     | None => true
     end
  && match startDate q, endDate q with
     | Some s, Some e =>
         (s <=? PaymentRecord.weekStartDate r)%Z
         && (PaymentRecord.weekEndDate r <=? e)%Z
     | _, _ => true
     end.

(** The filter an employee's query builds: the records of the profile of
    the caller, by status. *)
Definition ownFilter (profile : objectId) (q : paymentQuery)
    (r : PaymentRecord.t) : bool :=
  (PaymentRecord.employee r =? profile) && statusMatches q r.

(** [.sort({ weekStartDate: -1 })]; records of the same week start keep the
    order they were stored in. *)
Fixpoint insertByWeek (r : PaymentRecord.t) (l : list PaymentRecord.t)
  : list PaymentRecord.t :=
  match l with
  | [] => [r]
  | x :: rest =>
      if (PaymentRecord.weekStartDate x <=? PaymentRecord.weekStartDate r)%Z
      then r :: l
      else x :: insertByWeek r rest
  end.

Definition sortByWeek (l : list PaymentRecord.t) : list PaymentRecord.t :=
  fold_right insertByWeek [] l.

Definition pageOf (q : paymentQuery) : nat :=
  match page q with Some p => Pos.to_nat p | None => 1 end.

Definition limitOf (q : paymentQuery) : nat :=
  match limit q with Some n => Pos.to_nat n | None => 10 end.

(** [.skip((page - 1) * limit).limit(parseInt(limit))] *)
Definition paginate (q : paymentQuery) (l : list PaymentRecord.t)
  : list PaymentRecord.t :=
  firstn (limitOf q) (skipn ((pageOf q - 1) * limitOf q) l).

(** [{ data, pagination: { current, pages, total } }] *)
Record paymentPage : Type := {
  records : list PaymentRecord.t;
  current : nat;
  pages : nat;
  total : nat
}.

(** [Math.ceil(total / limit)] *)
Definition ceilDiv (a b : nat) : nat := (a + b - 1) / b.

Definition getPaymentRecords (u : caller) (q : paymentQuery) (d : db)
  : reply paymentPage :=
  let answer (matching : list PaymentRecord.t) :=
    Sent 200 {| records := paginate q (sortByWeek matching);
                current := pageOf q;
                pages := ceilDiv (List.length matching) (limitOf q);
                total := List.length matching |} in
  if role_eqb (userRole u) admin then
    (* Admin can see all payment records *)
    answer (filter (adminFilter q) (paymentRecords d))
  else
    (* Employee can only see their own payment records *)
    match findOne (fun e => Employee.user e =? id u) (employees d) with
    | None => Refused 404 (Msg "Employee profile not found")
    | Some profile =>
        answer (filter (ownFilter (Employee._id profile) q) (paymentRecords d))
    end.

(* ------------------------------------------------------------------ *)
(** *** [getPaymentStats] *)

Record paymentStats : Type := {
  pendingRecords : nat;
  paidRecords : nat;
  cancelledRecords : nat;
  totalRecords : nat;
  totalPaidAmount : JS.number;
  totalPendingAmount : JS.number
}.

Definition hasStatus (s : payStatus) (r : PaymentRecord.t) : bool :=
  payStatus_eqb (PaymentRecord.paymentStatus r) s.

(** [countDocuments({ paymentStatus })] *)
Definition countStatus (s : payStatus) (l : list PaymentRecord.t) : nat :=
  List.length (filter (hasStatus s) l).

(** [{ $sum: '$netPay' }]: a document without the field adds nothing. *)
Definition sumNetPay (l : list PaymentRecord.t) : JS.number :=
  fold_left (fun acc r => match PaymentRecord.netPay r with
                          | Some n => JS.add acc n
                          | None => acc
                          end) l JS.zero.

(** [aggregate([{ $match }, { $group }])[0]?.total || 0]: no group when
    nothing matches. *)
Definition totalAmount (s : payStatus) (l : list PaymentRecord.t) : JS.number :=
  match filter (hasStatus s) l with
  | [] => JS.zero
  | matching => orZero (sumNetPay matching)
  end.

Definition getPaymentStats (d : db) : reply paymentStats :=
  Sent 200 {| pendingRecords := countStatus pending (paymentRecords d);
              paidRecords := countStatus paid (paymentRecords d);
              cancelledRecords := countStatus cancelled (paymentRecords d);
              totalRecords := List.length (paymentRecords d);
              totalPaidAmount := totalAmount paid (paymentRecords d);
              totalPendingAmount := totalAmount pending (paymentRecords d) |}.

(* ------------------------------------------------------------------ *)
(** *** models/PaymentRecord.js, [markAsPaid] *)

(** [markAsPaid(paymentDate = new Date())] on a document that was loaded:
    set the status and the date, then [this.save()], which validates the
    document and runs the pre-save hook; a failed validation rejects and
    stores nothing. *)
Definition markAsPaid (paymentDate : Z) (r : PaymentRecord.t)
  : step PaymentRecord.t :=
  let doc :=
    PaymentModel.assign r (PaymentRecord.basicSalary r)
      (PaymentRecord.overtime r) (PaymentRecord.bonuses r)
      (PaymentRecord.deductions r) paid (Some paymentDate)
      (PaymentRecord.paymentMethod r) (PaymentRecord.notes r) in
  (throwIfAny (PaymentModel.validate doc) ;;; Next (PaymentModel.preSave doc))%step.

(* ------------------------------------------------------------------ *)
(** *** The employees controller *)

Module Employees.

(** [populate({ path: 'user', match: { role: 'employee' } })] leaves [null]
    for a user that is missing or is not an employee. *)
Definition hasEmployeeUser (d : db) (e : Employee.t) : bool :=
  match findById User._id (Employee.user e) (users d) with
  | Some usr => role_eqb (User.role usr) employee
  | None => false
  end.

Definition getEmployees (d : db) : reply (listing Employee.t) :=
  (* Filter out any employees where user is null (admin users) *)
  let filteredEmployees := filter (hasEmployeeUser d) (employees d) in
  Sent 200 {| count := List.length filteredEmployees;
              data := filteredEmployees |}.

Definition getEmployee (u : caller) (i : objectId) (d : db)
  : reply Employee.t :=
  match findById Employee._id i (employees d) with
  | None => Refused 404 (Msg "Employee not found")
  | Some found =>
      (* Make sure user is employee owner or admin *)
      if negb (role_eqb (userRole u) admin) then
        match findById User._id (Employee.user found) (users d) with
        | None => Refused 500 (Msg "Server Error")  (* employee.user is null *)
        | Some owner =>
            if negb (User._id owner =? id u)
            then Refused 403 (Msg "Not authorized to access this employee")
            else Sent 200 found
        end
      else Sent 200 found
  end.

Definition deleteEmployee (i : objectId) (d : db) : reply unit * db :=
  match findById Employee._id i (employees d) with
  | None => (Refused 404 (Msg "Employee not found"), d)
  | Some found =>
      (* Delete employee and associated user *)
      (Sent 200 tt,
       {| users := deleteById User._id (Employee.user found) (users d);
          employees := deleteById Employee._id i (employees d);
          locations := locations d;
          paymentRecords := paymentRecords d |})
  end.

End Employees.

(** The records a caller may list, before sorting and paging. *)
Definition visibleTo (u : caller) (q : paymentQuery) (d : db)
  : list PaymentRecord.t :=
  if role_eqb (userRole u) admin
  then filter (adminFilter q) (paymentRecords d)
  else match findOne (fun e => Employee.user e =? id u) (employees d) with
       | Some profile =>
           filter (ownFilter (Employee._id profile) q) (paymentRecords d)
       | None => []
       end.

(** Later weeks first. *)
Definition weekDescending (l : list PaymentRecord.t) : Prop :=
  StronglySorted
    (fun a b => (PaymentRecord.weekStartDate b <= PaymentRecord.weekStartDate a)%Z)
    l.

Definition withPage (p : nat) (q : paymentQuery) : paymentQuery :=
  {| status := status q; employeeId := employeeId q;
     page := Some (Pos.of_nat p); limit := limit q;
     startDate := startDate q; endDate := endDate q |}.

Definition recordsOf (r : reply paymentPage) : list PaymentRecord.t :=
  match r with
  | Sent _ pg => records pg
  | Refused _ _ => []
  end.

(** Week 2024-01-08..2024-01-14 for employee 10: salary 1000 and nothing
    else. *)
Definition nextWeekBody : Payments.CreateBody.t :=
  {| Payments.CreateBody.employeeId := 10;
     Payments.CreateBody.weekStartDate := 1704672000000;
     Payments.CreateBody.weekEndDate := 1705190400000;
     Payments.CreateBody.basicSalary := Some (num 1000);
     Payments.CreateBody.overtime := None;
     Payments.CreateBody.bonuses := None;
     Payments.CreateBody.deductions := None;
     Payments.CreateBody.paymentMethod := None;
     Payments.CreateBody.notes := None;
     Payments.CreateBody.grossPay := None;
     Payments.CreateBody.totalDeductions := None;
     Payments.CreateBody.netPay := None |}.

(** [janDb] after the administrator stored [nextWeekBody]. *)
Definition twoWeeksDb : db :=
  snd (handle (at_time 6) adminCaller (CreatePaymentRecord nextWeekBody) janDb).

(** [GET /api/payment-records?limit=1] *)
Definition onePerPage : paymentQuery :=
  {| status := None; employeeId := None; page := None;
     limit := Some 1%positive; startDate := None; endDate := None |}.

(** The sample database after Alice checked in and her employee row was
    deleted. *)
Definition aliceGone : db := snd (Employees.deleteEmployee 10 aliceIn).

(** What the schema asks of a [Number] path with [min: 0]: a number, not
    below 0. *)
Definition storable (n : JS.number) : bool := negb (JS.isNaN n) && JS.geZero n.

Definition overtimeStorable (o : Overtime.t) : bool :=
  Payments.optional storable (Overtime.hours o)
  && Payments.optional storable (Overtime.rate o)
  && Payments.optional storable (Overtime.amount o).

(** Week 2024-01-15..2024-01-21 for employee 10: salary 100 and a deduction
    of 150, so that the net pay is -50. *)
Definition overdrawnBody : Payments.CreateBody.t :=
  {| Payments.CreateBody.employeeId := 10;
     Payments.CreateBody.weekStartDate := 1705276800000;
     Payments.CreateBody.weekEndDate := 1705795200000;
     Payments.CreateBody.basicSalary := Some (num 100);
     Payments.CreateBody.overtime := None;
     Payments.CreateBody.bonuses := None;
     Payments.CreateBody.deductions :=
       Some [ {| Payments.ItemBody.description := Some "advance"%string;
                 Payments.ItemBody.amount := Some (num 150) |} ];
     Payments.CreateBody.paymentMethod := None;
     Payments.CreateBody.notes := None;
     Payments.CreateBody.grossPay := None;
     Payments.CreateBody.totalDeductions := None;
     Payments.CreateBody.netPay := None |}.

(** The sample database after the administrator stored [overdrawnBody]. *)
Definition overdrawnDb : db :=
  snd (handle (at_time 8) adminCaller (CreatePaymentRecord overdrawnBody)
         sampleDb).

Definition failedFetch : response :=
  Failure 500 (Msg "Failed to fetch payment record").

(** Every stored session is listed in the [locations] array of its
    employee. *)
Definition sessionsIndexed (d : db) : Prop :=
  forall l emp,
    In l (locations d) -> In emp (employees d) ->
    Employee._id emp = Location.employee l ->
    In (Location._id l) (Employee.locations emp).

(** No identifier in the URL of a delete is spelled with an upper-case
    digit. *)
Definition spelledAsPrinted (req : request) : Prop :=
  match req with
  | DeleteLocation _ Locations.OtherCase => False
  | _ => True
  end.

(** The notes fit the schema's [maxlength: 500], which counts UTF-16 units. *)
Definition notesFit (o : option string) : bool :=
  match PaymentModel.maxLengthAt "notes" o with
  | [] => true
  | _ => false
  end.

(* ================================================================== *)
(** ** Numbers *)
(* ================================================================== *)

Lemma orZero_number (n : JS.number) : JS.isNaN n = false -> orZero n = n.
Proof.
  destruct n; simpl; intros H; try reflexivity; try discriminate.
  unfold orZero; simpl.
  destruct (Qc_eq_bool q (Q2Qc 0)) eqn:E; simpl; [|reflexivity].
  apply Qc_eq_bool_correct in E. now subst.
Qed.

(** [item.amount || 0] is [item.amount] for an amount that is a number, so
    the hook's [reduce] is the sum in array order. *)
Lemma reduceAmounts_from (items : list LineItem.t) (acc : JS.number) :
  Forall itemOk items ->
  fold_left (fun sum item => JS.add sum (orZero (LineItem.amount item))) items acc
  = fold_left (fun sum item => JS.add sum (LineItem.amount item)) items acc.
Proof.
  intros H. revert acc.
  induction H as [|i r Hi _ IH]; intros acc; simpl; [reflexivity|].
  now rewrite IH, (orZero_number _ Hi).
Qed.

Lemma reduceAmounts_sum (items : list LineItem.t) :
  Forall itemOk items -> reduceAmounts items = sumAmounts items.
Proof. intros H. exact (reduceAmounts_from JS.zero H). Qed.

(* ================================================================== *)
(** ** Collections *)
(* ================================================================== *)

Section CollectionFacts.
Variable doc : Type.
Variable docId : doc -> objectId.

Lemma findById_id (i : objectId) (l : list doc) (x : doc) :
  findById docId i l = Some x -> docId x = i.
Proof.
  unfold findById. intros H. apply find_some in H.
  now apply Nat.eqb_eq.
Qed.

Lemma findById_In (i : objectId) (l : list doc) (x : doc) :
  findById docId i l = Some x -> In x l.
Proof.
  unfold findById. intros H. now apply find_some in H.
Qed.

Lemma findById_updateById (i : objectId) (f : doc -> doc) (l : list doc)
    (x : doc) :
  findById docId i l = Some x -> docId (f x) = i ->
  findById docId i (updateById docId i f l) = Some (f x).
Proof.
  unfold findById. induction l as [|y r IH]; simpl; [discriminate|].
  destruct (docId y =? i) eqn:E; simpl.
  - intros [= ->] Hf. now rewrite Hf, Nat.eqb_refl.
  - intros H Hf. rewrite E. now apply IH.
Qed.

Lemma In_updateById (i : objectId) (f : doc -> doc) (l : list doc) (x : doc) :
  In x (updateById docId i f l) ->
  In x l \/ exists y, In y l /\ docId y = i /\ x = f y.
Proof.
  induction l as [|y r IH]; simpl; [tauto|].
  destruct (docId y =? i) eqn:E; simpl.
  - intros [<-|H]; [right|left; now right].
    exists y. apply Nat.eqb_eq in E. auto.
  - intros [<-|H]; [left; now left|].
    destruct (IH H) as [H'|(z & Hz & Hi & ->)]; [left; now right|].
    right. exists z. auto.
Qed.

Lemma In_deleteById (i : objectId) (l : list doc) (x : doc) :
  In x (deleteById docId i l) -> In x l.
Proof.
  induction l as [|y r IH]; simpl; [tauto|].
  destruct (docId y =? i); simpl; [now right|].
  intros [<-|H]; [now left|right; now apply IH].
Qed.

(** An update that does not make a document satisfy [p] does not add
    matches of [p]. *)
Lemma count_updateById (p : doc -> bool) (i : objectId) (f : doc -> doc)
    (l : list doc) :
  (forall x, p (f x) = true -> p x = true) ->
  List.length (filter p (updateById docId i f l)) <= List.length (filter p l).
Proof.
  intros Hf. induction l as [|y r IH]; simpl; [lia|].
  destruct (docId y =? i) eqn:E; simpl.
  - destruct (p (f y)) eqn:Ef.
    + rewrite (Hf _ Ef). simpl. lia.
    + destruct (p y); simpl; lia.
  - destruct (p y); simpl; lia.
Qed.

Lemma count_deleteById (p : doc -> bool) (i : objectId) (l : list doc) :
  List.length (filter p (deleteById docId i l)) <= List.length (filter p l).
Proof.
  induction l as [|y r IH]; simpl; [lia|].
  destruct (docId y =? i) eqn:E; simpl.
  - destruct (p y); simpl; lia.
  - destruct (p y); simpl; lia.
Qed.

End CollectionFacts.

Section FindFacts.
Variable doc : Type.

Lemma findOne_None_count (p : doc -> bool) (l : list doc) :
  findOne p l = None -> filter p l = [].
Proof.
  unfold findOne. induction l as [|y r IH]; simpl; [reflexivity|].
  destruct (p y); [discriminate|exact IH].
Qed.

Lemma findOne_In (p : doc -> bool) (l : list doc) (x : doc) :
  In x l -> p x = true -> isSome (findOne p l) = true.
Proof.
  unfold findOne. induction l as [|y r IH]; simpl; [tauto|].
  intros [->|H] Hp.
  - now rewrite Hp.
  - destruct (p y); [reflexivity|now apply IH].
Qed.

Lemma count_snoc (p : doc -> bool) (l : list doc) (x : doc) :
  List.length (filter p (l ++ [x]))
  = List.length (filter p l) + (if p x then 1 else 0).
Proof.
  rewrite filter_app, length_app. simpl. now destruct (p x).
Qed.
End FindFacts.

(* ================================================================== *)
(** ** Control flow *)
(* ================================================================== *)

Lemma nanAt_nil (path : string) (n : JS.number) :
  nanAt path n = [] -> JS.isNaN n = false.
Proof. unfold nanAt. now destruct (JS.isNaN n). Qed.

Lemma nanAtOpt_nil (path : string) (n : JS.number) :
  nanAtOpt path (Some n) = [] -> JS.isNaN n = false.
Proof. apply nanAt_nil. Qed.

(** Splits a hypothesis [l1 ++ ... ++ ln = []] into its components. *)
Ltac split_nil :=
  repeat match goal with
         | H : _ ++ _ = [] |- _ => apply app_eq_nil in H; destruct H
         end.

(** Case analysis on the guard at the head of a handler body. *)
Ltac step_case H :=
  match type of H with
  | context [replyIf ?b _] => destruct b eqn:?; cbn [replyIf bind tryCatch] in H
  | context [orReply ?o _] => destruct o eqn:?; cbn [orReply bind tryCatch] in H
  | context [deref ?o] => destruct o eqn:?; cbn [deref bind tryCatch] in H
  | context [throwIfAny ?l] =>
      let E := fresh "Hpaths" in
      destruct l eqn:E; cbn [throwIfAny bind tryCatch] in H
  end.

(** Case analysis on every guard of a handler in the goal. *)
Ltac goal_case :=
  match goal with
  | |- context [replyIf ?b _] => destruct b eqn:?; cbn [replyIf bind tryCatch]
  | |- context [orReply ?o _] => destruct o eqn:?; cbn [orReply bind tryCatch]
  | |- context [deref ?o] => destruct o eqn:?; cbn [deref bind tryCatch]
  | |- context [throwIfAny ?l] =>
      destruct l eqn:?; cbn [throwIfAny bind tryCatch]
  | |- context [if negb (role_eqb ?a ?b) then _ else _] =>
      destruct (role_eqb a b) eqn:?; cbn [negb bind tryCatch]
  end.

(* ================================================================== *)
(** ** Payroll: derived totals *)
(* ================================================================== *)

Lemma overtimeAmount_preSave (r : PaymentRecord.t) :
  overtimeAmount (PaymentModel.preSave r) = overtimeAmount r.
Proof. reflexivity. Qed.

Lemma preSave_ok (r : PaymentRecord.t) :
  castOk r -> castOk (PaymentModel.preSave r) /\ derivedOk (PaymentModel.preSave r).
Proof.
  intros (Hs & Ho & Hb & Hd). split.
  - repeat split; assumption.
  - unfold derivedOk. cbn [PaymentModel.preSave PaymentRecord.grossPay
      PaymentRecord.totalDeductions PaymentRecord.netPay
      PaymentRecord.basicSalary PaymentRecord.bonuses
      PaymentRecord.deductions].
    rewrite overtimeAmount_preSave.
    rewrite (orZero_number _ Hs), (reduceAmounts_sum Hb), (reduceAmounts_sum Hd).
    assert (Hot : match Overtime.amount (PaymentRecord.overtime r) with
                  | Some a => if JS.truthyNum a then a else JS.zero
                  | None => JS.zero
                  end = overtimeAmount r).
    { unfold overtimeAmount in *.
      destruct (Overtime.amount (PaymentRecord.overtime r)) as [a|]; [|reflexivity].
      apply (orZero_number _ Ho). }
    rewrite Hot. repeat split. eexists. split; reflexivity.
Qed.

Lemma castItems_ok (l : list Payments.ItemBody.t) (xs : list LineItem.t) :
  Payments.castItems l = Some xs -> Forall itemOk xs.
Proof.
  revert xs. induction l as [|i r IH]; simpl; intros xs.
  - intros [= <-]. constructor.
  - destruct (Payments.castItem i) as [x|] eqn:Ei; [|discriminate].
    destruct (Payments.castItems r) as [ys|]; [|discriminate].
    intros [= <-]. constructor; [|now apply IH].
    unfold Payments.castItem in Ei.
    destruct (Payments.ItemBody.description i); [|discriminate].
    destruct (Payments.ItemBody.amount i) as [a|]; [|discriminate].
    destruct (JS.isNaN a) eqn:Ea;
      [rewrite andb_false_r in Ei; discriminate|].
    destruct (_ && _ && _); [|discriminate].
    injection Ei as <-. exact Ea.
Qed.

Lemma itemsOf_ok (l : list Payments.ItemBody.t) :
  Forall itemOk (Payments.itemsOf l).
Proof.
  unfold Payments.itemsOf.
  destruct (Payments.castItems l) eqn:E; [|constructor].
  now apply castItems_ok with l.
Qed.

Lemma overtimeAt_amount (o : Overtime.t) (a : JS.number) :
  Payments.overtimeAt o = [] -> Overtime.amount o = Some a -> JS.isNaN a = false.
Proof.
  unfold Payments.overtimeAt. intros H Ha. split_nil.
  rewrite Ha in *. now apply nanAtOpt_nil with "overtime.amount"%string.
Qed.

(** What a successful [createPaymentRecord] did. *)
Lemma createPaymentRecord_inv (u : caller) (b : Payments.CreateBody.t)
    (d d' : db) (s : nat) (r : PaymentRecord.t) :
  Payments.createPaymentRecord u b d = (PaymentOk s r, d') ->
  exists doc,
    r = PaymentModel.preSave doc /\ castOk doc
    /\ Payments.createPaymentRecordValidation b = true
    /\ findOne (Payments.sameWeek (Payments.CreateBody.employeeId b)
                  (Payments.CreateBody.weekStartDate b)
                  (Payments.CreateBody.weekEndDate b)) (paymentRecords d) = None
    /\ PaymentRecord.employee doc = Payments.CreateBody.employeeId b
    /\ PaymentRecord.weekStartDate doc = Payments.CreateBody.weekStartDate b
    /\ PaymentRecord.weekEndDate doc = Payments.CreateBody.weekEndDate b
    /\ PaymentRecord.overtime doc
       = Payments.overtimeDefaults
           (Payments.processOvertime
              (match Payments.CreateBody.overtime b with
               | Some o => o
               | None => {| Overtime.hours := Some JS.zero;
                            Overtime.rate := Some JS.zero;
                            Overtime.amount := Some JS.zero |}
               end))
    /\ isSome (findById Employee._id (Payments.CreateBody.employeeId b)
                 (employees d)) = true
    /\ s = 201
    /\ d' = Payments.setPayments (paymentRecords d ++ [r]) d.
Proof.
  unfold Payments.createPaymentRecord. intros H.
  repeat (step_case H; try discriminate).
  injection H as <- <- <-.
  split_nil.
  eexists. split; [reflexivity|].
  split; [|repeat split; try reflexivity].
  - repeat split.
    + eapply nanAt_nil; eassumption.
    + unfold overtimeAmount. cbn [PaymentRecord.overtime].
      match goal with
      | |- context [Overtime.amount ?o] =>
          destruct (Overtime.amount o) as [a|] eqn:Ea; [|reflexivity]
      end.
      eapply overtimeAt_amount; eassumption.
    + apply itemsOf_ok.
    + apply itemsOf_ok.
  - now apply negb_false_iff.
  - match goal with
    | H : isSome ?o = false |- ?o = None => now destruct o
    end.
Qed.



Lemma sameIdentity_preSave (r : PaymentRecord.t) :
  sameIdentity r (PaymentModel.preSave r).
Proof. repeat split. Qed.

(** [updatePaymentRecord] either stores the edited document after the
    pre-save hook, or answers with an error and leaves the database alone. *)
Lemma updatePaymentRecord_cases (ev : env) (i : objectId)
    (b : Payments.UpdateBody.t) (d : db) :
  (exists r0 r1,
      findById PaymentRecord._id i (paymentRecords d) = Some r0
      /\ sameIdentity r0 r1
      /\ (castOk r0 -> castOk r1)
      /\ PaymentRecord.overtime r1
         = match Payments.UpdateBody.overtime b with
           | Some o => Payments.processOvertime o
           | None => PaymentRecord.overtime r0
           end
      /\ Payments.updatePaymentRecord ev i b d
         = (PaymentOk 200 (PaymentModel.preSave r1),
            Payments.setPayments
              (updateById PaymentRecord._id i
                 (fun _ => PaymentModel.preSave r1) (paymentRecords d)) d))
  \/ (snd (Payments.updatePaymentRecord ev i b d) = d
      /\ isFailure (fst (Payments.updatePaymentRecord ev i b d))).
Proof.
  unfold Payments.updatePaymentRecord.
  destruct (negb (Payments.updatePaymentRecordValidation b));
    [right; split; exact I || reflexivity|].
  cbn [replyIf bind].
  destruct (findById PaymentRecord._id i (paymentRecords d)) as [r0|] eqn:Er;
    [|right; split; exact I || reflexivity].
  cbn [orReply bind].
  match goal with
  | |- context [throwIfAny ?l] => destruct l eqn:Hpaths
  end; [|right; split; exact I || reflexivity].
  cbn [throwIfAny bind tryCatch]. left.
  eexists r0, _. split; [reflexivity|].
  split; [|split; [|split]]; cycle 3.
  { reflexivity. }
  { repeat split. }
  2: { reflexivity. }
  intros (Hs & Ho & Hb & Hd). split_nil.
  unfold castOk, overtimeAmount.
  cbn [PaymentModel.assign PaymentRecord.basicSalary PaymentRecord.overtime
         PaymentRecord.bonuses PaymentRecord.deductions].
  repeat split.
  - destruct (Payments.UpdateBody.basicSalary b); [|exact Hs].
    split_nil. eapply nanAt_nil; eassumption.
  - destruct (Payments.UpdateBody.overtime b) as [o|]; [|exact Ho].
    destruct (Overtime.amount (Payments.processOvertime o)) as [a|] eqn:Ea;
      [|reflexivity].
    eapply overtimeAt_amount; eassumption.
  - destruct (Payments.UpdateBody.bonuses b); [apply itemsOf_ok|exact Hb].
  - destruct (Payments.UpdateBody.deductions b); [apply itemsOf_ok|exact Hd].
Qed.

Lemma createPaymentRecord_cases (u : caller) (b : Payments.CreateBody.t)
    (d : db) :
  (exists r, Payments.createPaymentRecord u b d
             = (PaymentOk 201 r, Payments.setPayments (paymentRecords d ++ [r]) d))
  \/ (snd (Payments.createPaymentRecord u b d) = d
      /\ isFailure (fst (Payments.createPaymentRecord u b d))).
Proof.
  destruct (Payments.createPaymentRecord u b d) as [res d'] eqn:E.
  destruct res as [|s e|s l|s r|s].
  5: { unfold Payments.createPaymentRecord in E.
       repeat (step_case E; try discriminate). }
  3: { unfold Payments.createPaymentRecord in E.
       repeat (step_case E; try discriminate). }
  3: { left. exists r.
       destruct (createPaymentRecord_inv _ _ _ E)
         as (doc & _ & _ & _ & _ & _ & _ & _ & _ & _ & -> & ->).
       reflexivity. }
  all: right; split; [|exact I];
    unfold Payments.createPaymentRecord in E;
    repeat (step_case E; try discriminate); now injection E.
Qed.

Lemma getPaymentRecord_cases (ev : env) (u : caller) (i : objectId) (d : db) :
  (exists r0,
      findById PaymentRecord._id i (paymentRecords d) = Some r0
      /\ (Payments.getPaymentRecord ev u i d = (PaymentOk 200 r0, d)
          \/ (PaymentRecord.isViewed r0 = false
              /\ Payments.getPaymentRecord ev u i d
                 = (PaymentOk 200 (PaymentModel.markAsViewed (now ev) r0),
                    Payments.setPayments
                      (updateById PaymentRecord._id i
                         (fun _ => PaymentModel.markAsViewed (now ev) r0)
                         (paymentRecords d)) d))))
  \/ (snd (Payments.getPaymentRecord ev u i d) = d
      /\ isFailure (fst (Payments.getPaymentRecord ev u i d))).
Proof.
  unfold Payments.getPaymentRecord.
  destruct (findById PaymentRecord._id i (paymentRecords d)) as [r0|] eqn:Er;
    [|right; split; [reflexivity|exact I]].
  cbn [orReply bind].
  destruct (negb (role_eqb (userRole u) admin));
    [|left; exists r0; split; [reflexivity|left; reflexivity]].
  destruct (findOne _ (employees d)) as [mine|];
    [|right; split; [reflexivity|exact I]].
  destruct (findById Employee._id _ (employees d)) as [owner|];
    [|right; split; [reflexivity|exact I]].
  cbn [deref bind].
  destruct (negb (Employee._id owner =? Employee._id mine));
    [right; split; [reflexivity|exact I]|].
  cbn [replyIf bind].
  destruct (PaymentRecord.isViewed r0) eqn:Ev; cbn [negb tryCatch].
  - left. exists r0. split; [reflexivity|]. left; reflexivity.
  - destruct (PaymentModel.validate r0);
      cbn [throwIfAny bind tryCatch];
      [|right; split; [reflexivity|exact I]].
    left. exists r0. split; [reflexivity|]. right. split; [exact Ev|reflexivity].
Qed.

Lemma castOk_markAsViewed (t0 : Z) (r : PaymentRecord.t) :
  castOk r ->
  castOk (PaymentModel.markAsViewed t0 r)
  /\ derivedOk (PaymentModel.markAsViewed t0 r).
Proof.
  intros H. unfold PaymentModel.markAsViewed. apply preSave_ok.
  exact H.
Qed.


(** The location handlers leave the payment records alone. *)
Lemma locations_frame (ev : env) (u : caller) (req : request) (d : db) :
  match req with
  | CheckIn _ | GetLocation _ | CheckOut _ | DeleteLocation _ _
  | UpdateLiveLocation _ _ => True
  | _ => False
  end ->
  paymentRecords (snd (handle ev u req d)) = paymentRecords d.
Proof.
  destruct req; try contradiction; intros _; cbn [handle].
  - unfold Locations.checkIn, Locations.Location_create.
    destruct (negb _); [reflexivity|]. repeat goal_case; reflexivity.
  - unfold Locations.getLocation. repeat goal_case; reflexivity.
  - unfold Locations.checkOut. repeat goal_case; reflexivity.
  - unfold authorize. destruct (role_eqb _ _); [|reflexivity].
    unfold Locations.deleteLocation. repeat goal_case; reflexivity.
  - unfold Locations.updateLiveLocation. repeat goal_case; reflexivity.
Qed.

Lemma paymentsOk_snoc (d : db) (r : PaymentRecord.t) :
  paymentsOk d -> castOk r -> derivedOk r ->
  paymentsOk (Payments.setPayments (paymentRecords d ++ [r]) d).
Proof.
  intros Hd Hc Hr x Hx. cbn in Hx. apply in_app_or in Hx.
  destruct Hx as [Hx|[<-|[]]]; [now apply Hd|now split].
Qed.

Lemma paymentsOk_replace (d : db) (i : objectId) (r : PaymentRecord.t) :
  paymentsOk d -> castOk r -> derivedOk r ->
  paymentsOk (Payments.setPayments
                (updateById PaymentRecord._id i (fun _ => r) (paymentRecords d)) d).
Proof.
  intros Hd Hc Hr x Hx. cbn in Hx. apply In_updateById in Hx.
  destruct Hx as [Hx|(y & _ & _ & ->)]; [now apply Hd|now split].
Qed.

Lemma paymentsOk_handle (ev : env) (u : caller) (req : request) (d : db) :
  paymentsOk d -> paymentsOk (snd (handle ev u req d)).
Proof.
  intros Hd.
  assert (Hframe : paymentRecords (snd (handle ev u req d)) = paymentRecords d
                   -> paymentsOk (snd (handle ev u req d))).
  { intros E x Hx. rewrite E in Hx. now apply Hd. }
  destruct req; try (apply Hframe; apply locations_frame; exact I);
    clear Hframe; cbn [handle]; unfold authorize;
    try (destruct (role_eqb (userRole u) admin); [|exact Hd]).
  - destruct (createPaymentRecord_cases u b d) as [(r & E)|(E & _)];
      rewrite E; [|exact Hd].
    destruct (createPaymentRecord_inv _ _ _ E) as (doc & -> & Hc & _).
    cbn [snd]. apply paymentsOk_snoc; [exact Hd|apply preSave_ok..]; exact Hc.
  - destruct (getPaymentRecord_cases ev u i d)
      as [(r0 & Hr0 & [E|(_ & E)])|(E & _)]; rewrite E; try exact Hd.
    cbn [snd]. apply findById_In in Hr0.
    apply paymentsOk_replace; [exact Hd|apply castOk_markAsViewed..];
      now apply Hd.
  - destruct (updatePaymentRecord_cases ev i b d)
      as [(r0 & r1 & Hr0 & _ & Hc & _ & E)|(E & _)]; rewrite E; [|exact Hd].
    cbn [snd]. apply findById_In in Hr0.
    apply paymentsOk_replace; [exact Hd|apply preSave_ok..];
      now apply Hc, Hd.
  - unfold Payments.deletePaymentRecord.
    destruct (findById _ _ _); cbn; [|exact Hd].
    intros x Hx. apply In_deleteById in Hx. now apply Hd.
Qed.

(** C1.  Every request keeps the derived totals of every stored payment
    record in line with its inputs: [grossPay] is the basic salary plus the
    overtime amount plus the sum of the bonuses, [totalDeductions] is the
    sum of the deductions and [netPay] is their difference, the sums being
    those of the amounts added from 0 in array order.  The record a
    create or an update answers with has been through the pre-save hook and
    is the one stored; values the client sends under the names of the three
    derived fields change nothing. *)
Theorem payment_totals_recomputed (ev : env) (u : caller) (req : request)
    (d : db) :
  paymentsOk d ->
  paymentsOk (snd (handle ev u req d))
  /\ (forall s r,
         isPaymentWrite req = true ->
         fst (handle ev u req d) = PaymentOk s r ->
         derivedOk r /\ In r (paymentRecords (snd (handle ev u req d))))
  /\ (forall g t n,
         handle ev u (withClientTotals g t n req) d = handle ev u req d).
Proof.
  intros Hd. split; [now apply paymentsOk_handle|]. split.
  - intros s r Hw Hres.
    destruct req; try discriminate; cbn [handle] in *; unfold authorize in *;
      destruct (role_eqb (userRole u) admin); try discriminate.
    + destruct (createPaymentRecord_cases u b d) as [(r' & E)|(_ & F)].
      * rewrite E in *. cbn [fst snd] in *. injection Hres as _ ->.
        destruct (createPaymentRecord_inv _ _ _ E) as (doc & -> & Hc & _).
        split; [now apply preSave_ok|].
        cbn. apply in_or_app. right. now left.
      * rewrite Hres in F. contradiction.
    + destruct (updatePaymentRecord_cases ev i b d)
        as [(r0 & r1 & Hr0 & Hid & Hc & _ & E)|(_ & F)].
      * rewrite E in *. cbn [fst snd] in *. injection Hres as _ <-.
        split; [apply preSave_ok, Hc, Hd; now apply findById_In in Hr0|].
        cbn. apply findById_In with (docId := PaymentRecord._id) (i := i).
        apply (findById_updateById PaymentRecord._id
                 (fun _ => PaymentModel.preSave r1) _ Hr0).
        destruct Hid as (Hid & _). cbn. rewrite Hid.
        now apply findById_id in Hr0.
      * rewrite Hres in F. contradiction.
  - intros g t n. destruct req; reflexivity.
Qed.

Lemma payment_totals_recomputed_witness :
  paymentsOk janDb
  /\ exists s r,
       fst (handle (at_time 9) adminCaller
              (UpdatePaymentRecord 1 overtimeUpdate) janDb) = PaymentOk s r
       /\ derivedOk r.
Proof.
  assert (H0 : paymentsOk sampleDb) by (intros r []).
  pose proof (proj1 (@payment_totals_recomputed (at_time 5) adminCaller
                       (CreatePaymentRecord janBody) sampleDb H0)) as H1.
  split; [exact H1|].
  destruct (@payment_totals_recomputed (at_time 9) adminCaller
              (UpdatePaymentRecord 1 overtimeUpdate) janDb H1)
    as (_ & Hw & _).
  eexists _, _. split; [reflexivity|].
  eapply Hw; reflexivity.
Defined.

(* ================================================================== *)
(** ** Attendance: one open session per employee *)
(* ================================================================== *)

(** The payment handlers leave the attendance rows alone. *)
Lemma payments_frame (ev : env) (u : caller) (req : request) (d : db) :
  match req with
  | CreatePaymentRecord _ | GetPaymentRecord _ | UpdatePaymentRecord _ _
  | DeletePaymentRecord _ => True
  | _ => False
  end ->
  locations (snd (handle ev u req d)) = locations d.
Proof.
  destruct req; try contradiction; intros _; cbn [handle]; unfold authorize;
    try (destruct (role_eqb (userRole u) admin); [|reflexivity]).
  - destruct (createPaymentRecord_cases u b d) as [(r & E)|(E & _)];
      now rewrite E.
  - destruct (getPaymentRecord_cases ev u i d)
      as [(r0 & _ & [E|(_ & E)])|(E & _)]; now rewrite E.
  - destruct (updatePaymentRecord_cases ev i b d)
      as [(r0 & r1 & _ & _ & _ & _ & E)|(E & _)]; now rewrite E.
  - unfold Payments.deletePaymentRecord.
    now destruct (findById _ _ _).
Qed.

(** [checkIn] either appends one open session for an employee who had none,
    or answers with an error and leaves the database alone. *)
Lemma checkIn_cases (ev : env) (u : caller) (b : Locations.checkInBody)
    (d : db) :
  (exists mine l,
      findOne (Locations.isOpenSessionOf (Employee._id mine)) (locations d) = None
      /\ Location.employee l = Employee._id mine
      /\ Location.latitude l = JS.parseFloat (Locations.latitude b)
      /\ Location.longitude l = JS.parseFloat (Locations.longitude b)
      /\ Location.accuracy l
         = (if JS.truthy (Locations.accuracy b)
            then Some (JS.parseFloat (Locations.accuracy b)) else None)
      /\ nanAt "latitude" (Location.latitude l)
         ++ nanAt "longitude" (Location.longitude l)
         ++ nanAtOpt "accuracy" (Location.accuracy l) = []
      /\ locations (snd (Locations.checkIn ev u b d)) = locations d ++ [l]
      /\ fst (Locations.checkIn ev u b d) = LocationOk 201 l)
  \/ (snd (Locations.checkIn ev u b d) = d
      /\ isFailure (fst (Locations.checkIn ev u b d))).
Proof.
  unfold Locations.checkIn, Locations.Location_create.
  destruct (negb _); [right; split; [reflexivity|exact I]|].
  repeat goal_case; try (right; split; [reflexivity|exact I]).
  left. eexists _, _. cbn [fst snd locations].
  repeat split; try reflexivity; try eassumption.
  match goal with
  | H : isSome ?o = false |- ?o = None => now destruct o
  end.
Qed.

Lemma openSessions_checkOut (t : Z) (e : objectId) (l : Location.t) :
  Locations.isOpenSessionOf e (Locations.closeSession t l) = true ->
  Locations.isOpenSessionOf e l = true.
Proof.
  unfold Locations.isOpenSessionOf. cbn. now rewrite andb_false_r.
Qed.

Lemma openSessions_moveSession (t : Z) (lat lng : JS.number)
    (acc : option JS.number) (e : objectId) (l : Location.t) :
  Locations.isOpenSessionOf e (Locations.moveSession t lat lng acc l)
  = Locations.isOpenSessionOf e l.
Proof. reflexivity. Qed.

Lemma openSessionsUnique_handle (ev : env) (u : caller) (req : request)
    (d : db) :
  openSessionsUnique d -> openSessionsUnique (snd (handle ev u req d)).
Proof.
  intros Hd.
  assert (Hframe : locations (snd (handle ev u req d)) = locations d
                   -> openSessionsUnique (snd (handle ev u req d))).
  { intros E e. rewrite E. apply Hd. }
  destruct req; try (apply Hframe; apply payments_frame; exact I);
    clear Hframe; cbn [handle]; intros e.
  - destruct (checkIn_cases ev u b d)
      as [(mine & l & Hnone & Hemp & _ & _ & _ & _ & E & _)|(E & _)];
      rewrite E; [|apply Hd].
    rewrite count_snoc. unfold Locations.isOpenSessionOf at 2.
    destruct (Location.employee l =? e) eqn:Ee; cbn [andb].
    + apply Nat.eqb_eq in Ee. rewrite <- Ee, Hemp.
      rewrite (findOne_None_count _ _ Hnone). cbn.
      destruct (locationStatus_eqb _ _); lia.
    + specialize (Hd e). lia.
  - unfold Locations.getLocation. repeat goal_case; apply Hd.
  - unfold Locations.checkOut. repeat goal_case; try apply Hd.
    cbn. etransitivity; [|apply Hd].
    apply count_updateById. apply openSessions_checkOut.
  - unfold authorize. destruct (role_eqb _ _); [|apply Hd].
    unfold Locations.deleteLocation. repeat goal_case; try apply Hd.
    cbn. etransitivity; [|apply Hd]. apply count_deleteById.
  - unfold Locations.updateLiveLocation. repeat goal_case; try apply Hd.
    cbn. etransitivity; [|apply Hd].
    apply count_updateById. intros x. now rewrite openSessions_moveSession.
Qed.

Lemma run_invariant (P : db -> Prop) :
  (forall ev u req d, P d -> P (snd (handle ev u req d))) ->
  forall reqs d, P d -> P (run reqs d).
Proof.
  intros Hstep reqs. induction reqs as [|[[ev u] req] rest IH]; intros d Hd.
  - exact Hd.
  - cbn [run]. apply IH, Hstep, Hd.
Qed.

(** Requests served one at a time leave at most one open session per
    employee, however many of them there are; and a check-in by an employee
    who has an open session is answered 400 "You are already checked in.
    Please check out first." and changes nothing. *)
Theorem single_open_session (ev : env) (u : caller) (req : request) (d : db) :
  openSessionsUnique d ->
  openSessionsUnique (snd (handle ev u req d))
  /\ (forall reqs, openSessionsUnique (run reqs d))
  /\ (forall b mine l,
         req = CheckIn b ->
         Locations.checkinValidation b = true ->
         userRole u = employee ->
         findOne (fun e => Employee.user e =? id u) (employees d) = Some mine ->
         In l (locations d) ->
         Location.employee l = Employee._id mine ->
         Location.status l = checked_in ->
         handle ev u req d
         = (Failure 400
              (Msg "You are already checked in. Please check out first."), d)).
Proof.
  intros Hd. split; [now apply openSessionsUnique_handle|].
  split; [intros reqs; revert Hd; apply run_invariant;
          intros; now apply openSessionsUnique_handle|].
  intros b mine l -> Hval Hrole Hmine Hl Hemp Hst.
  cbn [handle]. unfold Locations.checkIn.
  rewrite Hval, Hrole, Hmine. cbn [negb role_eqb replyIf orReply bind].
  erewrite findOne_In; [reflexivity|exact Hl|].
  unfold Locations.isOpenSessionOf. now rewrite Hemp, Hst, Nat.eqb_refl.
Qed.

Lemma single_open_session_witness :
  openSessionsUnique aliceIn
  /\ handle (at_time 200) aliceCaller (CheckIn officeBody) aliceIn
     = (Failure 400
          (Msg "You are already checked in. Please check out first."), aliceIn).
Proof.
  assert (H : openSessionsUnique aliceIn).
  { intros e.
    pose proof (filter_length_le (Locations.isOpenSessionOf e) (locations aliceIn))
      as Hle.
    exact Hle. }
  split; [exact H|].
  destruct (single_open_session (at_time 200) aliceCaller
              (CheckIn officeBody) H) as (_ & _ & Hc).
  eapply Hc;
    [reflexivity|reflexivity|reflexivity|reflexivity|left; reflexivity
    |reflexivity|reflexivity].
Defined.

(* ================================================================== *)
(** ** Attendance: check-ins that overlap *)
(* ================================================================== *)

(** Served without another request in between, the two stretches of
    [checkIn] are the handler. *)
Lemma checkIn_phases (ev : env) (u : caller) (b : Locations.checkInBody)
    (d : db) :
  Locations.checkIn ev u b d
  = Locations.checkInResume ev b (Locations.checkInPrecheck u b d) d.
Proof.
  unfold Locations.checkIn, Locations.checkInResume,
    Locations.checkInPrecheck, Locations.checkInStore.
  destruct (negb (Locations.checkinValidation b)); [reflexivity|].
  cbn [replyIf bind].
  destruct (role_eqb (userRole u) admin); [reflexivity|].
  cbn [replyIf bind].
  destruct (findOne _ (employees d)) as [mine|]; [|reflexivity].
  cbn [orReply bind].
  destruct (isSome _); reflexivity.
Qed.

(** C2.  Two check-ins of one employee that overlap: Alice has no open
    session, both handlers make their pre-check before either stores its
    session, both are answered 201, and Alice is left with two sessions
    with status checked-in.  Nothing in the [Location] schema refuses the
    second row. *)
Theorem overlapping_checkIns_open_two_sessions :
  openSessionsUnique sampleDb
  /\ exists l1 l2 d',
      overlappingCheckIns (at_time 100) (at_time 101) aliceCaller aliceCaller
        officeBody officeBody sampleDb
      = (LocationOk 201 l1, LocationOk 201 l2, d')
      /\ filter (Locations.isOpenSessionOf 10) (locations d') = [l1; l2]
      /\ Location._id l1 <> Location._id l2
      /\ ~ openSessionsUnique d'.
Proof.
  split; [intros e; cbn; lia|].
  eexists _, _, _. split; [reflexivity|].
  split; [reflexivity|]. split; [discriminate|].
  intros H. specialize (H 10). cbn in H. lia.
Qed.

(* ================================================================== *)
(** ** Payroll: one record per employee and week *)
(* ================================================================== *)

Lemma sameWeek_eq (e : objectId) (ws we : Z) (r : PaymentRecord.t) :
  Payments.sameWeek e ws we r = true ->
  e = PaymentRecord.employee r
  /\ ws = PaymentRecord.weekStartDate r
  /\ we = PaymentRecord.weekEndDate r.
Proof.
  unfold Payments.sameWeek. intros H.
  apply andb_prop in H. destruct H as (H & Hwe).
  apply andb_prop in H. destruct H as (He & Hws).
  apply Nat.eqb_eq in He. apply Z.eqb_eq in Hws. apply Z.eqb_eq in Hwe.
  auto.
Qed.

Lemma sameWeek_sameIdentity (e : objectId) (ws we : Z)
    (r r' : PaymentRecord.t) :
  sameIdentity r r' ->
  Payments.sameWeek e ws we r' = Payments.sameWeek e ws we r.
Proof.
  intros (_ & He & Hws & Hwe & _). unfold Payments.sameWeek.
  now rewrite He, Hws, Hwe.
Qed.

Lemma sameIdentity_trans (a b c : PaymentRecord.t) :
  sameIdentity a b -> sameIdentity b c -> sameIdentity a c.
Proof.
  unfold sameIdentity. intros H1 H2.
  repeat match goal with H : _ /\ _ |- _ => destruct H end.
  repeat split; congruence.
Qed.

(** Replacing the document found under [i] by one that matches [p] only if
    the old one did adds no match of [p]. *)
Lemma count_replace (p : PaymentRecord.t -> bool) (i : objectId)
    (r0 r1 : PaymentRecord.t) (l : list PaymentRecord.t) :
  findById PaymentRecord._id i l = Some r0 ->
  p r1 = p r0 ->
  List.length (filter p (updateById PaymentRecord._id i (fun _ => r1) l))
  = List.length (filter p l).
Proof.
  unfold findById. induction l as [|y r IH]; simpl; [discriminate|].
  destruct (PaymentRecord._id y =? i); simpl.
  - intros [= ->] ->. now destruct (p r0).
  - intros H Hp. destruct (p y); simpl; now rewrite IH.
Qed.

Lemma weekUnique_handle (ev : env) (u : caller) (req : request) (d : db) :
  weekUnique d -> weekUnique (snd (handle ev u req d)).
Proof.
  intros Hd.
  assert (Hframe : paymentRecords (snd (handle ev u req d)) = paymentRecords d
                   -> weekUnique (snd (handle ev u req d))).
  { intros E e ws we. rewrite E. apply Hd. }
  destruct req; try (apply Hframe; apply locations_frame; exact I);
    clear Hframe; cbn [handle]; unfold authorize;
    try (destruct (role_eqb (userRole u) admin); [|exact Hd]);
    intros e ws we.
  - destruct (createPaymentRecord_cases u b d) as [(r & E)|(E & _)];
      rewrite E; [|apply Hd].
    destruct (createPaymentRecord_inv _ _ _ E)
      as (doc & -> & _ & _ & Hnone & He & Hws & Hwe & _).
    cbn [snd Payments.setPayments paymentRecords]. rewrite count_snoc.
    destruct (Payments.sameWeek e ws we (PaymentModel.preSave doc)) eqn:Ep.
    + apply sameWeek_eq in Ep. cbn in Ep. destruct Ep as (-> & -> & ->).
      rewrite He, Hws, Hwe, (findOne_None_count _ _ Hnone). cbn. lia.
    + specialize (Hd e ws we). lia.
  - destruct (getPaymentRecord_cases ev u i d)
      as [(r0 & Hr0 & [E|(_ & E)])|(E & _)]; rewrite E; try apply Hd.
    cbn [snd Payments.setPayments paymentRecords].
    erewrite count_replace; [apply Hd|exact Hr0|reflexivity].
  - destruct (updatePaymentRecord_cases ev i b d)
      as [(r0 & r1 & Hr0 & Hid & _ & _ & E)|(E & _)]; rewrite E; [|apply Hd].
    cbn [snd Payments.setPayments paymentRecords].
    erewrite count_replace; [apply Hd|exact Hr0|].
    apply sameWeek_sameIdentity.
    eapply sameIdentity_trans; [exact Hid|apply sameIdentity_preSave].
  - unfold Payments.deletePaymentRecord.
    destruct (findById _ _ _); cbn; [|apply Hd].
    etransitivity; [apply count_deleteById|apply Hd].
Qed.

Lemma createPaymentRecord_conflict (u : caller) (b : Payments.CreateBody.t)
    (d : db) (r0 : PaymentRecord.t) :
  Payments.createPaymentRecordValidation b = true ->
  isSome (findById Employee._id (Payments.CreateBody.employeeId b)
            (employees d)) = true ->
  In r0 (paymentRecords d) ->
  Payments.sameWeek (Payments.CreateBody.employeeId b)
    (Payments.CreateBody.weekStartDate b)
    (Payments.CreateBody.weekEndDate b) r0 = true ->
  Payments.createPaymentRecord u b d = (conflict, d).
Proof.
  intros Hval Hemp Hin Hsame. unfold Payments.createPaymentRecord.
  rewrite Hval. cbn [negb replyIf bind].
  destruct (findById Employee._id _ (employees d)); [|discriminate].
  cbn [orReply bind].
  now rewrite (findOne_In _ _ _ Hin Hsame).
Qed.

(** C3.  At most one payment record per employee and week window, whatever
    requests are served.  A create for a triple that is already there is
    answered 400 with a message of its own, not the 500 of the catch-all
    branch, and stores nothing; in particular a second create with the
    triple of a create that succeeded. *)
Theorem one_record_per_week (ev : env) (u : caller) (req : request) (d : db) :
  weekUnique d ->
  weekUnique (snd (handle ev u req d))
  /\ (forall reqs, weekUnique (run reqs d))
  /\ (forall b r0,
         req = CreatePaymentRecord b ->
         userRole u = admin ->
         Payments.createPaymentRecordValidation b = true ->
         isSome (findById Employee._id (Payments.CreateBody.employeeId b)
                   (employees d)) = true ->
         In r0 (paymentRecords d) ->
         Payments.sameWeek (Payments.CreateBody.employeeId b)
           (Payments.CreateBody.weekStartDate b)
           (Payments.CreateBody.weekEndDate b) r0 = true ->
         handle ev u req d = (conflict, d)
         /\ statusOf (fst (handle ev u req d)) <> 500)
  /\ (forall b1 b2 ev2 u2 s r,
         req = CreatePaymentRecord b1 ->
         fst (handle ev u req d) = PaymentOk s r ->
         userRole u2 = admin ->
         Payments.createPaymentRecordValidation b2 = true ->
         Payments.CreateBody.employeeId b2 = Payments.CreateBody.employeeId b1 ->
         Payments.CreateBody.weekStartDate b2
         = Payments.CreateBody.weekStartDate b1 ->
         Payments.CreateBody.weekEndDate b2 = Payments.CreateBody.weekEndDate b1 ->
         handle ev2 u2 (CreatePaymentRecord b2) (snd (handle ev u req d))
         = (conflict, snd (handle ev u req d))).
Proof.
  intros Hd. split; [now apply weekUnique_handle|].
  split; [intros reqs; revert Hd; apply run_invariant;
          intros; now apply weekUnique_handle|].
  split.
  - intros b r0 -> Hrole Hval Hemp Hin Hsame.
    cbn [handle]. unfold authorize. rewrite Hrole. cbn [role_eqb].
    rewrite (createPaymentRecord_conflict u b d r0 Hval Hemp Hin Hsame).
    split; [reflexivity|]. cbn. discriminate.
  - intros b1 b2 ev2 u2 s r -> Hres Hrole Hval He Hws Hwe.
    cbn [handle] in *. unfold authorize in *. rewrite Hrole. cbn [role_eqb].
    destruct (role_eqb (userRole u) admin); [|discriminate].
    destruct (createPaymentRecord_cases u b1 d) as [(r' & E)|(_ & F)];
      [|rewrite Hres in F; contradiction].
    rewrite E. cbn [snd].
    destruct (createPaymentRecord_inv _ _ _ E)
      as (doc & -> & _ & _ & _ & He1 & Hws1 & Hwe1 & _ & Hemp & _).
    apply createPaymentRecord_conflict with (r0 := PaymentModel.preSave doc).
    + exact Hval.
    + now rewrite He.
    + cbn. apply in_or_app. right. now left.
    + unfold Payments.sameWeek. cbn.
      rewrite He, Hws, Hwe, He1, Hws1, Hwe1.
      now rewrite Nat.eqb_refl, !Z.eqb_refl.
Qed.

Lemma one_record_per_week_witness :
  handle (at_time 9) adminCaller (CreatePaymentRecord janRetry) janDb
  = (conflict, janDb)
  /\ List.length (paymentRecords janDb) = 1.
Proof.
  assert (H : weekUnique sampleDb) by (intros e ws we; cbn; lia).
  destruct (one_record_per_week (at_time 5) adminCaller
              (CreatePaymentRecord janBody) H) as (_ & _ & _ & Hc).
  split; [|reflexivity].
  eapply Hc; reflexivity.
Defined.

(* ================================================================== *)
(** ** Attendance: who may touch a session *)
(* ================================================================== *)

Lemma neq_eqb_false (a b : objectId) : a <> b -> (a =? b) = false.
Proof. intros H. now apply Nat.eqb_neq. Qed.

(** C4, as stated, fails: an administrator who checks out or live-updates
    the open session of an employee is answered 403, like any caller who is
    not the owner. *)
Lemma admin_checkOut_forbidden :
  userRole adminCaller = admin
  /\ (exists l, findById Location._id 1 (locations aliceIn) = Some l
                /\ Location.employee l = 10
                /\ Location.status l = checked_in)
  /\ handle (at_time 200) adminCaller (CheckOut 1) aliceIn
     = (forbiddenCheckOut, aliceIn)
  /\ handle (at_time 200) adminCaller (UpdateLiveLocation 1 moveBody) aliceIn
     = (forbiddenLiveUpdate, aliceIn)
  /\ ~ (exists s l, fst (handle (at_time 200) adminCaller (CheckOut 1) aliceIn)
                    = LocationOk s l).
Proof.
  split; [reflexivity|]. split; [eexists; repeat split; reflexivity|].
  split; [reflexivity|]. split; [reflexivity|].
  intros (s & l & H). discriminate H.
Qed.

(** C4, amended.  For a session owned by employee B and a caller whose user
    is not B's: a read by an employee is answered 403; a check-out and a
    live update are answered 403 whatever the role of the caller, these two
    handlers test ownership only; a read by an administrator succeeds.
    Nothing is written in any of these cases. *)
Theorem location_access (ev : env) (u : caller) (i : objectId)
    (b : Locations.liveUpdateBody) (d : db) (l : Location.t)
    (owner : Employee.t) :
  findById Location._id i (locations d) = Some l ->
  findById Employee._id (Location.employee l) (employees d) = Some owner ->
  isSome (findById User._id (Employee.user owner) (users d)) = true ->
  (id u <> Employee.user owner ->
   (userRole u = employee ->
    handle ev u (GetLocation i) d = (forbiddenRead, d))
   /\ handle ev u (CheckOut i) d = (forbiddenCheckOut, d)
   /\ handle ev u (UpdateLiveLocation i b) d = (forbiddenLiveUpdate, d))
  /\ (userRole u = admin -> handle ev u (GetLocation i) d = (LocationOk 200 l, d)).
Proof.
  intros Hl Ho Hu. split.
  - intros Hneq.
    assert (E : (Employee.user owner =? id u) = false)
      by (apply neq_eqb_false; congruence).
    split; [|split].
    + intros Hrole. cbn [handle]. unfold Locations.getLocation.
      rewrite Hl, Hrole. cbn [orReply bind role_eqb negb]. rewrite Ho.
      cbn [deref bind].
      destruct (findById User._id (Employee.user owner) (users d)) as [usr|] eqn:Eu;
        [|discriminate].
      apply findById_id in Eu. cbn [deref bind]. now rewrite Eu, E.
    + cbn [handle]. unfold Locations.checkOut.
      rewrite Hl. cbn [orReply bind]. rewrite Ho. cbn [deref bind].
      now rewrite E.
    + cbn [handle]. unfold Locations.updateLiveLocation.
      rewrite Hl. cbn [orReply bind]. rewrite Ho. cbn [deref bind].
      now rewrite E.
  - intros Hrole. cbn [handle]. unfold Locations.getLocation.
    now rewrite Hl, Hrole.
Qed.

Lemma location_access_witness :
  handle (at_time 200) bobCaller (GetLocation 1) aliceIn = (forbiddenRead, aliceIn)
  /\ handle (at_time 200) bobCaller (CheckOut 1) aliceIn
     = (forbiddenCheckOut, aliceIn)
  /\ handle (at_time 200) bobCaller (UpdateLiveLocation 1 moveBody) aliceIn
     = (forbiddenLiveUpdate, aliceIn)
  /\ statusOf (fst (handle (at_time 200) adminCaller (GetLocation 1) aliceIn))
     = 200.
Proof.
  assert (Hl : exists l, findById Location._id 1 (locations aliceIn) = Some l)
    by (eexists; reflexivity).
  destruct Hl as (l & Hl).
  assert (Ho : findById Employee._id (Location.employee l) (employees aliceIn)
               = Some {| Employee._id := 10; Employee.user := 2;
                         Employee.locations := [1] |})
    by (injection Hl as <-; reflexivity).
  destruct (@location_access (at_time 200) bobCaller 1 moveBody aliceIn l _
              Hl Ho eq_refl)
    as (Hbob & _).
  destruct (@location_access (at_time 200) adminCaller 1 moveBody aliceIn l _
              Hl Ho eq_refl)
    as (_ & Hadmin).
  assert (Hn : id bobCaller <> 2) by discriminate.
  destruct (Hbob Hn) as (Hread & Hout & Hlive).
  split; [now apply Hread|]. split; [exact Hout|]. split; [exact Hlive|].
  now rewrite Hadmin.
Defined.

(* ================================================================== *)
(** ** Attendance: a closed session *)
(* ================================================================== *)

(** C5.  A live update of a session that is not checked in writes nothing
    and is answered with an error: 400 "Cannot update location for
    checked-out session" when the caller owns the session. *)
Theorem live_update_needs_open_session (ev : env) (u : caller) (i : objectId)
    (b : Locations.liveUpdateBody) (d : db) (l : Location.t) :
  findById Location._id i (locations d) = Some l ->
  Location.status l <> checked_in ->
  snd (handle ev u (UpdateLiveLocation i b) d) = d
  /\ findById Location._id i
       (locations (snd (handle ev u (UpdateLiveLocation i b) d))) = Some l
  /\ isFailure (fst (handle ev u (UpdateLiveLocation i b) d))
  /\ (forall owner,
         findById Employee._id (Location.employee l) (employees d) = Some owner ->
         Employee.user owner = id u ->
         handle ev u (UpdateLiveLocation i b) d = (sessionClosed, d)).
Proof.
  intros Hl Hst.
  assert (Est : locationStatus_eqb (Location.status l) checked_in = false)
    by (destruct (Location.status l); [contradiction|reflexivity]).
  cbn [handle]. unfold Locations.updateLiveLocation.
  rewrite Hl. cbn [orReply bind].
  destruct (findById Employee._id (Location.employee l) (employees d))
    as [owner|]; cbn [deref bind tryCatch fst snd].
  - destruct (Employee.user owner =? id u) eqn:E;
      cbn [negb replyIf bind tryCatch fst snd]; rewrite ?Est;
      cbn [negb replyIf bind tryCatch fst snd]; rewrite ?Hl.
    + split; [reflexivity|]. split; [reflexivity|]. split; [exact I|].
      intros o [= <-] _. reflexivity.
    + split; [reflexivity|]. split; [reflexivity|]. split; [exact I|].
      intros o [= <-] Ho. apply Nat.eqb_neq in E. contradiction.
  - rewrite Hl. split; [reflexivity|]. split; [reflexivity|]. split; [exact I|].
    intros o [=].
Qed.

Lemma live_update_needs_open_session_witness :
  handle (at_time 400) aliceCaller (UpdateLiveLocation 1 moveBody) aliceOut
  = (sessionClosed, aliceOut).
Proof.
  assert (Hl : exists l, findById Location._id 1 (locations aliceOut) = Some l
                         /\ Location.status l = checked_out
                         /\ Location.employee l = 10)
    by (eexists; repeat split; reflexivity).
  destruct Hl as (l & Hl & Hst & He).
  assert (Hneq : Location.status l <> checked_in) by (rewrite Hst; discriminate).
  destruct (@live_update_needs_open_session (at_time 400) aliceCaller 1
              moveBody aliceOut l Hl Hneq) as (_ & _ & _ & Hc).
  eapply Hc; [rewrite He; reflexivity|reflexivity].
Defined.

(** C6: the code does not do what the claim asks for.  A second check-out of
    a session that is already checked out is accepted and replaces the
    stored check-out time: Alice checked out at 300, checks out again at
    400, is answered 200 and the row now says 400. *)
Lemma repeated_checkOut_overwrites :
  (exists l, findById Location._id 1 (locations aliceOut) = Some l
             /\ Location.status l = checked_out
             /\ Location.checkOutTime l = Some 300%Z)
  /\ (exists l',
         fst (handle (at_time 400) aliceCaller (CheckOut 1) aliceOut)
         = LocationOk 200 l'
         /\ Location.checkOutTime l' = Some 400%Z
         /\ findById Location._id 1
              (locations (snd (handle (at_time 400) aliceCaller (CheckOut 1)
                                 aliceOut))) = Some l').
Proof.
  split; eexists; repeat split; reflexivity.
Qed.

(* ================================================================== *)
(** ** Payroll: the overtime amount *)
(* ================================================================== *)

(** Equality of two closed finite numbers. *)
Ltac num_eq :=
  repeat match goal with
         | |- Some _ = Some _ => apply f_equal
         | |- JS.Fin _ = JS.Fin _ => apply f_equal
         end;
  apply Qc_is_canon; reflexivity.

(** Two closed finite numbers differ. *)
Ltac num_neq :=
  let E := fresh "E" in
  intros E; injection E as E; vm_compute in E; discriminate E.

Lemma processOvertime_rule (o : Overtime.t) :
  overtimeRule o (Payments.processOvertime o).
Proof.
  unfold overtimeRule, Payments.processOvertime, Payments.truthyOpt. split.
  - intros h r Hh Hr Th Tr. rewrite Hh, Hr. cbn. now rewrite Th, Tr.
  - intros a Hf Ha. now rewrite Hf.
Qed.

Lemma overtimeDefaults_amount (o : Overtime.t) (a : JS.number) :
  Overtime.amount o = Some a ->
  Overtime.amount (Payments.overtimeDefaults o) = Some a.
Proof. intros H. cbn. now rewrite H. Qed.

(** C7, as stated, fails: with hours 2 and rate 10, an amount of 5 given
    explicitly is not kept, 20 is stored. *)
Lemma explicit_overtime_amount_overwritten :
  exists r d',
    handle (at_time 5) adminCaller (CreatePaymentRecord overtimeBody) sampleDb
    = (PaymentOk 201 r, d')
    /\ option_map Overtime.amount (Payments.CreateBody.overtime overtimeBody)
       = Some (Some (num 5))
    /\ Overtime.amount (PaymentRecord.overtime r) = Some (num 20)
    /\ Overtime.amount (PaymentRecord.overtime r) <> Some (num 5).
Proof.
  eexists _, _. split; [reflexivity|]. split; [reflexivity|].
  split; [vm_compute; num_eq|vm_compute; num_neq].
Qed.

(** C7, amended.  When a create or an update carries an [overtime] object
    whose hours and rate are both non-zero numbers, the stored amount is
    [hours * rate], whether an amount was given or not; an amount given
    explicitly is kept as supplied only when the hours or the rate are
    missing or zero. *)
Theorem overtime_amount_rule (ev : env) (u : caller) (req : request) (d : db)
    (s : nat) (r : PaymentRecord.t) (o : Overtime.t) :
  fst (handle ev u req d) = PaymentOk s r ->
  suppliedOvertime req = Some o ->
  overtimeRule o (PaymentRecord.overtime r).
Proof.
  intros Hres Ho.
  destruct req; try discriminate; cbn [handle suppliedOvertime] in *;
    unfold authorize in *;
    destruct (role_eqb (userRole u) admin); try discriminate.
  - destruct (createPaymentRecord_cases u b d) as [(r' & E)|(_ & F)];
      [|rewrite Hres in F; contradiction].
    rewrite E in Hres. injection Hres as _ ->.
    destruct (createPaymentRecord_inv _ _ _ E)
      as (doc & -> & _ & _ & _ & _ & _ & _ & Hot & _).
    cbn [PaymentModel.preSave PaymentRecord.overtime].
    rewrite Hot, Ho.
    destruct (processOvertime_rule o) as (Hboth & Hkeep).
    split.
    + intros h rt Hh Hr Th Tr. apply overtimeDefaults_amount. eauto.
    + intros a Hf Ha. apply overtimeDefaults_amount. eauto.
  - destruct (updatePaymentRecord_cases ev i b d)
      as [(r0 & r1 & _ & _ & _ & Hot & E)|(_ & F)];
      [|rewrite Hres in F; contradiction].
    rewrite E in Hres. injection Hres as _ <-.
    cbn [PaymentModel.preSave PaymentRecord.overtime].
    rewrite Hot, Ho. apply processOvertime_rule.
Qed.

Lemma overtime_amount_rule_witness :
  (exists s r,
      fst (handle (at_time 5) adminCaller (CreatePaymentRecord overtimeBody)
             sampleDb) = PaymentOk s r
      /\ Overtime.amount (PaymentRecord.overtime r)
         = Some (JS.mul (num 2) (num 10)))
  /\ (exists s r,
         fst (handle (at_time 9) adminCaller
                (UpdatePaymentRecord 1 overtimeUpdate) janDb) = PaymentOk s r
         /\ Overtime.amount (PaymentRecord.overtime r)
            = Some (JS.mul (num 3) (num 10))).
Proof.
  split.
  - eexists _, _. split; [reflexivity|].
    match goal with
    | |- Overtime.amount (PaymentRecord.overtime ?r) = _ =>
        destruct (@overtime_amount_rule (at_time 5) adminCaller
                    (CreatePaymentRecord overtimeBody) sampleDb 201 r _
                    eq_refl eq_refl) as (Hboth & _)
    end.
    apply Hboth; reflexivity.
  - eexists _, _. split; [reflexivity|].
    match goal with
    | |- Overtime.amount (PaymentRecord.overtime ?r) = _ =>
        destruct (@overtime_amount_rule (at_time 9) adminCaller
                    (UpdatePaymentRecord 1 overtimeUpdate) janDb 200 r _
                    eq_refl eq_refl) as (Hboth & _)
    end.
    apply Hboth; reflexivity.
Defined.

(* ================================================================== *)
(** ** Attendance: coordinates that are not numbers *)
(* ================================================================== *)

(** [updateLiveLocation] either moves the session it found, with numbers
    that passed the cast, or answers with an error and leaves the database
    alone. *)
Lemma updateLiveLocation_cases (ev : env) (u : caller) (i : objectId)
    (b : Locations.liveUpdateBody) (d : db) :
  (exists l0 acc,
      findById Location._id i (locations d) = Some l0
      /\ acc = (if JS.truthy (Locations.liveAccuracy b)
                then Some (JS.parseFloat (Locations.liveAccuracy b))
                else Location.accuracy l0)
      /\ nanAt "latitude" (JS.parseFloat (Locations.liveLatitude b))
         ++ nanAt "longitude" (JS.parseFloat (Locations.liveLongitude b))
         ++ nanAtOpt "accuracy" acc = []
      /\ Locations.updateLiveLocation ev u i b d
         = (LocationOk 200
              (Locations.moveSession (now ev)
                 (JS.parseFloat (Locations.liveLatitude b))
                 (JS.parseFloat (Locations.liveLongitude b)) acc l0),
            Locations.setLocations
              (updateById Location._id i
                 (Locations.moveSession (now ev)
                    (JS.parseFloat (Locations.liveLatitude b))
                    (JS.parseFloat (Locations.liveLongitude b)) acc)
                 (locations d)) d))
  \/ (snd (Locations.updateLiveLocation ev u i b d) = d
      /\ isFailure (fst (Locations.updateLiveLocation ev u i b d))).
Proof.
  unfold Locations.updateLiveLocation.
  repeat goal_case; try (right; split; [reflexivity|exact I]).
  left. eexists _, _. repeat split; try reflexivity; eassumption.
Qed.

Lemma nan_lists (lat lng : JS.number) (acc : option JS.number) :
  nanAt "latitude" lat ++ nanAt "longitude" lng ++ nanAtOpt "accuracy" acc = [] ->
  JS.isNaN lat = false /\ JS.isNaN lng = false
  /\ (forall a, acc = Some a -> JS.isNaN a = false).
Proof.
  intros H. split_nil.
  repeat split; try (eapply nanAt_nil; eassumption).
  intros a ->. eapply nanAtOpt_nil; eassumption.
Qed.

(** C8, as stated, fails: the latitude "12abc" is not a number, and the
    check-in succeeds and stores 12. *)
Lemma malformed_latitude_accepted :
  exists l d',
    handle (at_time 100) aliceCaller (CheckIn prefixBody) sampleDb
    = (LocationOk 201 l, d')
    /\ Locations.latitude prefixBody = JS.JStr "12abc"
    /\ Location.latitude l = num 12
    /\ In l (locations d').
Proof.
  eexists _, _. split; [reflexivity|]. split; [reflexivity|].
  split; [reflexivity|]. left. reflexivity.
Qed.

(** C8, amended.  When [parseFloat] finds no number at the head of the
    latitude, of the longitude or of an accuracy that is used, a check-in
    or a live update is answered with an error and writes nothing; and the
    row a check-in or a live update stores never holds [NaN] in those
    fields.  A string with a numeric prefix is read as that prefix. *)
Theorem nan_never_stored (ev : env) (u : caller) (req : request) (d : db) :
  (forall c,
      suppliedCoordinates req = Some c ->
      coordinatesNaN c = true ->
      snd (handle ev u req d) = d /\ isFailure (fst (handle ev u req d)))
  /\ (forall s l,
         isLocationWrite req = true ->
         fst (handle ev u req d) = LocationOk s l ->
         noNaN l /\ In l (locations (snd (handle ev u req d)))).
Proof.
  split.
  - intros [[lat lng] acc] Hc Hnan.
    destruct req; try discriminate; cbn [handle suppliedCoordinates] in *;
      injection Hc as <- <- <-; unfold coordinatesNaN in Hnan.
    + destruct (checkIn_cases ev u b d)
        as [(mine & l & _ & _ & Hlat & Hlng & Hacc & Hok & _)|F]; [|exact F].
      apply nan_lists in Hok. destruct Hok as (H1 & H2 & H3).
      rewrite Hlat in H1. rewrite Hlng in H2. rewrite H1, H2 in Hnan.
      destruct (JS.truthy (Locations.accuracy b)); [|discriminate].
      now rewrite (H3 _ Hacc) in Hnan.
    + destruct (updateLiveLocation_cases ev u i b d)
        as [(l0 & acc & _ & Hacc & Hok & _)|F]; [|exact F].
      apply nan_lists in Hok. destruct Hok as (H1 & H2 & H3).
      rewrite H1, H2 in Hnan.
      destruct (JS.truthy (Locations.liveAccuracy b)); [|discriminate].
      now rewrite (H3 _ Hacc) in Hnan.
  - intros s l Hw Hres.
    destruct req; try discriminate; cbn [handle] in *.
    + destruct (checkIn_cases ev u b d)
        as [(mine & l' & _ & _ & _ & _ & _ & Hok & Hlocs & E)|(_ & F)];
        [|rewrite Hres in F; contradiction].
      rewrite E in Hres. injection Hres as _ <-.
      split; [now apply nan_lists|].
      rewrite Hlocs. apply in_or_app. right. now left.
    + destruct (updateLiveLocation_cases ev u i b d)
        as [(l0 & acc & Hl0 & _ & Hok & E)|(_ & F)];
        [|rewrite Hres in F; contradiction].
      rewrite E in *. cbn [fst snd] in *. injection Hres as _ <-.
      split; [now apply nan_lists|].
      cbn. apply findById_In with (docId := Location._id) (i := i).
      apply (findById_updateById Location._id _ _ Hl0).
      cbn. now apply findById_id in Hl0.
Qed.

Lemma nan_never_stored_witness :
  (snd (handle (at_time 100) aliceCaller (CheckIn wordBody) sampleDb) = sampleDb
   /\ isFailure (fst (handle (at_time 100) aliceCaller (CheckIn wordBody)
                        sampleDb)))
  /\ (snd (handle (at_time 200) aliceCaller (UpdateLiveLocation 1 wordMove)
             aliceIn) = aliceIn
      /\ isFailure (fst (handle (at_time 200) aliceCaller
                           (UpdateLiveLocation 1 wordMove) aliceIn))).
Proof.
  destruct (nan_never_stored (at_time 100) aliceCaller (CheckIn wordBody)
              sampleDb) as (Hfail & _).
  destruct (nan_never_stored (at_time 200) aliceCaller
              (UpdateLiveLocation 1 wordMove) aliceIn) as (Hlive & _).
  exact (conj (Hfail _ eq_refl eq_refl) (Hlive _ eq_refl eq_refl)).
Defined.

(* ================================================================== *)
(** ** Payroll: the viewed flag *)
(* ================================================================== *)

(** An employee reads a record of their own that is already marked as
    viewed: the record comes back and nothing is written. *)
Lemma getPaymentRecord_viewed (ev : env) (u : caller) (i : objectId) (d : db)
    (r : PaymentRecord.t) (mine owner : Employee.t) :
  userRole u = employee ->
  findById PaymentRecord._id i (paymentRecords d) = Some r ->
  findOne (fun e => Employee.user e =? id u) (employees d) = Some mine ->
  findById Employee._id (PaymentRecord.employee r) (employees d) = Some owner ->
  (Employee._id owner =? Employee._id mine) = true ->
  PaymentRecord.isViewed r = true ->
  Payments.getPaymentRecord ev u i d = (PaymentOk 200 r, d).
Proof.
  intros Hrole Hr Hmine Howner Hsame Hv. unfold Payments.getPaymentRecord.
  rewrite Hr, Hrole. cbn [orReply bind role_eqb negb].
  rewrite Hmine, Howner. cbn [deref bind]. rewrite Hsame.
  cbn [negb replyIf bind]. now rewrite Hv.
Qed.

(** What a successful read by an employee did. *)
Lemma getPaymentRecord_employee_inv (ev : env) (u : caller) (i : objectId)
    (d : db) (s : nat) (r : PaymentRecord.t) :
  userRole u = employee ->
  fst (Payments.getPaymentRecord ev u i d) = PaymentOk s r ->
  exists r0 mine owner,
    findById PaymentRecord._id i (paymentRecords d) = Some r0
    /\ findOne (fun e => Employee.user e =? id u) (employees d) = Some mine
    /\ findById Employee._id (PaymentRecord.employee r0) (employees d)
       = Some owner
    /\ (Employee._id owner =? Employee._id mine) = true
    /\ ((PaymentRecord.isViewed r0 = true /\ r = r0
         /\ snd (Payments.getPaymentRecord ev u i d) = d)
        \/ (PaymentRecord.isViewed r0 = false
            /\ r = PaymentModel.markAsViewed (now ev) r0
            /\ snd (Payments.getPaymentRecord ev u i d)
               = Payments.setPayments
                   (updateById PaymentRecord._id i (fun _ => r)
                      (paymentRecords d)) d)).
Proof.
  intros Hrole. unfold Payments.getPaymentRecord. rewrite Hrole.
  destruct (findById PaymentRecord._id i (paymentRecords d)) as [r0|] eqn:Er;
    [|discriminate].
  cbn [orReply bind role_eqb negb].
  destruct (findOne _ (employees d)) as [mine|] eqn:Em; [|discriminate].
  destruct (findById Employee._id _ (employees d)) as [owner|] eqn:Eo;
    [|discriminate].
  cbn [deref bind].
  destruct (Employee._id owner =? Employee._id mine) eqn:Es; [|discriminate].
  cbn [negb replyIf bind].
  destruct (PaymentRecord.isViewed r0) eqn:Ev; cbn [negb tryCatch fst snd].
  - intros [= <- <-]; exists r0, mine, owner; repeat split; auto.
  - destruct (PaymentModel.validate r0);
      cbn [throwIfAny bind tryCatch fst snd]; [|discriminate].
    intros [= <- <-]; exists r0, mine, owner; repeat split; auto.
Qed.

(** C9.  When an employee reads a payment record of their own, the record
    that comes back is marked as viewed, with the time of this read if it
    was not viewed before; from then on, a read of that record by the
    employee returns the same record and writes nothing, so [viewedAt]
    stays what the first read made it. *)
Theorem payslip_view_idempotent (ev : env) (u : caller) (i : objectId)
    (d : db) (s : nat) (r : PaymentRecord.t) :
  userRole u = employee ->
  fst (handle ev u (GetPaymentRecord i) d) = PaymentOk s r ->
  PaymentRecord.isViewed r = true
  /\ (forall r0,
         findById PaymentRecord._id i (paymentRecords d) = Some r0 ->
         PaymentRecord.isViewed r0 = false ->
         PaymentRecord.viewedAt r = Some (now ev))
  /\ (forall ev2,
         handle ev2 u (GetPaymentRecord i) (snd (handle ev u (GetPaymentRecord i) d))
         = (PaymentOk 200 r, snd (handle ev u (GetPaymentRecord i) d)))
  /\ (forall evs,
         run (map (fun ev2 => (ev2, u, GetPaymentRecord i)) evs)
           (snd (handle ev u (GetPaymentRecord i) d))
         = snd (handle ev u (GetPaymentRecord i) d)).
Proof.
  intros Hrole Hres. cbn [handle] in *.
  destruct (@getPaymentRecord_employee_inv ev u i d s r Hrole Hres)
    as (r0 & mine & owner & Hr0 & Hmine & Howner & Hsame & Hcase).
  assert (Hagain : forall ev2,
             Payments.getPaymentRecord ev2 u i
               (snd (Payments.getPaymentRecord ev u i d))
             = (PaymentOk 200 r, snd (Payments.getPaymentRecord ev u i d))).
  { intros ev2.
    destruct Hcase as [(Hv & -> & ->)|(Hv & Hr & ->)].
    - now apply getPaymentRecord_viewed with mine owner.
    - apply getPaymentRecord_viewed with mine owner; auto.
      + cbn. apply (findById_updateById PaymentRecord._id (fun _ => r) _ Hr0).
        rewrite Hr. cbn. now apply findById_id in Hr0.
      + rewrite Hr. exact Howner.
      + now rewrite Hr. }
  split; [|split; [|split]].
  - destruct Hcase as [(Hv & -> & _)|(_ & -> & _)]; [exact Hv|reflexivity].
  - intros r0' Hr0' Hv. rewrite Hr0 in Hr0'. injection Hr0' as <-.
    destruct Hcase as [(Hv' & _)|(_ & -> & _)]; [congruence|reflexivity].
  - exact Hagain.
  - intros evs. induction evs as [|ev2 rest IH]; [reflexivity|].
    cbn [map run handle]. rewrite Hagain. exact IH.
Qed.

Lemma payslip_view_idempotent_witness :
  exists r,
    fst (handle (at_time 50) aliceCaller (GetPaymentRecord 1) janDb)
    = PaymentOk 200 r
    /\ PaymentRecord.viewedAt r = Some 50%Z
    /\ handle (at_time 60) aliceCaller (GetPaymentRecord 1)
         (snd (handle (at_time 50) aliceCaller (GetPaymentRecord 1) janDb))
       = (PaymentOk 200 r,
          snd (handle (at_time 50) aliceCaller (GetPaymentRecord 1) janDb)).
Proof.
  eexists. split; [reflexivity|].
  match goal with
  | |- PaymentRecord.viewedAt ?r = _ /\ _ =>
      destruct (@payslip_view_idempotent (at_time 50) aliceCaller 1 janDb
                  200 r eq_refl eq_refl) as (_ & Hat & Hagain & _)
  end.
  split; [eapply Hat; reflexivity|apply Hagain].
Defined.

(* ================================================================== *)
(** ** Payroll: what an update leaves alone *)
(* ================================================================== *)

Lemma findById_replace_other (i j : objectId) (r : PaymentRecord.t)
    (l : list PaymentRecord.t) :
  PaymentRecord._id r = i -> j <> i ->
  findById PaymentRecord._id j
    (updateById PaymentRecord._id i (fun _ => r) l)
  = findById PaymentRecord._id j l.
Proof.
  intros Hr Hj. unfold findById.
  induction l as [|y rest IH]; simpl; [reflexivity|].
  destruct (PaymentRecord._id y =? i) eqn:E; simpl.
  - apply Nat.eqb_eq in E. rewrite Hr, E.
    apply Nat.eqb_neq in Hj. rewrite Nat.eqb_sym in Hj. now rewrite Hj.
  - now rewrite IH.
Qed.

Lemma sameIdentity_refl (r : PaymentRecord.t) : sameIdentity r r.
Proof. repeat split. Qed.

Lemma sameIdentity_fields (r0 r1 : PaymentRecord.t) :
  sameIdentity r0 r1 ->
  PaymentRecord.employee r1 = PaymentRecord.employee r0
  /\ PaymentRecord.weekStartDate r1 = PaymentRecord.weekStartDate r0
  /\ PaymentRecord.weekEndDate r1 = PaymentRecord.weekEndDate r0
  /\ PaymentRecord.uploadedBy r1 = PaymentRecord.uploadedBy r0
  /\ PaymentRecord.isViewed r1 = PaymentRecord.isViewed r0
  /\ PaymentRecord.viewedAt r1 = PaymentRecord.viewedAt r0
  /\ (forall e ws we,
         Payments.sameWeek e ws we r1 = Payments.sameWeek e ws we r0).
Proof.
  intros H. pose proof (fun e ws we => sameWeek_sameIdentity e ws we H) as Hw.
  destruct H as (_ & He & Hws & Hwe & Hup & Hv & Hat).
  repeat split; assumption.
Qed.

(** C10.  An update of a payment record, with whatever fields, leaves its
    employee, its week start and end dates, its uploader, its viewed flag
    and its viewed date as they were, hence also the triple (employee,
    weekStartDate, weekEndDate); the other records are not touched. *)
Theorem update_keeps_identity (ev : env) (u : caller) (i : objectId)
    (b : Payments.UpdateBody.t) (d : db) (r0 : PaymentRecord.t) :
  findById PaymentRecord._id i (paymentRecords d) = Some r0 ->
  exists r1,
    findById PaymentRecord._id i
      (paymentRecords (snd (handle ev u (UpdatePaymentRecord i b) d))) = Some r1
    /\ PaymentRecord.employee r1 = PaymentRecord.employee r0
    /\ PaymentRecord.weekStartDate r1 = PaymentRecord.weekStartDate r0
    /\ PaymentRecord.weekEndDate r1 = PaymentRecord.weekEndDate r0
    /\ PaymentRecord.uploadedBy r1 = PaymentRecord.uploadedBy r0
    /\ PaymentRecord.isViewed r1 = PaymentRecord.isViewed r0
    /\ PaymentRecord.viewedAt r1 = PaymentRecord.viewedAt r0
    /\ (forall e ws we,
           Payments.sameWeek e ws we r1 = Payments.sameWeek e ws we r0)
    /\ (forall j, j <> i ->
           findById PaymentRecord._id j
             (paymentRecords (snd (handle ev u (UpdatePaymentRecord i b) d)))
           = findById PaymentRecord._id j (paymentRecords d)).
Proof.
  intros Hr0.
  assert (Hfields : forall r1 P,
             sameIdentity r0 r1 -> P ->
             PaymentRecord.employee r1 = PaymentRecord.employee r0
             /\ PaymentRecord.weekStartDate r1 = PaymentRecord.weekStartDate r0
             /\ PaymentRecord.weekEndDate r1 = PaymentRecord.weekEndDate r0
             /\ PaymentRecord.uploadedBy r1 = PaymentRecord.uploadedBy r0
             /\ PaymentRecord.isViewed r1 = PaymentRecord.isViewed r0
             /\ PaymentRecord.viewedAt r1 = PaymentRecord.viewedAt r0
             /\ (forall e ws we,
                    Payments.sameWeek e ws we r1 = Payments.sameWeek e ws we r0)
             /\ P).
  { intros r1 P Hid HP.
    destruct (sameIdentity_fields Hid) as (H1 & H2 & H3 & H4 & H5 & H6 & H7).
    repeat split; assumption. }
  cbn [handle]. unfold authorize.
  destruct (role_eqb (userRole u) admin).
  - destruct (updatePaymentRecord_cases ev i b d)
      as [(r0' & r1 & Hr0' & Hid & _ & _ & E)|(E & _)]; rewrite E.
    + (* the edited document is stored *)
      rewrite Hr0 in Hr0'. injection Hr0' as <-.
      assert (Hid' : sameIdentity r0 (PaymentModel.preSave r1))
        by (eapply sameIdentity_trans; [exact Hid|apply sameIdentity_preSave]).
      assert (Hi : PaymentRecord._id (PaymentModel.preSave r1) = i).
      { destruct Hid' as (-> & _). now apply findById_id in Hr0. }
      exists (PaymentModel.preSave r1).
      cbn [snd Payments.setPayments paymentRecords].
      split; [now apply (findById_updateById PaymentRecord._id
                           (fun _ => PaymentModel.preSave r1) _ Hr0)|].
      apply Hfields; [exact Hid'|].
      intros j Hj. now apply findById_replace_other.
    + (* an error: nothing is written *)
      exists r0. split; [exact Hr0|].
      apply Hfields; [apply sameIdentity_refl|reflexivity].
  - (* not an administrator: nothing is written *)
    exists r0. split; [exact Hr0|].
    apply Hfields; [apply sameIdentity_refl|reflexivity].
Qed.

Lemma update_keeps_identity_witness :
  exists r1,
    findById PaymentRecord._id 1
      (paymentRecords
         (snd (handle (at_time 9) adminCaller
                 (UpdatePaymentRecord 1 overtimeUpdate) janDb))) = Some r1
    /\ PaymentRecord.employee r1 = 10
    /\ PaymentRecord.weekStartDate r1 = 1704067200000%Z
    /\ PaymentRecord.weekEndDate r1 = 1704585600000%Z
    /\ PaymentRecord.uploadedBy r1 = 1
    /\ PaymentRecord.isViewed r1 = false
    /\ PaymentRecord.viewedAt r1 = None.
Proof.
  assert (H0 : exists r0,
             findById PaymentRecord._id 1 (paymentRecords janDb) = Some r0)
    by (eexists; reflexivity).
  destruct H0 as (r0 & H0).
  destruct (@update_keeps_identity (at_time 9) adminCaller 1 overtimeUpdate
              janDb r0 H0)
    as (r1 & Hr1 & He & Hws & Hwe & Hup & Hv & Hat & _).
  exists r1. injection H0 as <-.
  repeat split; [exact Hr1|rewrite He|rewrite Hws|rewrite Hwe|rewrite Hup
                |rewrite Hv|rewrite Hat]; reflexivity.
Defined.

(* ================================================================== *)
(** ** The scenarios of the specification *)
(* ================================================================== *)

(** Whatever requests an empty database has served, its payment records
    carry the right totals, no employee has two open sessions and no week
    has two records. *)
Lemma served_from_empty (reqs : list (env * caller * request)) :
  paymentsOk (run reqs emptyDb)
  /\ openSessionsUnique (run reqs emptyDb)
  /\ weekUnique (run reqs emptyDb).
Proof.
  split; [|split].
  - apply run_invariant; [intros; now apply paymentsOk_handle|].
    intros r [].
  - apply run_invariant; [intros; now apply openSessionsUnique_handle|].
    intros e. cbn. lia.
  - apply run_invariant; [intros; now apply weekUnique_handle|].
    intros e ws we. cbn. lia.
Qed.

(** Salary 1000, one bonus of 50, one deduction of 20, no overtime: gross
    1050, deductions 20, net 1030, whatever the client sent as totals. *)
Example january_totals :
  exists r,
    findById PaymentRecord._id 1 (paymentRecords janDb) = Some r
    /\ PaymentRecord.grossPay r = Some (num 1050)
    /\ PaymentRecord.totalDeductions r = num 20
    /\ PaymentRecord.netPay r = Some (num 1030).
Proof.
  eexists. split; [reflexivity|].
  repeat split; vm_compute; num_eq.
Qed.

(** Alice checks in at (12.97, 77.59), moves twice, ends at (12.98, 77.60)
    and checks out: the row shows the last coordinates, is checked out, and
    the check-out is not before the check-in. *)
Example attendance_round_trip :
  let day :=
    [ (at_time 100, aliceCaller, CheckIn officeBody);
      (at_time 150, aliceCaller,
       UpdateLiveLocation 1
         {| Locations.liveLatitude := JS.JStr "12.975";
            Locations.liveLongitude := JS.JStr "77.595";
            Locations.liveAccuracy := JS.JNum (num 12) |});
      (at_time 200, aliceCaller, UpdateLiveLocation 1 moveBody);
      (at_time 300, aliceCaller, CheckOut 1) ] in
  exists l,
    findById Location._id 1 (locations (run day sampleDb)) = Some l
    /\ Location.latitude l = JS.Fin (JS.scale10 1298 (-2))
    /\ Location.longitude l = JS.Fin (JS.scale10 776 (-1))
    /\ Location.status l = checked_out
    /\ Location.checkOutTime l = Some 300%Z
    /\ (Location.checkInTime l <= 300)%Z.
Proof.
  eexists. split; [reflexivity|].
  split; [vm_compute; num_eq|]. split; [vm_compute; num_eq|].
  split; [reflexivity|]. split; [reflexivity|].
  vm_compute. discriminate.
Qed.

(* ================================================================== *)
(** ** Further properties of the handlers *)
(* ================================================================== *)

(** *** Errors write nothing *)

Lemma simple_handlers_fail_clean (ev : env) (u : caller) (req : request)
    (d : db) :
  match req with
  | GetLocation _ | CheckOut _ | DeleteLocation _ _ | DeletePaymentRecord _ => True
  | _ => False
  end ->
  isFailure (fst (handle ev u req d)) -> snd (handle ev u req d) = d.
Proof.
  destruct req; try contradiction; intros _; cbn [handle]; unfold authorize;
    try (destruct (role_eqb (userRole u) admin); [|reflexivity]).
  - unfold Locations.getLocation. repeat goal_case; reflexivity.
  - unfold Locations.checkOut.
    repeat goal_case; try reflexivity. intros [].
  - unfold Locations.deleteLocation.
    repeat goal_case; try reflexivity. intros [].
  - unfold Payments.deletePaymentRecord.
    repeat goal_case; try reflexivity. intros [].
Qed.

(** Whatever the request, an error response leaves the database as it was:
    no handler writes before it fails. *)
Theorem errors_write_nothing (ev : env) (u : caller) (req : request) (d : db) :
  isFailure (fst (handle ev u req d)) -> snd (handle ev u req d) = d.
Proof.
  destruct req;
    try (apply simple_handlers_fail_clean; exact I);
    cbn [handle]; unfold authorize;
    try (destruct (role_eqb (userRole u) admin); [|reflexivity]).
  - destruct (checkIn_cases ev u b d)
      as [(mine & l & _ & _ & _ & _ & _ & _ & _ & E)|(E & _)];
      [rewrite E; intros []|now rewrite E].
  - destruct (updateLiveLocation_cases ev u i b d)
      as [(l0 & acc & _ & _ & _ & E)|(E & _)];
      [rewrite E; intros []|now rewrite E].
  - destruct (createPaymentRecord_cases u b d) as [(r & E)|(E & _)];
      [rewrite E; intros []|now rewrite E].
  - destruct (getPaymentRecord_cases ev u i d)
      as [(r0 & _ & [E|(_ & E)])|(E & _)];
      [rewrite E; intros []|rewrite E; intros []|now rewrite E].
  - destruct (updatePaymentRecord_cases ev i b d)
      as [(r0 & r1 & _ & _ & _ & _ & E)|(E & _)];
      [rewrite E; intros []|now rewrite E].
Qed.

Lemma errors_write_nothing_witness :
  snd (handle (at_time 9) adminCaller (CreatePaymentRecord janRetry) janDb)
  = janDb.
Proof.
  apply (@errors_write_nothing (at_time 9) adminCaller
           (CreatePaymentRecord janRetry) janDb).
  exact I.
Defined.

(* ================================================================== *)
(** *** The payment date and the payment status *)

(** [updatePaymentRecord] assigns the new status before it tests whether the
    record "is being changed to paid", so the test never holds: an update
    sets the status it is given and leaves [paymentDate] as it was, also
    when the record goes from pending to paid. *)
Theorem update_never_stamps_paymentDate (ev : env) (i : objectId)
    (b : Payments.UpdateBody.t) (d d' : db) (s : nat)
    (r0 r1 : PaymentRecord.t) :
  findById PaymentRecord._id i (paymentRecords d) = Some r0 ->
  Payments.updatePaymentRecord ev i b d = (PaymentOk s r1, d') ->
  PaymentRecord.paymentDate r1 = PaymentRecord.paymentDate r0
  /\ PaymentRecord.paymentStatus r1
     = match Payments.UpdateBody.paymentStatus b with
       | Some st => st
       | None => PaymentRecord.paymentStatus r0
       end
  /\ findById PaymentRecord._id i (paymentRecords d') = Some r1.
Proof.
  intros Hr0 H. unfold Payments.updatePaymentRecord in H.
  rewrite Hr0 in H.
  destruct (negb (Payments.updatePaymentRecordValidation b));
    [discriminate|].
  cbn [replyIf orReply bind] in H.
  match type of H with
  | context [throwIfAny ?l] => destruct l
  end; [|discriminate].
  cbn [throwIfAny bind tryCatch] in H. injection H as _ <- <-.
  split; [|split].
  - cbn [PaymentModel.preSave PaymentModel.assign PaymentRecord.paymentDate].
    destruct (Payments.UpdateBody.paymentStatus b) as [[| |]|]; reflexivity.
  - reflexivity.
  - cbn [Payments.setPayments paymentRecords].
    match goal with
    | |- findById _ _ (updateById _ _ ?f _) = _ =>
        apply (findById_updateById PaymentRecord._id f _ Hr0)
    end.
    cbn. now apply findById_id in Hr0.
Qed.

Lemma update_never_stamps_paymentDate_witness :
  exists r1 d',
    Payments.updatePaymentRecord (at_time 9) 1 markPaid janDb
    = (PaymentOk 200 r1, d')
    /\ PaymentRecord.paymentStatus r1 = paid
    /\ PaymentRecord.paymentDate r1 = None.
Proof.
  eexists _, _. split; [reflexivity|].
  match goal with
  | |- PaymentRecord.paymentStatus ?r = _ /\ _ =>
      destruct (@update_never_stamps_paymentDate (at_time 9) 1 markPaid janDb
                  _ 200 _ r eq_refl eq_refl) as (Hd & Hs & _)
  end.
  split; [exact Hs|exact Hd].
Defined.

(* ================================================================== *)
(** *** Who marks a payment record as viewed *)

(** A read of a payment record writes only when the caller is an employee,
    the record belongs to the employee profile of the caller and it was not
    viewed yet: an administrator, or an employee looking at a record of
    somebody else, never marks it. *)
Theorem only_the_owner_marks_viewed (ev : env) (u : caller) (i : objectId)
    (d : db) :
  snd (handle ev u (GetPaymentRecord i) d) <> d ->
  userRole u = employee
  /\ exists r0 mine owner,
      findById PaymentRecord._id i (paymentRecords d) = Some r0
      /\ PaymentRecord.isViewed r0 = false
      /\ findOne (fun e => Employee.user e =? id u) (employees d) = Some mine
      /\ findById Employee._id (PaymentRecord.employee r0) (employees d)
         = Some owner
      /\ Employee._id owner = Employee._id mine.
Proof.
  cbn [handle]. unfold Payments.getPaymentRecord.
  destruct (findById PaymentRecord._id i (paymentRecords d)) as [r0|] eqn:Er;
    [|intros H; now contradiction H].
  cbn [orReply bind].
  destruct (userRole u) eqn:Erole; cbn [role_eqb negb];
    [intros H; now contradiction H|].
  destruct (findOne _ (employees d)) as [mine|] eqn:Em;
    [|intros H; now contradiction H].
  destruct (findById Employee._id _ (employees d)) as [owner|] eqn:Eo;
    [|intros H; now contradiction H].
  cbn [deref bind].
  destruct (Employee._id owner =? Employee._id mine) eqn:Es;
    [|intros H; now contradiction H].
  cbn [negb replyIf bind].
  destruct (PaymentRecord.isViewed r0) eqn:Ev;
    [intros H; now contradiction H|].
  intros _. split; [reflexivity|].
  exists r0, mine, owner. apply Nat.eqb_eq in Es. auto.
Qed.

Lemma only_the_owner_marks_viewed_witness :
  userRole aliceCaller = employee
  /\ exists r0 mine owner,
      findById PaymentRecord._id 1 (paymentRecords janDb) = Some r0
      /\ PaymentRecord.isViewed r0 = false
      /\ findOne (fun e => Employee.user e =? id aliceCaller) (employees janDb)
         = Some mine
      /\ findById Employee._id (PaymentRecord.employee r0) (employees janDb)
         = Some owner
      /\ Employee._id owner = Employee._id mine.
Proof.
  apply (@only_the_owner_marks_viewed (at_time 50) aliceCaller 1 janDb).
  intros E.
  apply (f_equal (fun d => map PaymentRecord.isViewed (paymentRecords d))) in E.
  vm_compute in E. discriminate E.
Defined.

(* ================================================================== *)
(** *** Identifiers *)

Section IdFacts.
Variable doc : Type.
Variable docId : doc -> objectId.

Lemma freshId_above (l : list doc) (x : doc) :
  In x l -> docId x < freshId docId l.
Proof.
  intros H. unfold freshId.
  assert (Hle : docId x <= list_max (map docId l)).
  { pose proof (proj1 (list_max_le (map docId l) (list_max (map docId l)))
                 (Nat.le_refl _)) as Hall.
    rewrite Forall_forall in Hall. apply Hall. now apply in_map. }
  lia.
Qed.

Lemma findById_fresh (l : list doc) : findById docId (freshId docId l) l = None.
Proof.
  unfold findById.
  destruct (find _ l) as [x|] eqn:E; [|reflexivity].
  apply find_some in E. destruct E as (Hin & He).
  apply Nat.eqb_eq in He. apply freshId_above in Hin. lia.
Qed.

Lemma findById_app (i : objectId) (l l' : list doc) :
  findById docId i (l ++ l')
  = match findById docId i l with
    | Some x => Some x
    | None => findById docId i l'
    end.
Proof.
  unfold findById. induction l as [|y r IH]; simpl; [reflexivity|].
  destruct (docId y =? i); [reflexivity|exact IH].
Qed.

(** With distinct identifiers, a document is found under its own. *)
Lemma findById_self (l : list doc) (x : doc) :
  NoDup (map docId l) -> In x l -> findById docId (docId x) l = Some x.
Proof.
  unfold findById. induction l as [|y r IH]; simpl; [tauto|].
  intros Hnd [->|Hin].
  - now rewrite Nat.eqb_refl.
  - inversion Hnd as [|? ? Hy Hr]; subst.
    destruct (docId y =? docId x) eqn:E; [|now apply IH].
    apply Nat.eqb_eq in E. exfalso. apply Hy. rewrite E. now apply in_map.
Qed.

Lemma map_id_updateById (i : objectId) (f : doc -> doc) (l : list doc) :
  (forall x, docId (f x) = docId x) ->
  map docId (updateById docId i f l) = map docId l.
Proof.
  intros Hf. induction l as [|y r IH]; simpl; [reflexivity|].
  destruct (docId y =? i); simpl; [now rewrite Hf|now rewrite IH].
Qed.

Lemma findById_deleteById_other (i j : objectId) (l : list doc) :
  j <> i -> findById docId j (deleteById docId i l) = findById docId j l.
Proof.
  intros Hj. unfold findById. induction l as [|y r IH]; simpl; [reflexivity|].
  destruct (docId y =? i) eqn:E; simpl.
  - apply Nat.eqb_eq in E. destruct (docId y =? j) eqn:E'; [|reflexivity].
    apply Nat.eqb_eq in E'. congruence.
  - now rewrite IH.
Qed.

Lemma findById_deleteById (i : objectId) (l : list doc) :
  NoDup (map docId l) -> findById docId i (deleteById docId i l) = None.
Proof.
  unfold findById. induction l as [|y r IH]; simpl; [reflexivity|].
  intros Hnd. inversion Hnd as [|? ? Hy Hr]; subst.
  destruct (docId y =? i) eqn:E; simpl.
  - apply Nat.eqb_eq in E. subst i.
    destruct (find _ r) as [x|] eqn:Ex; [|reflexivity].
    apply find_some in Ex. destruct Ex as (Hin & He).
    apply Nat.eqb_eq in He. exfalso. apply Hy. rewrite <- He. now apply in_map.
  - rewrite E. now apply IH.
Qed.

Lemma findById_update_other (i j : objectId) (f : doc -> doc) (l : list doc) :
  (forall x, docId (f x) = docId x) -> j <> i ->
  findById docId j (updateById docId i f l) = findById docId j l.
Proof.
  intros Hf Hj. unfold findById.
  induction l as [|y r IH]; simpl; [reflexivity|].
  destruct (docId y =? i) eqn:E; simpl.
  - rewrite Hf. apply Nat.eqb_eq in E.
    destruct (docId y =? j) eqn:E'; [|reflexivity].
    apply Nat.eqb_eq in E'. congruence.
  - now rewrite IH.
Qed.

(** Turning the document found under [i] from a match of [p] into a
    non-match removes exactly one match. *)
Lemma count_update_found (p : doc -> bool) (i : objectId) (f : doc -> doc)
    (l : list doc) (x : doc) :
  findById docId i l = Some x -> p x = true -> p (f x) = false ->
  S (List.length (filter p (updateById docId i f l)))
  = List.length (filter p l).
Proof.
  unfold findById. induction l as [|y r IH]; simpl; [discriminate|].
  destruct (docId y =? i); simpl.
  - intros [= ->] Hp Hf. now rewrite Hp, Hf.
  - intros H Hp Hf. destruct (p y); simpl; now rewrite <- (IH H Hp Hf).
Qed.

Lemma count_delete_found (p : doc -> bool) (i : objectId) (l : list doc)
    (x : doc) :
  findById docId i l = Some x -> p x = true ->
  S (List.length (filter p (deleteById docId i l))) = List.length (filter p l).
Proof.
  unfold findById. induction l as [|y r IH]; simpl; [discriminate|].
  destruct (docId y =? i); simpl.
  - intros [= ->] Hp. now rewrite Hp.
  - intros H Hp. destruct (p y); simpl; now rewrite <- (IH H Hp).
Qed.
End IdFacts.

Lemma filter_nil_findOne (A : Type) (p : A -> bool) (l : list A) :
  List.length (filter p l) = 0 -> findOne p l = None.
Proof.
  unfold findOne. induction l as [|y r IH]; simpl; [reflexivity|].
  destruct (p y); simpl; [discriminate|exact IH].
Qed.

(* ================================================================== *)
(** *** Check-in, read, check-out *)

(** What a successful [checkIn] did. *)
Lemma checkIn_success (ev : env) (u : caller) (b : Locations.checkInBody)
    (d d' : db) (s : nat) (l : Location.t) :
  Locations.checkIn ev u b d = (LocationOk s l, d') ->
  exists mine,
    userRole u = employee
    /\ findOne (fun e => Employee.user e =? id u) (employees d) = Some mine
    /\ Location._id l = freshId Location._id (locations d)
    /\ Location.employee l = Employee._id mine
    /\ Location.status l = checked_in
    /\ Location.checkInTime l = now ev
    /\ Location.checkOutTime l = None
    /\ s = 201
    /\ d' = {| users := users d;
               employees := updateById Employee._id (Employee._id mine)
                              (Locations.pushLocation (Location._id l))
                              (employees d);
               locations := locations d ++ [l];
               paymentRecords := paymentRecords d |}.
Proof.
  unfold Locations.checkIn, Locations.Location_create. intros H.
  destruct (negb (Locations.checkinValidation b)); [discriminate|].
  destruct (userRole u) eqn:Erole; cbn [role_eqb replyIf bind tryCatch] in H;
    [discriminate|].
  destruct (findOne _ (employees d)) as [mine|] eqn:Em;
    cbn [orReply bind tryCatch] in H; [|discriminate].
  repeat (step_case H; try discriminate).
  injection H as <- <- <-. exists mine. repeat split; reflexivity.
Qed.

Lemma findOne_user (u : caller) (d : db) (mine : Employee.t) :
  findOne (fun e => Employee.user e =? id u) (employees d) = Some mine ->
  In mine (employees d) /\ Employee.user mine = id u.
Proof.
  unfold findOne. intros H. apply find_some in H.
  destruct H as (Hin & He). apply Nat.eqb_eq in He. auto.
Qed.

(** A check-in that succeeds stores an open session under an identifier no
    other session has, stamped with the time of the request, and appends
    that identifier to the index of the employee; the employee can read the
    session back at once. *)
Theorem checkIn_then_read (ev : env) (u : caller) (b : Locations.checkInBody)
    (d d' : db) (s : nat) (l : Location.t) :
  NoDup (map Employee._id (employees d)) ->
  isSome (findById User._id (id u) (users d)) = true ->
  Locations.checkIn ev u b d = (LocationOk s l, d') ->
  s = 201
  /\ Location.status l = checked_in
  /\ Location.checkInTime l = now ev
  /\ Location.checkOutTime l = None
  /\ (forall x, In x (locations d) -> Location._id x <> Location._id l)
  /\ Locations.getLocation u (Location._id l) d' = (LocationOk 200 l, d')
  /\ exists mine,
      findById Employee._id (Location.employee l) (employees d') = Some mine
      /\ Employee.user mine = id u
      /\ In (Location._id l) (Employee.locations mine).
Proof.
  intros Hnd Huser H.
  destruct (checkIn_success _ _ _ _ H)
    as (mine & Hrole & Hmine & Hid & Hemp & Hst & Hin & Hout & -> & ->).
  destruct (findOne_user _ _ Hmine) as (Hmem & Hu).
  assert (Hself : findById Employee._id (Employee._id mine) (employees d)
                  = Some mine) by now apply findById_self.
  assert (Hpushed :
            findById Employee._id (Location.employee l)
              (updateById Employee._id (Employee._id mine)
                 (Locations.pushLocation (Location._id l)) (employees d))
            = Some (Locations.pushLocation (Location._id l) mine)).
  { rewrite Hemp.
    now apply (findById_updateById Employee._id
                 (Locations.pushLocation (Location._id l)) _ Hself). }
  assert (Hfound : findById Location._id (Location._id l) (locations d ++ [l])
                   = Some l).
  { rewrite findById_app, Hid, findById_fresh.
    unfold findById. cbn. now rewrite <- Hid, Nat.eqb_refl. }
  repeat split; auto.
  - intros x Hx E. apply (freshId_above Location._id) in Hx. lia.
  - unfold Locations.getLocation. cbn [locations employees users].
    rewrite Hfound, Hrole. cbn [orReply bind role_eqb negb].
    rewrite Hpushed. cbn [deref bind Locations.pushLocation Employee.user].
    rewrite Hu.
    destruct (findById User._id (id u) (users d)) as [usr|] eqn:Eu;
      [|discriminate].
    apply findById_id in Eu. cbn [deref bind]. now rewrite Eu, Nat.eqb_refl.
  - exists (Locations.pushLocation (Location._id l) mine).
    cbn [employees]. split; [exact Hpushed|]. split; [exact Hu|].
    cbn. apply in_or_app. right. now left.
Qed.

Lemma checkIn_then_read_witness :
  exists l,
    fst (Locations.checkIn (at_time 100) aliceCaller officeBody sampleDb)
    = LocationOk 201 l
    /\ Locations.getLocation aliceCaller (Location._id l) aliceIn
       = (LocationOk 200 l, aliceIn).
Proof.
  eexists. split; [reflexivity|].
  match goal with
  | |- Locations.getLocation _ (Location._id ?l) _ = _ =>
      assert (Hnd : NoDup (map Employee._id (employees sampleDb)))
        by (repeat constructor; cbn; intuition discriminate);
      destruct (@checkIn_then_read (at_time 100) aliceCaller officeBody
                  sampleDb aliceIn 201 l Hnd eq_refl eq_refl)
        as (_ & _ & _ & _ & _ & Hread & _)
  end.
  exact Hread.
Defined.

Lemma numbers_pass_cast (lat lng acc : JS.value) :
  coordinatesNaN (lat, lng, acc) = false ->
  nanAt "latitude" (JS.parseFloat lat) ++ nanAt "longitude" (JS.parseFloat lng)
  ++ nanAtOpt "accuracy"
       (if JS.truthy acc then Some (JS.parseFloat acc) else None) = [].
Proof.
  unfold coordinatesNaN, nanAt, nanAtOpt. intros H.
  apply orb_false_elim in H. destruct H as (H & Hacc).
  apply orb_false_elim in H. destruct H as (Hlat & Hlng).
  rewrite Hlat, Hlng. cbn [app].
  destruct (JS.truthy acc); [|reflexivity].
  cbn [andb] in Hacc. unfold nanAt. now rewrite Hacc.
Qed.

(** The session cycle: when the employee who owns the one open session
    checks out, the session is closed at the time of the request, and a new
    check-in with coordinates that are numbers succeeds at once and opens a
    session of its own for the same employee. *)
Theorem checkOut_then_checkIn (ev ev2 : env) (u : caller) (i : objectId)
    (b : Locations.checkInBody) (d : db) (l : Location.t)
    (mine : Employee.t) :
  openSessionsUnique d ->
  NoDup (map Employee._id (employees d)) ->
  userRole u = employee ->
  findOne (fun e => Employee.user e =? id u) (employees d) = Some mine ->
  findById Location._id i (locations d) = Some l ->
  Location.employee l = Employee._id mine ->
  Location.status l = checked_in ->
  Locations.checkinValidation b = true ->
  coordinatesNaN (Locations.latitude b, Locations.longitude b,
                  Locations.accuracy b) = false ->
  fst (Locations.checkOut ev u i d)
  = LocationOk 200 (Locations.closeSession (now ev) l)
  /\ findById Location._id i (locations (snd (Locations.checkOut ev u i d)))
     = Some (Locations.closeSession (now ev) l)
  /\ exists l2,
      fst (Locations.checkIn ev2 u b (snd (Locations.checkOut ev u i d)))
      = LocationOk 201 l2
      /\ Location.employee l2 = Location.employee l
      /\ Location.status l2 = checked_in
      /\ Location.checkInTime l2 = now ev2
      /\ Location._id l2 <> i.
Proof.
  intros Huniq Hnd Hrole Hmine Hl Hemp Hst Hval Hnum.
  destruct (findOne_user _ _ Hmine) as (Hmem & Hu).
  assert (Hself : findById Employee._id (Location.employee l) (employees d)
                  = Some mine) by (rewrite Hemp; now apply findById_self).
  assert (Hout : Locations.checkOut ev u i d
                 = (LocationOk 200 (Locations.closeSession (now ev) l),
                    Locations.setLocations
                      (updateById Location._id i
                         (Locations.closeSession (now ev)) (locations d)) d)).
  { unfold Locations.checkOut. rewrite Hl. cbn [orReply bind].
    rewrite Hself. cbn [deref bind]. now rewrite Hu, Nat.eqb_refl. }
  rewrite Hout. cbn [fst snd].
  assert (Hclosed : findById Location._id i
                      (updateById Location._id i
                         (Locations.closeSession (now ev)) (locations d))
                    = Some (Locations.closeSession (now ev) l)).
  { apply (findById_updateById Location._id _ _ Hl).
    cbn. now apply findById_id in Hl. }
  split; [reflexivity|]. split; [exact Hclosed|].
  (* nobody of this employee is checked in any more *)
  assert (Hopen : Locations.isOpenSessionOf (Employee._id mine) l = true).
  { unfold Locations.isOpenSessionOf. now rewrite Hemp, Hst, Nat.eqb_refl. }
  assert (Hnone : findOne (Locations.isOpenSessionOf (Employee._id mine))
                    (updateById Location._id i
                       (Locations.closeSession (now ev)) (locations d))
                  = None).
  { apply filter_nil_findOne.
    assert (Hf : Locations.isOpenSessionOf (Employee._id mine)
                   (Locations.closeSession (now ev) l) = false).
    { unfold Locations.isOpenSessionOf. cbn. apply andb_false_r. }
    pose proof (@count_update_found _ Location._id
                  (Locations.isOpenSessionOf (Employee._id mine)) i
                  (Locations.closeSession (now ev)) (locations d) l
                  Hl Hopen Hf) as Hcount.
    specialize (Huniq (Employee._id mine)). lia. }
  eexists. unfold Locations.checkIn, Locations.Location_create.
  rewrite Hval, Hrole. cbn [negb role_eqb replyIf bind employees
                              Locations.setLocations locations].
  rewrite Hmine. cbn [orReply bind]. rewrite Hnone. cbn [isSome replyIf bind].
  rewrite (numbers_pass_cast _ _ _ Hnum).
  cbn [throwIfAny bind tryCatch fst].
  split; [reflexivity|]. cbn [Location.employee Location.status
                               Location.checkInTime Location._id].
  repeat split; auto.
  intros E.
  pose proof (findById_fresh Location._id
                (updateById Location._id i
                   (Locations.closeSession (now ev)) (locations d))) as Hf.
  rewrite E, Hclosed in Hf. discriminate Hf.
Qed.

Lemma checkOut_then_checkIn_witness :
  exists l2,
    fst (Locations.checkIn (at_time 500) aliceCaller officeBody aliceOut)
    = LocationOk 201 l2
    /\ Location._id l2 <> 1.
Proof.
  assert (Huniq : openSessionsUnique aliceIn).
  { intros e.
    exact (filter_length_le (Locations.isOpenSessionOf e) (locations aliceIn)). }
  assert (Hnd : NoDup (map Employee._id (employees aliceIn)))
    by (repeat constructor; cbn; intuition discriminate).
  assert (Hl : exists l, findById Location._id 1 (locations aliceIn) = Some l
                         /\ Location.employee l = 10
                         /\ Location.status l = checked_in)
    by (eexists; repeat split; reflexivity).
  destruct Hl as (l & Hl & He & Hs).
  destruct (@checkOut_then_checkIn (at_time 300) (at_time 500) aliceCaller 1
              officeBody aliceIn l
              {| Employee._id := 10; Employee.user := 2;
                 Employee.locations := [1] |}
              Huniq Hnd eq_refl eq_refl Hl He Hs eq_refl eq_refl)
    as (_ & _ & l2 & H2 & _ & _ & _ & Hne).
  exists l2. split; [exact H2|exact Hne].
Defined.

(** A live update that succeeds changes the coordinates, the accuracy and
    the time of the last update of one session and nothing else.  The
    session it found was checked in and stays so; latitude and longitude
    become [parseFloat] of the body's, the accuracy [parseFloat] of the
    body's when that is truthy and stays what it was otherwise, and
    [lastUpdated] the time of the request; every other field of the
    session, every other session, the employees, the users and the payment
    records are as before. *)
Theorem live_update_frame (ev : env) (u : caller) (i : objectId)
    (b : Locations.liveUpdateBody) (d d' : db) (s : nat) (l l' : Location.t) :
  findById Location._id i (locations d) = Some l ->
  Locations.updateLiveLocation ev u i b d = (LocationOk s l', d') ->
  Location.status l = checked_in
  /\ Location.status l' = checked_in
  /\ Location._id l' = i
  /\ Location.employee l' = Location.employee l
  /\ Location.address l' = Location.address l
  /\ Location.checkInTime l' = Location.checkInTime l
  /\ Location.checkOutTime l' = Location.checkOutTime l
  /\ Location.latitude l' = JS.parseFloat (Locations.liveLatitude b)
  /\ Location.longitude l' = JS.parseFloat (Locations.liveLongitude b)
  /\ Location.lastUpdated l' = now ev
  /\ Location.accuracy l'
     = (if JS.truthy (Locations.liveAccuracy b)
        then Some (JS.parseFloat (Locations.liveAccuracy b))
        else Location.accuracy l)
  /\ Location.device l' = Location.device l
  /\ Location.ipAddress l' = Location.ipAddress l
  /\ Location.createdAt l' = Location.createdAt l
  /\ s = 200
  /\ findById Location._id i (locations d') = Some l'
  /\ (forall j, j <> i ->
        findById Location._id j (locations d') = findById Location._id j (locations d))
  /\ employees d' = employees d
  /\ users d' = users d
  /\ paymentRecords d' = paymentRecords d.
Proof.
  intros Hl H. unfold Locations.updateLiveLocation in H. rewrite Hl in H.
  cbn [orReply bind] in H.
  destruct (findById Employee._id _ (employees d)); [|discriminate].
  cbn [deref bind] in H.
  destruct (negb (_ =? id u)); [discriminate|].
  cbn [replyIf bind] in H.
  destruct (Location.status l) eqn:Est;
    cbn [locationStatus_eqb negb replyIf bind] in H; [|discriminate].
  match type of H with
  | context [throwIfAny ?p] => destruct p
  end; [|discriminate].
  cbn [throwIfAny bind tryCatch] in H. injection H as <- <- <-.
  pose proof (findById_id _ _ _ Hl) as Hi.
  repeat split; auto.
  - cbn [Locations.setLocations locations].
    now apply (findById_updateById Location._id _ _ Hl).
  - intros j Hj. cbn [Locations.setLocations locations].
    now apply findById_update_other.
Qed.

Lemma live_update_frame_witness :
  exists l',
    fst (Locations.updateLiveLocation (at_time 200) aliceCaller 1 moveBody
           aliceIn) = LocationOk 200 l'
    /\ Location.status l' = checked_in
    /\ Location.checkInTime l' = 100%Z
    /\ Location.lastUpdated l' = 200%Z.
Proof.
  assert (Hl : exists l, findById Location._id 1 (locations aliceIn) = Some l
                         /\ Location.checkInTime l = 100%Z)
    by (eexists; split; reflexivity).
  destruct Hl as (l & Hl & Ht).
  eexists. split; [reflexivity|].
  match goal with
  | |- Location.status ?l' = _ /\ _ =>
      destruct (@live_update_frame (at_time 200) aliceCaller 1 moveBody
                  aliceIn _ 200 l l' Hl eq_refl)
        as (_ & Hs & _ & _ & _ & Hin & _ & _ & _ & Hup & _)
  end.
  split; [exact Hs|]. split; [now rewrite Hin|exact Hup].
Defined.

(* ================================================================== *)
(** *** Deleting a session *)

Lemma dropLocation_index (txt : Locations.spelling) (i j : objectId)
    (e : Employee.t) :
  In j (Employee.locations (Locations.dropLocation txt i e))
  <-> In j (Employee.locations e) /\ (txt = Locations.AsPrinted -> j <> i).
Proof.
  cbn. rewrite filter_In, negb_true_iff. destruct txt; cbn.
  - rewrite Nat.eqb_neq. tauto.
  - split; [intros (H & _); split; [exact H|discriminate]|tauto].
Qed.

Lemma dropLocation_other_case (i : objectId) (e : Employee.t) :
  Employee.locations (Locations.dropLocation Locations.OtherCase i e)
  = Employee.locations e.
Proof.
  cbn. induction (Employee.locations e) as [|x r IH]; cbn; [reflexivity|].
  now rewrite IH.
Qed.

(** [deleteLocation] on a session that exists: an employee is refused; when
    the employee of the session is gone the handler fails with a 500 and
    the session stays; otherwise an administrator removes the session and
    touches no other.  The entry of the session in the [locations] array of
    its employee is removed when the identifier in the URL is spelled as
    [toString()] prints it; spelled with an upper-case digit, the session
    is deleted all the same and the array is left as it was, entry
    included. *)
Theorem deleteLocation_effect (u : caller) (i : objectId)
    (txt : Locations.spelling) (d : db) (l : Location.t) :
  NoDup (map Location._id (locations d)) ->
  findById Location._id i (locations d) = Some l ->
  (userRole u = employee ->
   Locations.deleteLocation u i txt d
   = (Failure 403 (Msg "Not authorized to delete this location"), d))
  /\ (userRole u = admin ->
      findById Employee._id (Location.employee l) (employees d) = None ->
      Locations.deleteLocation u i txt d
      = (Failure 500 (Msg "Server Error"), d))
  /\ (forall emp,
         userRole u = admin ->
         findById Employee._id (Location.employee l) (employees d) = Some emp ->
         fst (Locations.deleteLocation u i txt d) = EmptyOk 200
         /\ findById Location._id i
              (locations (snd (Locations.deleteLocation u i txt d))) = None
         /\ (forall j, j <> i ->
               findById Location._id j
                 (locations (snd (Locations.deleteLocation u i txt d)))
               = findById Location._id j (locations d))
         /\ exists emp',
             findById Employee._id (Location.employee l)
               (employees (snd (Locations.deleteLocation u i txt d)))
             = Some emp'
             /\ (txt = Locations.AsPrinted ->
                 ~ In i (Employee.locations emp')
                 /\ (forall j, j <> i ->
                       (In j (Employee.locations emp')
                        <-> In j (Employee.locations emp))))
             /\ (txt = Locations.OtherCase ->
                 Employee.locations emp' = Employee.locations emp)).
Proof.
  intros Hnd Hl. unfold Locations.deleteLocation. rewrite Hl.
  cbn [orReply bind]. split; [|split].
  - intros ->. reflexivity.
  - intros -> ->. reflexivity.
  - intros emp -> He. rewrite He.
    cbn [role_eqb negb replyIf bind deref tryCatch fst snd locations employees].
    split; [reflexivity|]. split; [now apply findById_deleteById|].
    split; [intros j Hj; now apply findById_deleteById_other|].
    exists (Locations.dropLocation txt i emp). split.
    + pose proof (findById_id _ _ _ He) as Hid. rewrite <- Hid in *.
      now apply (findById_updateById Employee._id
                   (Locations.dropLocation txt i) _ He).
    + split.
      * intros ->. split.
        -- rewrite dropLocation_index. intros (_ & H). now apply H.
        -- intros j Hj. rewrite dropLocation_index. tauto.
      * intros ->. apply dropLocation_other_case.
Qed.

Lemma deleteLocation_effect_witness :
  fst (Locations.deleteLocation adminCaller 1 Locations.AsPrinted aliceIn)
  = EmptyOk 200
  /\ findById Location._id 1
       (locations (snd (Locations.deleteLocation adminCaller 1
                          Locations.AsPrinted aliceIn))) = None
  /\ (exists emp',
        findById Employee._id 10
          (employees (snd (Locations.deleteLocation adminCaller 1
                             Locations.OtherCase aliceIn))) = Some emp'
        /\ Employee.locations emp' = [1])
  /\ Locations.deleteLocation aliceCaller 1 Locations.AsPrinted aliceIn
     = (Failure 403 (Msg "Not authorized to delete this location"), aliceIn).
Proof.
  assert (Hnd : NoDup (map Location._id (locations aliceIn)))
    by (repeat constructor; cbn; intuition discriminate).
  assert (Hl : exists l, findById Location._id 1 (locations aliceIn) = Some l
                         /\ Location.employee l = 10)
    by (eexists; split; reflexivity).
  destruct Hl as (l & Hl & He).
  destruct (@deleteLocation_effect adminCaller 1 Locations.AsPrinted aliceIn l
              Hnd Hl) as (_ & _ & Hadmin).
  destruct (@deleteLocation_effect adminCaller 1 Locations.OtherCase aliceIn l
              Hnd Hl) as (_ & _ & Hother).
  destruct (@deleteLocation_effect aliceCaller 1 Locations.AsPrinted aliceIn l
              Hnd Hl) as (Hemp & _).
  assert (Hrow : findById Employee._id (Location.employee l) (employees aliceIn)
                 = Some {| Employee._id := 10; Employee.user := 2;
                           Employee.locations := [1] |})
    by (rewrite He; reflexivity).
  destruct (Hadmin _ eq_refl Hrow) as (H200 & Hgone & _).
  destruct (Hother _ eq_refl Hrow) as (_ & _ & _ & emp' & Hemp' & _ & Hkept).
  split; [exact H200|]. split; [exact Hgone|].
  split; [|now apply Hemp].
  exists emp'. split; [rewrite <- He; exact Hemp'|exact (Hkept eq_refl)].
Defined.

(* ================================================================== *)
(** *** The location index of an employee *)

Section UniqueIds.
Variable doc : Type.
Variable docId : doc -> objectId.

Lemma NoDup_deleteById (i : objectId) (l : list doc) :
  NoDup (map docId l) -> NoDup (map docId (deleteById docId i l)).
Proof.
  induction l as [|y r IH]; simpl; [auto|].
  intros Hnd. inversion Hnd as [|? ? Hy Hr]; subst.
  destruct (docId y =? i); simpl; [exact Hr|].
  constructor; [|now apply IH].
  intros Hin. apply Hy. apply in_map_iff in Hin.
  destruct Hin as (x & Hx & Hin). apply In_deleteById in Hin.
  rewrite <- Hx. now apply in_map.
Qed.

Lemma In_deleteById_other (i : objectId) (l : list doc) (x : doc) :
  In x l -> docId x <> i -> In x (deleteById docId i l).
Proof.
  induction l as [|y r IH]; simpl; [tauto|].
  intros [->|Hin] Hx.
  - apply Nat.eqb_neq in Hx. rewrite Hx. now left.
  - destruct (docId y =? i); [exact Hin|right; now apply IH].
Qed.

(** With distinct identifiers, an update touches the document with the
    given identifier and no other. *)
Lemma In_updateById_unique (i : objectId) (f : doc -> doc) (l : list doc)
    (x : doc) :
  NoDup (map docId l) ->
  In x (updateById docId i f l) ->
  (In x l /\ docId x <> i)
  \/ (exists y, In y l /\ docId y = i /\ x = f y).
Proof.
  induction l as [|y r IH]; simpl; [tauto|].
  intros Hnd. inversion Hnd as [|? ? Hy Hr]; subst.
  destruct (docId y =? i) eqn:E; simpl.
  - apply Nat.eqb_eq in E. intros [<-|Hin].
    + right. exists y. auto.
    + left. split; [now right|]. intros Hx. apply Hy.
      rewrite E, <- Hx. now apply in_map.
  - apply Nat.eqb_neq in E. intros [<-|Hin].
    + left. split; [now left|exact E].
    + destruct (IH Hr Hin) as [(H1 & H2)|(z & Hz & Hi & ->)].
      * left. split; [now right|exact H2].
      * right. exists z. auto.
Qed.

(** An update keeps a document of every identifier it had. *)
Lemma In_updateById_keeps (i : objectId) (f : doc -> doc) (l : list doc)
    (x : doc) :
  In x l -> In x (updateById docId i f l) \/ In (f x) (updateById docId i f l).
Proof.
  induction l as [|y r IH]; simpl; [tauto|].
  destruct (docId y =? i); simpl.
  - intros [->|Hin]; [right; now left|left; now right].
  - intros [->|Hin]; [left; now left|].
    destruct (IH Hin); [left|right]; now right.
Qed.
End UniqueIds.

Lemma NoDup_snoc_fresh (A : Type) (docId : A -> objectId) (l : list A) (x : A) :
  NoDup (map docId l) -> docId x = freshId docId l ->
  NoDup (map docId (l ++ [x])).
Proof.
  intros Hnd Hx. rewrite map_app. apply NoDup_app; [exact Hnd| |].
  - cbn. constructor; [tauto|constructor].
  - intros a Ha [<-|[]]. apply in_map_iff in Ha.
    destruct Ha as (y & Hy & Hin). apply (freshId_above docId) in Hin. lia.
Qed.

(** Only the attendance handlers that succeed write, and this is what they
    write. *)
Lemma attendance_writes (ev : env) (u : caller) (req : request) (d : db) :
  snd (handle ev u req d) = d
  \/ (exists rs, snd (handle ev u req d) = Payments.setPayments rs d)
  \/ (exists mine l,
         In mine (employees d)
         /\ Location._id l = freshId Location._id (locations d)
         /\ Location.employee l = Employee._id mine
         /\ snd (handle ev u req d)
            = {| users := users d;
                 employees := updateById Employee._id (Employee._id mine)
                                (Locations.pushLocation (Location._id l))
                                (employees d);
                 locations := locations d ++ [l];
                 paymentRecords := paymentRecords d |})
  \/ (exists i f,
         (forall x, Location._id (f x) = Location._id x
                    /\ Location.employee (f x) = Location.employee x)
         /\ snd (handle ev u req d)
            = Locations.setLocations (updateById Location._id i f (locations d)) d)
  \/ (exists i txt l emp,
         req = DeleteLocation i txt
         /\ findById Location._id i (locations d) = Some l
         /\ findById Employee._id (Location.employee l) (employees d) = Some emp
         /\ snd (handle ev u req d)
            = {| users := users d;
                 employees := updateById Employee._id (Employee._id emp)
                                (Locations.dropLocation txt i) (employees d);
                 locations := deleteById Location._id i (locations d);
                 paymentRecords := paymentRecords d |}).
Proof.
  destruct req; cbn [handle]; unfold authorize;
    try (destruct (role_eqb (userRole u) admin); [|now left]).
  - destruct (Locations.checkIn ev u b d) as [res d'] eqn:E.
    destruct (checkIn_cases ev u b d)
      as [(mine0 & l & _ & _ & _ & _ & _ & _ & _ & Hres)|(Hd & _)];
      [|left; now rewrite E in Hd].
    rewrite E in Hres. cbn in Hres. subst res.
    destruct (checkIn_success _ _ _ _ E)
      as (mine & _ & Hmine & Hid & Hemp & _ & _ & _ & _ & ->).
    right. right. left. exists mine, l.
    destruct (findOne_user _ _ Hmine) as (Hin & _). auto.
  - left. unfold Locations.getLocation. repeat goal_case; reflexivity.
  - unfold Locations.checkOut. repeat goal_case; try (now left).
    right. right. right. left.
    exists i, (Locations.closeSession (now ev)). split; [|reflexivity].
    intros x. split; reflexivity.
  - unfold Locations.deleteLocation.
    destruct (findById Location._id i (locations d)) as [l|] eqn:El;
      [|now left].
    cbn [orReply bind]. destruct (negb _); [now left|].
    cbn [replyIf bind].
    destruct (findById Employee._id _ (employees d)) as [emp|] eqn:Ee;
      [|now left].
    right. right. right. right. exists i, txt, l, emp. auto.
  - destruct (updateLiveLocation_cases ev u i b d)
      as [(l0 & acc & _ & _ & _ & E)|(E & _)]; [|now left].
    rewrite E. right. right. right. left.
    eexists i, _. split; [|reflexivity].
    intros x. split; reflexivity.
  - destruct (createPaymentRecord_cases u b d) as [(r & E)|(E & _)];
      rewrite E; [|now left].
    right. left. eexists. reflexivity.
  - destruct (getPaymentRecord_cases ev u i d)
      as [(r0 & _ & [E|(_ & E)])|(E & _)]; rewrite E; try (now left).
    right. left. eexists. reflexivity.
  - destruct (updatePaymentRecord_cases ev i b d)
      as [(r0 & r1 & _ & _ & _ & _ & E)|(E & _)]; rewrite E; [|now left].
    right. left. eexists. reflexivity.
  - unfold Payments.deletePaymentRecord.
    destruct (findById _ _ _); [|now left].
    right. left. eexists. reflexivity.
Qed.

Lemma pushLocation_id (i : objectId) (e : Employee.t) :
  Employee._id (Locations.pushLocation i e) = Employee._id e.
Proof. reflexivity. Qed.

Lemma dropLocation_id (txt : Locations.spelling) (i : objectId)
    (e : Employee.t) :
  Employee._id (Locations.dropLocation txt i e) = Employee._id e.
Proof. reflexivity. Qed.

Lemma idsUnique_handle (ev : env) (u : caller) (req : request) (d : db) :
  idsUnique d -> idsUnique (snd (handle ev u req d)).
Proof.
  intros (Hl & He).
  destruct (attendance_writes ev u req d)
    as [E|[(rs & E)|[(mine & l & _ & Hid & _ & E)
       |[(i & f & Hf & E)|(i & txt & l & emp & _ & _ & _ & E)]]]];
    rewrite E; unfold idsUnique; cbn [locations employees
                                        Payments.setPayments
                                        Locations.setLocations].
  - now split.
  - now split.
  - split; [now apply NoDup_snoc_fresh|].
    rewrite map_id_updateById; [exact He|apply pushLocation_id].
  - split; [|exact He].
    rewrite map_id_updateById; [exact Hl|]. intros x. apply Hf.
  - split; [now apply NoDup_deleteById|].
    rewrite map_id_updateById; [exact He|apply dropLocation_id].
Qed.

Lemma In_deleteById_id (i : objectId) (l : list Location.t) (x : Location.t) :
  NoDup (map Location._id l) ->
  In x (deleteById Location._id i l) -> In x l /\ Location._id x <> i.
Proof.
  intros Hnd Hin. split; [now apply In_deleteById in Hin|].
  intros Hx. pose proof (findById_deleteById Location._id i _ Hnd) as Hgone.
  pose proof (findById_self Location._id _ _
                (NoDup_deleteById Location._id i _ Hnd) Hin) as Hself.
  rewrite Hx, Hgone in Hself. discriminate.
Qed.

Lemma sessionsIndexed_handle (ev : env) (u : caller) (req : request) (d : db) :
  idsUnique d -> sessionsIndexed d -> sessionsIndexed (snd (handle ev u req d)).
Proof.
  intros (Hl & He) Hok.
  destruct (attendance_writes ev u req d)
    as [E|[(rs & E)|[(mine & l & Hmine & Hid & Hemp & E)
       |[(i & f & Hf & E)|(i & txt & l & emp & _ & Hfl & Hfe & E)]]]];
    rewrite E; clear E; unfold sessionsIndexed;
    cbn [locations employees Payments.setPayments Locations.setLocations].
  - exact Hok.
  - exact Hok.
  - (* check-in: the new session is pushed to the array of its employee *)
    intros l' emp Hin Hemp' Hsame.
    apply In_updateById_unique in Hemp'; [|exact He].
    apply in_app_or in Hin.
    destruct Hemp' as [(Hold & Hne)|(y & Hy & Hyid & ->)].
    + destruct Hin as [Hin|[<-|[]]]; [now apply Hok|].
      exfalso. apply Hne. now rewrite Hsame, Hemp.
    + cbn [Locations.pushLocation Employee.locations Employee._id] in *.
      apply in_or_app.
      destruct Hin as [Hin|[<-|[]]]; [left; now apply Hok|right; now left].
  - (* check-out, live update: the sessions keep their ids and employees *)
    intros l' emp Hin Hemp Hsame.
    apply In_updateById in Hin.
    destruct Hin as [Hin|(y & Hy & _ & ->)]; [now apply Hok|].
    destruct (Hf y) as (Hf1 & Hf2). rewrite Hf1. apply Hok; [exact Hy|exact Hemp|].
    now rewrite <- Hf2.
  - (* delete: only the entry of the deleted session can go *)
    intros l' emp' Hin Hemp Hsame.
    apply In_deleteById_id in Hin; [|exact Hl]. destruct Hin as (Hin & Hne).
    apply In_updateById_unique in Hemp; [|exact He].
    destruct Hemp as [(Hold & _)|(y & Hy & _ & ->)]; [now apply Hok|].
    apply dropLocation_index. split; [now apply Hok|]. intros _. exact Hne.
Qed.

Lemma indexOk_handle (ev : env) (u : caller) (req : request) (d : db) :
  idsUnique d -> indexOk d -> spelledAsPrinted req ->
  indexOk (snd (handle ev u req d)).
Proof.
  intros (Hl & He) Hok Hprinted.
  destruct (attendance_writes ev u req d)
    as [E|[(rs & E)|[(mine & l & Hmine & Hid & Hemp & E)
       |[(i & f & Hf & E)|(i & txt & l & emp & Hreq & Hfl & Hfe & E)]]]];
    rewrite E; clear E; unfold indexOk;
    cbn [locations employees Payments.setPayments Locations.setLocations].
  - exact Hok.
  - exact Hok.
  - (* check-in: one session and one index entry more *)
    intros emp j Hin Hj.
    apply In_updateById in Hin.
    destruct Hin as [Hin|(y & Hy & Hyid & ->)].
    + destruct (Hok emp j Hin Hj) as (l' & Hl' & H1 & H2).
      exists l'. split; [apply in_or_app; now left|auto].
    + cbn in Hj. apply in_app_or in Hj. destruct Hj as [Hj|[<-|[]]].
      * destruct (Hok y j Hy Hj) as (l' & Hl' & H1 & H2).
        exists l'. split; [apply in_or_app; now left|auto].
      * exists l. split; [apply in_or_app; right; now left|].
        split; [reflexivity|]. now rewrite Hemp, pushLocation_id, Hyid.
  - (* check-out, live update: the sessions keep their ids and employees *)
    intros emp j Hin Hj.
    destruct (Hok emp j Hin Hj) as (l' & Hl' & H1 & H2).
    destruct (In_updateById_keeps Location._id i f _ _ Hl') as [H|H].
    + exists l'. auto.
    + exists (f l'). destruct (Hf l') as (Hf1 & Hf2).
      split; [exact H|]. now rewrite Hf1, Hf2.
  - (* delete: the session and its index entry go together *)
    subst req. destruct txt; [|destruct Hprinted].
    intros emp' j Hin Hj.
    pose proof (findById_id _ _ _ Hfl) as Hli.
    pose proof (findById_id _ _ _ Hfe) as Hei.
    apply In_updateById_unique in Hin; [|exact He].
    destruct Hin as [(Hin & Hne)|(y & Hy & Hyid & ->)].
    + destruct (Hok emp' j Hin Hj) as (l' & Hl' & H1 & H2).
      exists l'. split; [|auto].
      apply In_deleteById_other; [exact Hl'|].
      intros Hi. apply Hne.
      (* the session under [i] is the one found, so its employee is [emp] *)
      pose proof (findById_self Location._id _ _ Hl Hl') as Hself.
      rewrite Hi, Hfl in Hself. injection Hself as ->.
      now rewrite <- H2, Hei.
    + apply dropLocation_index in Hj. destruct Hj as (Hj & Hji).
      specialize (Hji eq_refl).
      destruct (Hok y j Hy Hj) as (l' & Hl' & H1 & H2).
      exists l'. split; [|auto].
      apply In_deleteById_other; [exact Hl'|congruence].
Qed.

(** Every stored session stays listed in the [locations] array of its
    employee, and identifiers stay distinct, whatever requests are served:
    a check-in pushes the identifier of the session it stores, and a delete
    takes away at most the entry of the session it deletes.  The other way
    round, every entry of an array stays the identifier of a stored session
    of that employee as long as no delete spells its identifier with an
    upper-case digit: such a delete removes the session and leaves the
    entry. *)
Theorem location_index_kept (ev : env) (u : caller) (req : request) (d : db) :
  idsUnique d -> sessionsIndexed d ->
  (idsUnique (snd (handle ev u req d))
   /\ sessionsIndexed (snd (handle ev u req d)))
  /\ (forall reqs, idsUnique (run reqs d) /\ sessionsIndexed (run reqs d))
  /\ (indexOk d -> spelledAsPrinted req -> indexOk (snd (handle ev u req d)))
  /\ (forall i l emp,
        indexOk d ->
        req = DeleteLocation i Locations.OtherCase ->
        userRole u = admin ->
        findById Location._id i (locations d) = Some l ->
        findById Employee._id (Location.employee l) (employees d) = Some emp ->
        In i (Employee.locations emp) ->
        ~ indexOk (snd (handle ev u req d))).
Proof.
  intros Hu Hok. split; [|split; [|split]].
  - split; [now apply idsUnique_handle|now apply sessionsIndexed_handle].
  - intros reqs.
    apply (run_invariant (fun d => idsUnique d /\ sessionsIndexed d));
      [|now split].
    intros ev' u' req' d0 (H1 & H2).
    split; [now apply idsUnique_handle|now apply sessionsIndexed_handle].
  - intros Hi Hp. now apply indexOk_handle.
  - intros i l emp _ -> Hadmin Hfl Hfe Hentry Hafter.
    destruct Hu as (Hl & He).
    cbn [handle] in Hafter. unfold authorize in Hafter.
    rewrite Hadmin in Hafter. cbn [role_eqb] in Hafter.
    unfold Locations.deleteLocation in Hafter.
    rewrite Hfl in Hafter. cbn [orReply bind] in Hafter.
    rewrite Hadmin, Hfe in Hafter.
    cbn [role_eqb negb replyIf deref bind tryCatch snd] in Hafter.
    pose proof (findById_id _ _ _ Hfe) as Hei.
    destruct (Hafter (Locations.dropLocation Locations.OtherCase i emp) i)
      as (l' & Hl' & Hid & _).
    + cbn [employees]. rewrite <- Hei in Hfe.
      apply (findById_In Employee._id (Employee._id emp)).
      now apply (findById_updateById Employee._id
                   (Locations.dropLocation Locations.OtherCase i) _ Hfe).
    + now rewrite dropLocation_other_case.
    + cbn [locations] in Hl'.
      apply In_deleteById_id in Hl'; [|exact Hl]. now destruct Hl'.
Qed.

Lemma location_index_kept_witness :
  idsUnique aliceIn /\ sessionsIndexed aliceIn /\ indexOk aliceIn
  /\ indexOk (snd (handle (at_time 200) adminCaller
                     (DeleteLocation 1 Locations.AsPrinted) aliceIn))
  /\ ~ indexOk (snd (handle (at_time 200) adminCaller
                       (DeleteLocation 1 Locations.OtherCase) aliceIn)).
Proof.
  assert (H0 : idsUnique sampleDb /\ sessionsIndexed sampleDb
               /\ indexOk sampleDb).
  { split; [|split].
    - split; repeat constructor; cbn; intuition discriminate.
    - intros l emp [].
    - intros emp i [<-|[<-|[]]] []. }
  destruct H0 as (Hu0 & Hs0 & Hi0).
  destruct (@location_index_kept (at_time 100) aliceCaller (CheckIn officeBody)
              sampleDb Hu0 Hs0) as ((Hu1 & Hs1) & _ & Hkeep1 & _).
  pose proof (Hkeep1 Hi0 I) as Hi1.
  destruct (@location_index_kept (at_time 200) adminCaller
              (DeleteLocation 1 Locations.AsPrinted) aliceIn Hu1 Hs1)
    as (_ & _ & Hkeep2 & _).
  destruct (@location_index_kept (at_time 200) adminCaller
              (DeleteLocation 1 Locations.OtherCase) aliceIn Hu1 Hs1)
    as (_ & _ & _ & Hbreak).
  split; [exact Hu1|]. split; [exact Hs1|]. split; [exact Hi1|].
  split; [exact (Hkeep2 Hi1 I)|].
  eapply (Hbreak 1); try reflexivity; [exact Hi1|now left].
Defined.

(* ================================================================== *)
(** *** When a create succeeds *)

Lemma nonneg_compare (q : Qc) :
  Qccompare q (Q2Qc 0) <> Lt <-> (0 <= q)%Q.
Proof.
  unfold Qccompare. change (this (Q2Qc 0)) with (Qred 0).
  split; intros H; apply Qge_alt; exact H.
Qed.

(** A number the route validators pass is finite and not below 0. *)
Lemma numericMin0_nonneg (n : JS.number) :
  Payments.numericMin0 n = true -> exists q, n = JS.Fin q /\ (0 <= q)%Q.
Proof.
  destruct n as [| | |q]; cbn; intros H; try discriminate.
  exists q. split; [reflexivity|]. apply nonneg_compare.
  intros E. now rewrite E in H.
Qed.

Lemma storable_nonneg (q : Qc) : (0 <= q)%Q -> storable (JS.Fin q) = true.
Proof.
  intros Hq. cbn. apply nonneg_compare in Hq.
  destruct (Qccompare q (Q2Qc 0)); congruence.
Qed.

Lemma numericMin0_storable (n : JS.number) :
  Payments.numericMin0 n = true -> storable n = true.
Proof.
  intros H. destruct (numericMin0_nonneg _ H) as (q & -> & Hq).
  now apply storable_nonneg.
Qed.

Lemma numericMin0_number (n : JS.number) :
  Payments.numericMin0 n = true -> JS.isNaN n = false /\ JS.geZero n = true.
Proof.
  intros H. apply numericMin0_storable in H. unfold storable in H.
  apply andb_prop in H. destruct H as (H1 & H2).
  now apply negb_true_iff in H1.
Qed.

(** [hours * rate] of two numbers the validators passed can be stored. *)
Lemma numericMin0_mul (a b : JS.number) :
  Payments.numericMin0 a = true -> Payments.numericMin0 b = true ->
  storable (JS.mul a b) = true.
Proof.
  intros Ha Hb. apply numericMin0_nonneg in Ha, Hb.
  destruct Ha as (x & -> & Hx). destruct Hb as (y & -> & Hy).
  apply (storable_nonneg (Qcmult x y)).
  change (0 <= Qred (x * y))%Q. rewrite Qred_correct.
  now apply Qmult_le_0_compat.
Qed.

Lemma numberPath_ok (path : string) (n : JS.number) :
  storable n = true ->
  nanAt path n ++ PaymentModel.minZeroAt path n = [].
Proof.
  unfold storable. intros H. apply andb_prop in H. destruct H as (H1 & H2).
  apply negb_true_iff in H1.
  unfold nanAt, PaymentModel.minZeroAt. now rewrite H1, H2.
Qed.

Lemma optional_storable (o : option JS.number) :
  Payments.optional Payments.numericMin0 o = true ->
  Payments.optional storable o = true.
Proof. destruct o as [n|]; [apply numericMin0_storable|reflexivity]. Qed.

Lemma processOvertime_valid (o : Overtime.t) :
  Payments.overtimeValidation o = true ->
  overtimeStorable (Payments.processOvertime o) = true.
Proof.
  unfold Payments.overtimeValidation, overtimeStorable,
    Payments.processOvertime. intros H.
  apply andb_prop in H. destruct H as (H & Ha).
  apply andb_prop in H. destruct H as (Hh & Hr).
  destruct (Payments.truthyOpt (Overtime.hours o)
            && Payments.truthyOpt (Overtime.rate o)) eqn:E.
  - cbn [Overtime.hours Overtime.rate Overtime.amount].
    rewrite (optional_storable _ Hh), (optional_storable _ Hr).
    apply andb_prop in E. destruct E as (Eh & Er).
    destruct (Overtime.hours o) as [h|]; [|discriminate].
    destruct (Overtime.rate o) as [r|]; [|discriminate].
    cbn. now apply numericMin0_mul.
  - now rewrite (optional_storable _ Hh), (optional_storable _ Hr),
      (optional_storable _ Ha).
Qed.

Lemma overtimeAt_valid (o : Overtime.t) :
  overtimeStorable o = true ->
  Payments.overtimeAt (Payments.overtimeDefaults o) = [].
Proof.
  unfold overtimeStorable, Payments.overtimeAt. intros H.
  apply andb_prop in H. destruct H as (H & Ha).
  apply andb_prop in H. destruct H as (Hh & Hr).
  assert (Hd : forall path x,
             Payments.optional storable x = true ->
             nanAtOpt path (Some (match x with Some n => n | None => JS.zero end))
             ++ PaymentModel.minZeroAtOpt path
                  (Some (match x with Some n => n | None => JS.zero end)) = []).
  { intros path [n|] Hx; apply numberPath_ok; [exact Hx|reflexivity]. }
  cbn [Payments.overtimeDefaults Overtime.hours Overtime.rate Overtime.amount].
  rewrite !app_assoc.
  rewrite (Hd "overtime.hours"%string _ Hh). cbn [app].
  rewrite (Hd "overtime.rate"%string _ Hr). cbn [app].
  apply (Hd "overtime.amount"%string _ Ha).
Qed.

Lemma castItems_complete (l : list Payments.ItemBody.t) :
  forallb Payments.itemValidation l = true ->
  isSome (Payments.castItems l) = itemsComplete (Some l).
Proof.
  induction l as [|i r IH]; cbn [forallb Payments.castItems itemsComplete];
    [reflexivity|].
  intros H. apply andb_prop in H. destruct H as (Hi & Hr).
  specialize (IH Hr). cbn [itemsComplete] in IH.
  unfold Payments.castItem, Payments.itemValidation in *.
  apply andb_prop in Hi. destruct Hi as (Hd & Ha).
  destruct (Payments.ItemBody.description i) as [s|]; [|reflexivity].
  destruct (Payments.ItemBody.amount i) as [a|]; [|reflexivity].
  cbn in Hd, Ha. destruct (numericMin0_number _ Ha) as (H1 & H2).
  rewrite Hd, H1, H2. cbn [negb andb isSome].
  destruct (Payments.castItems r); exact IH.
Qed.

Lemma itemsAt_complete (path : string) (o : option (list Payments.ItemBody.t)) :
  Payments.optional (forallb Payments.itemValidation) o = true ->
  Payments.itemsAt path (match o with Some l => l | None => [] end)
  = if itemsComplete o then [] else [path].
Proof.
  unfold Payments.itemsAt. destruct o as [l|]; [|reflexivity].
  intros H. cbn in H. now rewrite (castItems_complete _ H).
Qed.

(** What [createPaymentRecord] does with a body that passed the route
    validators, for an employee that exists and a week that is free: its
    outcome is decided by the bonuses and deductions and by the length of
    the notes. *)
Lemma createPaymentRecord_valid (u : caller) (b : Payments.CreateBody.t)
    (d : db) :
  Payments.createPaymentRecordValidation b = true ->
  isSome (findById Employee._id (Payments.CreateBody.employeeId b)
            (employees d)) = true ->
  findOne (Payments.sameWeek (Payments.CreateBody.employeeId b)
             (Payments.CreateBody.weekStartDate b)
             (Payments.CreateBody.weekEndDate b)) (paymentRecords d) = None ->
  if itemsComplete (Payments.CreateBody.bonuses b)
     && itemsComplete (Payments.CreateBody.deductions b)
     && notesFit (Payments.CreateBody.notes b)
  then exists r,
      Payments.createPaymentRecord u b d
      = (PaymentOk 201 r, Payments.setPayments (paymentRecords d ++ [r]) d)
      /\ PaymentRecord.employee r = Payments.CreateBody.employeeId b
      /\ PaymentRecord.weekStartDate r = Payments.CreateBody.weekStartDate b
      /\ PaymentRecord.weekEndDate r = Payments.CreateBody.weekEndDate b
      /\ Some (PaymentRecord.basicSalary r) = Payments.CreateBody.basicSalary b
      /\ PaymentRecord.paymentStatus r = pending
      /\ PaymentRecord.paymentDate r = None
      /\ PaymentRecord.uploadedBy r = id u
      /\ PaymentRecord.isViewed r = false
      /\ PaymentRecord.viewedAt r = None
  else Payments.createPaymentRecord u b d = (failedCreate, d).
Proof.
  intros Hval Hemp Hfree. unfold Payments.createPaymentRecord.
  rewrite Hval, Hfree. cbn [negb replyIf isSome bind].
  destruct (findById Employee._id _ (employees d)); [|discriminate].
  cbn [orReply bind].
  unfold Payments.createPaymentRecordValidation in Hval.
  repeat (apply andb_prop in Hval; destruct Hval as (Hval & ?)).
  destruct (Payments.CreateBody.basicSalary b) as [n|] eqn:Es; [|discriminate].
  cbn [Payments.fromOption JS.parseFloat].
  rewrite app_assoc,
    (numberPath_ok "basicSalary" _ (numericMin0_storable _ Hval)).
  cbn [app].
  rewrite overtimeAt_valid.
  2:{ apply processOvertime_valid.
      destruct (Payments.CreateBody.overtime b); [assumption|reflexivity]. }
  rewrite !itemsAt_complete by assumption.
  cbn [app]. unfold notesFit.
  destruct (itemsComplete (Payments.CreateBody.bonuses b));
    destruct (itemsComplete (Payments.CreateBody.deductions b));
    destruct (PaymentModel.maxLengthAt "notes" (Payments.CreateBody.notes b));
    cbn [andb app throwIfAny bind tryCatch]; try reflexivity.
  eexists. split; [reflexivity|]. repeat split.
Qed.

(** A create succeeds, for an employee that exists and a week that has no
    record yet, when the body passes the route validators, every bonus and
    deduction carries a description and an amount, and the notes are within
    the 500 UTF-16 units of the schema: the record is stored as pending, not
    viewed, without a payment date, uploaded by the caller.  The body is one
    the model has a value for: amounts sent as JSON numbers, week dates in a
    form [new Date] reads, texts of one UTF-16 unit per character. *)
Theorem create_succeeds_on_complete_input (u : caller)
    (b : Payments.CreateBody.t) (d : db) :
  Payments.createPaymentRecordValidation b = true ->
  isSome (findById Employee._id (Payments.CreateBody.employeeId b)
            (employees d)) = true ->
  findOne (Payments.sameWeek (Payments.CreateBody.employeeId b)
             (Payments.CreateBody.weekStartDate b)
             (Payments.CreateBody.weekEndDate b)) (paymentRecords d) = None ->
  itemsComplete (Payments.CreateBody.bonuses b) = true ->
  itemsComplete (Payments.CreateBody.deductions b) = true ->
  notesFit (Payments.CreateBody.notes b) = true ->
  exists r,
    Payments.createPaymentRecord u b d
    = (PaymentOk 201 r, Payments.setPayments (paymentRecords d ++ [r]) d)
    /\ PaymentRecord.employee r = Payments.CreateBody.employeeId b
    /\ PaymentRecord.weekStartDate r = Payments.CreateBody.weekStartDate b
    /\ PaymentRecord.weekEndDate r = Payments.CreateBody.weekEndDate b
    /\ Some (PaymentRecord.basicSalary r) = Payments.CreateBody.basicSalary b
    /\ PaymentRecord.paymentStatus r = pending
    /\ PaymentRecord.paymentDate r = None
    /\ PaymentRecord.uploadedBy r = id u
    /\ PaymentRecord.isViewed r = false
    /\ PaymentRecord.viewedAt r = None.
Proof.
  intros Hval Hemp Hfree Hb Hd Hn.
  pose proof (createPaymentRecord_valid u b d Hval Hemp Hfree) as H.
  now rewrite Hb, Hd, Hn in H.
Qed.

Lemma create_succeeds_on_complete_input_witness :
  exists r,
    Payments.createPaymentRecord adminCaller janBody sampleDb
    = (PaymentOk 201 r,
       Payments.setPayments (paymentRecords sampleDb ++ [r]) sampleDb)
    /\ PaymentRecord.paymentStatus r = pending
    /\ PaymentRecord.uploadedBy r = 1.
Proof.
  destruct (@create_succeeds_on_complete_input adminCaller janBody sampleDb
              eq_refl eq_refl eq_refl eq_refl eq_refl eq_refl)
    as (r & H & _ & _ & _ & _ & Hs & _ & Hu & _).
  exists r. split; [exact H|]. split; [exact Hs|exact Hu].
Defined.

(** A bonus or a deduction without a description or without an amount
    passes the route validators, which take both as optional, and is
    refused by the schema, where both are required: the create is answered
    with the 500 of the catch branch and stores nothing. *)
Theorem create_incomplete_item_fails (u : caller) (b : Payments.CreateBody.t)
    (d : db) :
  Payments.createPaymentRecordValidation b = true ->
  isSome (findById Employee._id (Payments.CreateBody.employeeId b)
            (employees d)) = true ->
  findOne (Payments.sameWeek (Payments.CreateBody.employeeId b)
             (Payments.CreateBody.weekStartDate b)
             (Payments.CreateBody.weekEndDate b)) (paymentRecords d) = None ->
  itemsComplete (Payments.CreateBody.bonuses b)
  && itemsComplete (Payments.CreateBody.deductions b) = false ->
  Payments.createPaymentRecord u b d = (failedCreate, d).
Proof.
  intros Hval Hemp Hfree Hinc.
  pose proof (createPaymentRecord_valid u b d Hval Hemp Hfree) as H.
  now rewrite Hinc in H.
Qed.

Lemma create_incomplete_item_fails_witness :
  Payments.createPaymentRecordValidation namelessBonus = true
  /\ Payments.createPaymentRecord adminCaller namelessBonus sampleDb
     = (failedCreate, sampleDb).
Proof.
  split; [reflexivity|].
  apply (@create_incomplete_item_fails adminCaller namelessBonus sampleDb);
    reflexivity.
Defined.

(* ================================================================== *)
(** *** Deleting a payment record *)

Lemma sameWeek_self (r : PaymentRecord.t) :
  Payments.sameWeek (PaymentRecord.employee r) (PaymentRecord.weekStartDate r)
    (PaymentRecord.weekEndDate r) r = true.
Proof.
  unfold Payments.sameWeek. now rewrite Nat.eqb_refl, !Z.eqb_refl.
Qed.

(** Deleting a payment record frees its week: when no week has two records,
    the delete succeeds, no record is left for the employee and week of the
    deleted one, the other records stay, and from then on no create for
    that employee and week is answered "Payment record already exists for
    this employee and week period", whatever else its body holds. *)
Theorem delete_frees_week (i : objectId) (d : db) (r0 : PaymentRecord.t) :
  weekUnique d ->
  findById PaymentRecord._id i (paymentRecords d) = Some r0 ->
  fst (Payments.deletePaymentRecord i d) = EmptyOk 200
  /\ findOne (Payments.sameWeek (PaymentRecord.employee r0)
                (PaymentRecord.weekStartDate r0) (PaymentRecord.weekEndDate r0))
       (paymentRecords (snd (Payments.deletePaymentRecord i d))) = None
  /\ (forall j, j <> i ->
        findById PaymentRecord._id j
          (paymentRecords (snd (Payments.deletePaymentRecord i d)))
        = findById PaymentRecord._id j (paymentRecords d))
  /\ (forall u b,
        Payments.CreateBody.employeeId b = PaymentRecord.employee r0 ->
        Payments.CreateBody.weekStartDate b = PaymentRecord.weekStartDate r0 ->
        Payments.CreateBody.weekEndDate b = PaymentRecord.weekEndDate r0 ->
        fst (Payments.createPaymentRecord u b
               (snd (Payments.deletePaymentRecord i d))) <> conflict).
Proof.
  intros Huniq Hr0. unfold Payments.deletePaymentRecord. rewrite Hr0.
  cbn [orReply bind tryCatch fst snd Payments.setPayments paymentRecords].
  assert (Hfree : findOne (Payments.sameWeek (PaymentRecord.employee r0)
                             (PaymentRecord.weekStartDate r0)
                             (PaymentRecord.weekEndDate r0))
                    (deleteById PaymentRecord._id i (paymentRecords d)) = None).
  { apply filter_nil_findOne.
    pose proof (@count_delete_found _ PaymentRecord._id
                  (Payments.sameWeek (PaymentRecord.employee r0)
                     (PaymentRecord.weekStartDate r0)
                     (PaymentRecord.weekEndDate r0))
                  i (paymentRecords d) r0 Hr0 (sameWeek_self r0)) as Hc.
    specialize (Huniq (PaymentRecord.employee r0)
                  (PaymentRecord.weekStartDate r0)
                  (PaymentRecord.weekEndDate r0)). lia. }
  split; [reflexivity|]. split; [exact Hfree|].
  split; [intros j Hj; now apply findById_deleteById_other|].
  intros u b He Hws Hwe. unfold Payments.createPaymentRecord, conflict.
  cbn [Payments.setPayments paymentRecords employees].
  rewrite He, Hws, Hwe, Hfree. cbn [isSome].
  repeat goal_case; cbn [fst]; discriminate.
Qed.

Lemma delete_frees_week_witness :
  fst (Payments.createPaymentRecord adminCaller janRetry janDb) = conflict
  /\ fst (Payments.deletePaymentRecord 1 janDb) = EmptyOk 200
  /\ fst (Payments.createPaymentRecord adminCaller janRetry
            (snd (Payments.deletePaymentRecord 1 janDb))) <> conflict.
Proof.
  assert (Hu : weekUnique janDb).
  { intros e ws we.
    exact (filter_length_le (Payments.sameWeek e ws we) (paymentRecords janDb)). }
  assert (Hr : exists r0,
             findById PaymentRecord._id 1 (paymentRecords janDb) = Some r0
             /\ PaymentRecord.employee r0 = 10
             /\ PaymentRecord.weekStartDate r0 = 1704067200000%Z
             /\ PaymentRecord.weekEndDate r0 = 1704585600000%Z)
    by (eexists; repeat split; reflexivity).
  destruct Hr as (r0 & Hr0 & He & Hws & Hwe).
  destruct (@delete_frees_week 1 janDb r0 Hu Hr0) as (H200 & _ & _ & Hagain).
  split; [reflexivity|]. split; [exact H200|].
  apply Hagain; now symmetry.
Defined.

(* ================================================================== *)
(** ** Listing sessions *)
(* ================================================================== *)

(** Whoever lists sessions can read each of them: an administrator is
    listed every session, an employee the sessions of their own profile and
    no other, and [getLocation] answers 200 with the same row for every
    session listed.  [count] is the number of rows sent. *)
Theorem listed_locations_are_readable (u : caller) (d : db) (s : nat)
    (ls : listing Location.t) :
  idsUnique d ->
  isSome (findById User._id (id u) (users d)) = true ->
  getLocations u d = Sent s ls ->
  s = 200
  /\ count ls = List.length (data ls)
  /\ (userRole u = admin -> data ls = locations d)
  /\ (userRole u = employee ->
      exists profile,
        findOne (fun e => Employee.user e =? id u) (employees d) = Some profile
        /\ forall l, In l (data ls)
                     <-> In l (locations d)
                         /\ Location.employee l = Employee._id profile)
  /\ (forall l, In l (data ls) ->
        Locations.getLocation u (Location._id l) d = (LocationOk 200 l, d)).
Proof.
  intros (Hnl & Hne) Huser. unfold getLocations.
  destruct (userRole u) eqn:Erole; cbn [role_eqb negb].
  - intros [= <- <-]. cbn [count data].
    split; [reflexivity|]. split; [reflexivity|]. split; [reflexivity|].
    split; [discriminate|].
    intros l Hl. unfold Locations.getLocation.
    rewrite (findById_self Location._id _ _ Hnl Hl), Erole. reflexivity.
  - destruct (findOne _ (employees d)) as [profile|] eqn:Ep; [|discriminate].
    intros [= <- <-]. cbn [count data].
    destruct (findOne_user _ _ Ep) as (Hin & Hu).
    split; [reflexivity|]. split; [reflexivity|]. split; [discriminate|].
    split.
    + intros _. exists profile. split; [reflexivity|].
      intros l. rewrite filter_In, Nat.eqb_eq. tauto.
    + intros l Hl. apply filter_In in Hl. destruct Hl as (Hl & He).
      apply Nat.eqb_eq in He.
      unfold Locations.getLocation.
      rewrite (findById_self Location._id _ _ Hnl Hl), Erole.
      cbn [orReply bind role_eqb negb].
      rewrite He, (findById_self Employee._id _ _ Hne Hin).
      cbn [deref bind]. rewrite Hu.
      destruct (findById User._id (id u) (users d)) as [usr|] eqn:Eu;
        [|discriminate].
      apply findById_id in Eu. cbn [deref bind].
      now rewrite Eu, Nat.eqb_refl.
Qed.

Lemma listed_locations_are_readable_witness :
  exists ls,
    getLocations aliceCaller aliceIn = Sent 200 ls
    /\ count ls = 1
    /\ forall l, In l (data ls) ->
         Locations.getLocation aliceCaller (Location._id l) aliceIn
         = (LocationOk 200 l, aliceIn).
Proof.
  eexists. split; [reflexivity|].
  match goal with
  | |- count ?ls = _ /\ _ =>
      assert (Hu : idsUnique aliceIn)
        by (split; repeat constructor; cbn; intuition discriminate);
      destruct (@listed_locations_are_readable aliceCaller aliceIn 200 ls
                  Hu eq_refl eq_refl) as (_ & Hc & _ & _ & Hread)
  end.
  split; [exact Hc|exact Hread].
Defined.

(* ================================================================== *)
(** ** Listing payment records *)
(* ================================================================== *)

Lemma insertByWeek_perm (r : PaymentRecord.t) (l : list PaymentRecord.t) :
  Permutation (insertByWeek r l) (r :: l).
Proof.
  induction l as [|x rest IH]; cbn; [reflexivity|].
  destruct (_ <=? _)%Z; [reflexivity|].
  rewrite IH. apply perm_swap.
Qed.

Lemma sortByWeek_perm (l : list PaymentRecord.t) : Permutation (sortByWeek l) l.
Proof.
  induction l as [|x rest IH]; cbn; [reflexivity|].
  rewrite insertByWeek_perm. now constructor.
Qed.

Lemma insertByWeek_sorted (r : PaymentRecord.t) (l : list PaymentRecord.t) :
  weekDescending l -> weekDescending (insertByWeek r l).
Proof.
  unfold weekDescending. induction 1 as [|x rest Hs IH Hall]; cbn.
  - constructor; constructor.
  - destruct (_ <=? _)%Z eqn:E.
    + apply Z.leb_le in E. constructor; [now constructor|].
      constructor; [exact E|].
      rewrite Forall_forall in *. intros y Hy. specialize (Hall y Hy). lia.
    + apply Z.leb_gt in E. constructor; [exact IH|].
      rewrite Forall_forall in *. intros y Hy.
      apply (Permutation_in _ (insertByWeek_perm r rest)) in Hy.
      destruct Hy as [<-|Hy]; [lia|now apply Hall].
Qed.

Lemma sortByWeek_sorted (l : list PaymentRecord.t) : weekDescending (sortByWeek l).
Proof.
  induction l as [|x rest IH]; cbn; [constructor|].
  now apply insertByWeek_sorted.
Qed.

Lemma weekDescending_skipn (n : nat) (l : list PaymentRecord.t) :
  weekDescending l -> weekDescending (skipn n l).
Proof.
  unfold weekDescending. revert l.
  induction n as [|n IH]; intros l H; [exact H|].
  destruct l as [|x rest]; [exact H|]. cbn. apply IH.
  now apply StronglySorted_inv in H.
Qed.

Lemma In_firstn (A : Type) (n : nat) (l : list A) (x : A) :
  In x (firstn n l) -> In x l.
Proof.
  intros H. rewrite <- (firstn_skipn n l). apply in_or_app. now left.
Qed.

Lemma In_skipn (A : Type) (n : nat) (l : list A) (x : A) :
  In x (skipn n l) -> In x l.
Proof.
  intros H. rewrite <- (firstn_skipn n l). apply in_or_app. now right.
Qed.

Lemma weekDescending_firstn (n : nat) (l : list PaymentRecord.t) :
  weekDescending l -> weekDescending (firstn n l).
Proof.
  unfold weekDescending. revert l.
  induction n as [|n IH]; intros l H; [constructor|].
  destruct l as [|x rest]; [constructor|]. cbn.
  apply StronglySorted_inv in H. destruct H as (Hs & Hall).
  constructor; [now apply IH|].
  rewrite Forall_forall in *. intros y Hy. apply Hall.
  now apply In_firstn in Hy.
Qed.

Lemma paginate_In (q : paymentQuery) (l : list PaymentRecord.t)
    (r : PaymentRecord.t) :
  In r (paginate q l) -> In r l.
Proof.
  unfold paginate. intros H. apply In_firstn in H. now apply In_skipn in H.
Qed.

(** The answer of [getPaymentRecords], in terms of what the caller may
    list. *)
Lemma getPaymentRecords_visible (u : caller) (q : paymentQuery) (d : db)
    (s : nat) (pg : paymentPage) :
  getPaymentRecords u q d = Sent s pg ->
  s = 200
  /\ records pg = paginate q (sortByWeek (visibleTo u q d))
  /\ total pg = List.length (visibleTo u q d)
  /\ pages pg = ceilDiv (List.length (visibleTo u q d)) (limitOf q)
  /\ current pg = pageOf q.
Proof.
  unfold getPaymentRecords, visibleTo.
  destruct (role_eqb (userRole u) admin).
  - intros [= <- <-]. repeat split.
  - destruct (findOne _ (employees d)); [|discriminate].
    intros [= <- <-]. repeat split.
Qed.

Lemma visibleTo_own (u : caller) (q : paymentQuery) (d : db)
    (r : PaymentRecord.t) :
  In r (visibleTo u q d) ->
  In r (paymentRecords d)
  /\ statusMatches q r = true
  /\ (userRole u = employee ->
      exists profile,
        findOne (fun e => Employee.user e =? id u) (employees d) = Some profile
        /\ PaymentRecord.employee r = Employee._id profile).
Proof.
  unfold visibleTo. destruct (userRole u); cbn [role_eqb].
  - rewrite filter_In. unfold adminFilter. intros (Hin & H).
    apply andb_prop in H. destruct H as (H & _).
    apply andb_prop in H. destruct H as (H & _).
    split; [exact Hin|]. split; [exact H|discriminate].
  - destruct (findOne _ (employees d)) as [profile|]; [|intros []].
    rewrite filter_In. unfold ownFilter. intros (Hin & H).
    apply andb_prop in H. destruct H as (He & Hs). apply Nat.eqb_eq in He.
    split; [exact Hin|]. split; [exact Hs|].
    intros _. exists profile. auto.
Qed.

(** What a page of payment records holds, whichever page it is: stored
    records with the status asked for, later weeks first; the page sent to
    an employee holds records of their own profile only, whatever
    [employeeId] the query names; and [total] counts stored records. *)
Theorem payment_page_contents (u : caller) (q : paymentQuery) (d : db)
    (s : nat) (pg : paymentPage) :
  getPaymentRecords u q d = Sent s pg ->
  s = 200
  /\ weekDescending (records pg)
  /\ total pg <= List.length (paymentRecords d)
  /\ (forall r, In r (records pg) ->
        In r (paymentRecords d) /\ statusMatches q r = true)
  /\ (userRole u = employee ->
      exists profile,
        findOne (fun e => Employee.user e =? id u) (employees d) = Some profile
        /\ forall r, In r (records pg) ->
             PaymentRecord.employee r = Employee._id profile).
Proof.
  intros H.
  destruct (getPaymentRecords_visible _ _ _ H) as (_ & Hr & Ht & _).
  destruct (getPaymentRecords_visible _ _ _ H) as (Hs & _).
  rewrite Hr, Ht. split; [exact Hs|].
  split; [apply weekDescending_firstn, weekDescending_skipn,
          sortByWeek_sorted|].
  assert (Hin : forall r, In r (paginate q (sortByWeek (visibleTo u q d))) ->
                          In r (visibleTo u q d)).
  { intros r Hr'. apply paginate_In in Hr'.
    now apply (Permutation_in _ (sortByWeek_perm _)) in Hr'. }
  split.
  { unfold visibleTo. destruct (role_eqb _ _); [apply filter_length_le|].
    destruct (findOne _ _); [apply filter_length_le|cbn; lia]. }
  split.
  - intros r Hr'. apply Hin, visibleTo_own in Hr'. tauto.
  - intros Hrole. unfold getPaymentRecords in H. rewrite Hrole in H.
    cbn [role_eqb] in H.
    destruct (findOne _ (employees d)) as [profile|] eqn:Ep; [|discriminate].
    exists profile. split; [reflexivity|].
    intros r Hr'. apply Hin, visibleTo_own in Hr'.
    destruct Hr' as (_ & _ & Hown).
    destruct (Hown Hrole) as (p' & Hp' & He). rewrite Ep in Hp'.
    now injection Hp' as <-.
Qed.

Lemma payment_page_contents_witness :
  exists pg,
    getPaymentRecords aliceCaller onePerPage twoWeeksDb = Sent 200 pg
    /\ total pg = 2
    /\ weekDescending (records pg)
    /\ forall r, In r (records pg) -> PaymentRecord.employee r = 10.
Proof.
  eexists. split; [reflexivity|]. split; [reflexivity|].
  match goal with
  | |- weekDescending (records ?pg) /\ _ =>
      destruct (@payment_page_contents aliceCaller onePerPage twoWeeksDb 200
                  pg eq_refl) as (_ & Hsorted & _ & _ & Hown)
  end.
  split; [exact Hsorted|].
  destruct (Hown eq_refl) as (profile & Hp & Hmine).
  injection Hp as <-. exact Hmine.
Defined.

(* ================================================================== *)
(** ** Paging through payment records *)
(* ================================================================== *)

Lemma firstn_add (A : Type) (a b : nat) (l : list A) :
  firstn (a + b) l = firstn a l ++ firstn b (skipn a l).
Proof.
  revert l. induction a as [|a IH]; intros l; [reflexivity|].
  destruct l as [|x rest]; cbn; [now rewrite firstn_nil|].
  now rewrite IH.
Qed.

Lemma pages_concat (A : Type) (k n : nat) (l : list A) :
  flat_map (fun p => firstn k (skipn ((p - 1) * k) l)) (seq 1 n)
  = firstn (n * k) l.
Proof.
  induction n as [|n IH]; [reflexivity|].
  rewrite seq_S, flat_map_app, IH. cbn [flat_map].
  rewrite app_nil_r. replace (1 + n - 1) with n by lia.
  replace (S n * k) with (n * k + k) by lia.
  now rewrite firstn_add.
Qed.

Lemma flat_map_ext_In (A B : Type) (f g : A -> list B) (l : list A) :
  (forall a, In a l -> f a = g a) -> flat_map f l = flat_map g l.
Proof.
  induction l as [|x rest IH]; intros H; [reflexivity|].
  cbn. rewrite (H x) by now left. rewrite IH; [reflexivity|].
  intros a Ha. apply H. now right.
Qed.

Lemma ceilDiv_covers (a k : nat) : 0 < k -> a <= ceilDiv a k * k.
Proof.
  intros Hk. unfold ceilDiv.
  pose proof (Nat.div_mod_eq (a + k - 1) k) as E.
  pose proof (Nat.mod_upper_bound (a + k - 1) k ltac:(lia)) as Hr.
  nia.
Qed.

Lemma limitOf_pos (q : paymentQuery) : 0 < limitOf q.
Proof. unfold limitOf. destruct (limit q); lia. Qed.

Lemma getPaymentRecords_withPage (u : caller) (q : paymentQuery) (d : db)
    (s : nat) (pg : paymentPage) (p : nat) :
  getPaymentRecords u q d = Sent s pg ->
  0 < p ->
  recordsOf (getPaymentRecords u (withPage p q) d)
  = firstn (limitOf q)
      (skipn ((p - 1) * limitOf q) (sortByWeek (visibleTo u q d))).
Proof.
  unfold getPaymentRecords, visibleTo. intros H Hp.
  assert (Hpage : pageOf (withPage p q) = p).
  { unfold pageOf, withPage. cbn. apply Nat2Pos.id. lia. }
  destruct (role_eqb (userRole u) admin).
  - cbn [recordsOf records]. unfold paginate. now rewrite Hpage.
  - destruct (findOne _ (employees d)); [|discriminate].
    cbn [recordsOf records]. unfold paginate. now rewrite Hpage.
Qed.

(** Paging with [page] and [limit] that are left out or written as plain
    decimal numerals of positive whole numbers, the only ones a
    [paymentQuery] has values for (a [limit] of 0, or one written with an
    exponent, is read in other ways by the handler and is not covered).  A
    page holds at most [limit] records; and paging loses nothing and repeats
    nothing: when no two of the records the caller may list start on the
    same day (so that the sort leaves no choice), the pages 1 to [pages],
    one after the other, are those records, each once, later weeks first,
    and every page after the last is empty. *)
Theorem pages_cover_the_listing (u : caller) (q : paymentQuery) (d : db)
    (s : nat) (pg : paymentPage) :
  NoDup (map PaymentRecord.weekStartDate (visibleTo u q d)) ->
  getPaymentRecords u q d = Sent s pg ->
  let every :=
    flat_map (fun p => recordsOf (getPaymentRecords u (withPage p q) d))
      (seq 1 (pages pg)) in
  Permutation every (visibleTo u q d)
  /\ weekDescending every
  /\ List.length every = total pg
  /\ (forall p, pages pg < p ->
        recordsOf (getPaymentRecords u (withPage p q) d) = [])
  /\ (forall p, 0 < p ->
        List.length (recordsOf (getPaymentRecords u (withPage p q) d))
        <= limitOf q).
Proof.
  intros _ H every.
  assert (Hbound : forall p, 0 < p ->
            List.length (recordsOf (getPaymentRecords u (withPage p q) d))
            <= limitOf q).
  { intros p Hp. rewrite (@getPaymentRecords_withPage _ _ _ _ _ p H Hp).
    apply firstn_le_length. }
  destruct (getPaymentRecords_visible _ _ _ H) as (_ & _ & Ht & Hp & _).
  pose proof (limitOf_pos q) as Hk.
  pose proof (ceilDiv_covers (List.length (visibleTo u q d)) Hk) as Hcov.
  rewrite <- Hp in Hcov.
  pose proof (Permutation_length (sortByWeek_perm (visibleTo u q d))) as Hlen.
  assert (Hall : every = sortByWeek (visibleTo u q d)).
  { unfold every.
    rewrite (@flat_map_ext_In _ _ _
               (fun p => firstn (limitOf q)
                           (skipn ((p - 1) * limitOf q)
                              (sortByWeek (visibleTo u q d))))).
    - rewrite pages_concat. apply firstn_all2. lia.
    - intros p Hin. apply in_seq in Hin.
      apply (@getPaymentRecords_withPage _ _ _ _ _ p H). lia. }
  rewrite Hall. split; [apply sortByWeek_perm|].
  split; [apply sortByWeek_sorted|].
  split; [lia|]. split; [|exact Hbound].
  intros p Hlt. rewrite (@getPaymentRecords_withPage _ _ _ _ _ p H) by lia.
  rewrite skipn_all2; [apply firstn_nil|]. nia.
Qed.

Lemma pages_cover_the_listing_witness :
  Permutation
    (recordsOf (getPaymentRecords adminCaller (withPage 1 onePerPage) twoWeeksDb)
     ++ recordsOf (getPaymentRecords adminCaller (withPage 2 onePerPage)
                     twoWeeksDb))
    (paymentRecords twoWeeksDb)
  /\ recordsOf (getPaymentRecords adminCaller (withPage 3 onePerPage) twoWeeksDb)
     = [].
Proof.
  assert (Hnd : NoDup (map PaymentRecord.weekStartDate
                         (visibleTo adminCaller onePerPage twoWeeksDb)))
    by (repeat constructor; cbn; intuition discriminate).
  destruct (@pages_cover_the_listing adminCaller onePerPage twoWeeksDb 200 _
              Hnd eq_refl) as (Hperm & _ & _ & Hlast & _).
  split.
  - exact Hperm.
  - apply Hlast. vm_compute. lia.
Defined.

(* ================================================================== *)
(** ** Payment statistics *)
(* ================================================================== *)

Lemma countStatus_app (s : payStatus) (l1 l2 : list PaymentRecord.t) :
  countStatus s (l1 ++ l2) = countStatus s l1 + countStatus s l2.
Proof. unfold countStatus. now rewrite filter_app, length_app. Qed.

Lemma countStatus_partition (l : list PaymentRecord.t) :
  countStatus pending l + countStatus paid l + countStatus cancelled l
  = List.length l.
Proof.
  unfold countStatus, hasStatus.
  induction l as [|r rest IH]; [reflexivity|].
  cbn [filter List.length]. destruct (PaymentRecord.paymentStatus r); cbn; lia.
Qed.

Lemma createPaymentRecord_pending (u : caller) (b : Payments.CreateBody.t)
    (d d' : db) (s : nat) (r : PaymentRecord.t) :
  Payments.createPaymentRecord u b d = (PaymentOk s r, d') ->
  PaymentRecord.paymentStatus r = pending.
Proof.
  unfold Payments.createPaymentRecord. intros H.
  repeat (step_case H; try discriminate).
  now injection H as <- <- <-.
Qed.

(** The statistics count every record once, under its status; a record that
    has just been created is counted as pending, and adds nothing to the
    amount paid. *)
Theorem stats_count_each_record (u : caller) (b : Payments.CreateBody.t)
    (d d' : db) (r : PaymentRecord.t) (s s' : nat) (st st' : paymentStats) :
  Payments.createPaymentRecord u b d = (PaymentOk 201 r, d') ->
  getPaymentStats d = Sent s st ->
  getPaymentStats d' = Sent s' st' ->
  pendingRecords st + paidRecords st + cancelledRecords st = totalRecords st
  /\ pendingRecords st' = S (pendingRecords st)
  /\ paidRecords st' = paidRecords st
  /\ cancelledRecords st' = cancelledRecords st
  /\ totalRecords st' = S (totalRecords st)
  /\ totalPaidAmount st' = totalPaidAmount st.
Proof.
  intros Hc. pose proof (createPaymentRecord_pending _ _ _ Hc) as Hp.
  destruct (createPaymentRecord_cases u b d) as [(r' & E)|(_ & Hf)].
  2: { rewrite Hc in Hf. destruct Hf. }
  rewrite Hc in E. injection E as <- ->.
  unfold getPaymentStats. intros [= <- <-] [= <- <-].
  cbn [pendingRecords paidRecords cancelledRecords totalRecords
       totalPaidAmount Payments.setPayments paymentRecords].
  rewrite !countStatus_app, length_app.
  split; [apply countStatus_partition|].
  unfold totalAmount. rewrite filter_app.
  unfold countStatus. cbn [filter]. unfold hasStatus. rewrite Hp.
  cbn. rewrite app_nil_r. repeat split; lia.
Qed.

Lemma stats_count_each_record_witness :
  exists st st',
    getPaymentStats janDb = Sent 200 st
    /\ getPaymentStats twoWeeksDb = Sent 200 st'
    /\ pendingRecords st = 1 /\ pendingRecords st' = 2
    /\ totalRecords st' = 2.
Proof.
  assert (Hc : exists r,
             Payments.createPaymentRecord adminCaller nextWeekBody janDb
             = (PaymentOk 201 r, twoWeeksDb))
    by (eexists; reflexivity).
  destruct Hc as (r & Hc).
  eexists _, _. split; [reflexivity|]. split; [reflexivity|].
  destruct (@stats_count_each_record adminCaller nextWeekBody janDb twoWeeksDb
              r 200 200 _ _ Hc eq_refl eq_refl)
    as (_ & Hp & _ & _ & Ht & _).
  split; [reflexivity|]. split; [rewrite Hp; reflexivity|].
  rewrite Ht. reflexivity.
Defined.

(* ================================================================== *)
(** ** Marking a record as paid *)
(* ================================================================== *)

Ltac record_fields :=
  cbn [PaymentModel.preSave PaymentModel.assign
       PaymentRecord._id PaymentRecord.employee PaymentRecord.weekStartDate
       PaymentRecord.weekEndDate PaymentRecord.payPeriod
       PaymentRecord.basicSalary PaymentRecord.overtime PaymentRecord.bonuses
       PaymentRecord.deductions PaymentRecord.grossPay
       PaymentRecord.totalDeductions PaymentRecord.netPay
       PaymentRecord.paymentStatus PaymentRecord.paymentDate
       PaymentRecord.paymentMethod PaymentRecord.notes
       PaymentRecord.uploadedBy PaymentRecord.isViewed
       PaymentRecord.viewedAt] in *.

(** The pre-save hook changes nothing in a record whose derived fields are
    up to date. *)
Lemma preSave_fixed (r : PaymentRecord.t) :
  castOk r -> derivedOk r ->
  PaymentRecord.payPeriod r
  = Some (PaymentRecord.weekStartDate r, PaymentRecord.weekEndDate r) ->
  PaymentModel.preSave r = r.
Proof.
  intros Hc (Hg & Hd & (g & Hg' & Hn)) Hp.
  destruct (preSave_ok Hc) as (_ & (G1 & G2 & (g2 & G3 & G4))).
  rewrite overtimeAmount_preSave in G1.
  assert (E1 : PaymentRecord.grossPay (PaymentModel.preSave r)
               = PaymentRecord.grossPay r) by (rewrite G1, Hg; reflexivity).
  assert (E2 : PaymentRecord.totalDeductions (PaymentModel.preSave r)
               = PaymentRecord.totalDeductions r)
    by (rewrite G2, Hd; reflexivity).
  assert (E3 : PaymentRecord.netPay (PaymentModel.preSave r)
               = PaymentRecord.netPay r).
  { rewrite G4, Hn, E2. rewrite G3 in E1. rewrite Hg' in E1.
    now injection E1 as ->. }
  clear - E1 E2 E3 Hp.
  destruct r. unfold PaymentModel.preSave. record_fields.
  f_equal; first [exact E1|exact E2|exact E3|now rewrite Hp].
Qed.

(** A stored net pay below 0 fails the [min: 0] validator of [netPay]. *)
Lemma negative_netPay_invalid (r : PaymentRecord.t) (n : JS.number) :
  PaymentRecord.netPay r = Some n -> JS.geZero n = false ->
  PaymentModel.validate r <> [].
Proof.
  intros Hn Hneg Ev. unfold PaymentModel.validate in Ev.
  do 8 (apply app_eq_nil in Ev; destruct Ev as (_ & Ev)).
  apply app_eq_nil in Ev. destruct Ev as (Ev & _). revert Ev.
  rewrite Hn. unfold PaymentModel.minZeroAtOpt, PaymentModel.minZeroAt.
  rewrite Hneg. discriminate.
Qed.

(** [markAsPaid] on a record as it was saved (derived totals and pay period
    up to date).  When the stored document passes the validators of its
    schema, the status becomes paid, the payment date the given date, and
    nothing else changes: the hook computes again the totals the record
    has.  When it does not pass them, as with a net pay below 0, which the
    hook stores unchecked, the save is rejected. *)
Theorem markAsPaid_stamps_only (t : Z) (r : PaymentRecord.t) :
  castOk r -> derivedOk r ->
  PaymentRecord.payPeriod r
  = Some (PaymentRecord.weekStartDate r, PaymentRecord.weekEndDate r) ->
  (PaymentModel.validate r = [] ->
   markAsPaid t r
   = Next (PaymentModel.assign r (PaymentRecord.basicSalary r)
             (PaymentRecord.overtime r) (PaymentRecord.bonuses r)
             (PaymentRecord.deductions r) paid (Some t)
             (PaymentRecord.paymentMethod r) (PaymentRecord.notes r)))
  /\ (forall n,
        PaymentRecord.netPay r = Some n -> JS.geZero n = false ->
        exists paths, markAsPaid t r = Throw (ValidationError paths)).
Proof.
  intros Hc Hd Hp. unfold markAsPaid.
  change (PaymentModel.validate
            (PaymentModel.assign r (PaymentRecord.basicSalary r)
               (PaymentRecord.overtime r) (PaymentRecord.bonuses r)
               (PaymentRecord.deductions r) paid (Some t)
               (PaymentRecord.paymentMethod r) (PaymentRecord.notes r)))
    with (PaymentModel.validate r).
  split.
  - intros ->. cbn [throwIfAny bind].
    rewrite preSave_fixed; [reflexivity|exact Hc|exact Hd|exact Hp].
  - intros n Hn Hneg.
    pose proof (negative_netPay_invalid r Hn Hneg) as Hbad.
    destruct (PaymentModel.validate r) as [|p ps]; [contradiction|].
    exists (p :: ps). reflexivity.
Qed.

Lemma markAsPaid_stamps_only_witness :
  (exists r doc,
      In r (paymentRecords janDb)
      /\ markAsPaid 9 r = Next doc
      /\ PaymentRecord.paymentStatus doc = paid
      /\ PaymentRecord.paymentDate doc = Some 9%Z
      /\ PaymentRecord.netPay doc = PaymentRecord.netPay r)
  /\ (exists r paths,
        In r (paymentRecords overdrawnDb)
        /\ markAsPaid 9 r = Throw (ValidationError paths)).
Proof.
  assert (H0 : paymentsOk sampleDb) by (intros r []).
  pose proof (@paymentsOk_handle (at_time 5) adminCaller
                (CreatePaymentRecord janBody) sampleDb H0) as H1.
  pose proof (@paymentsOk_handle (at_time 8) adminCaller
                (CreatePaymentRecord overdrawnBody) sampleDb H0) as H2.
  split.
  - assert (Hr : exists r,
               In r (paymentRecords janDb)
               /\ PaymentRecord.payPeriod r
                  = Some (PaymentRecord.weekStartDate r,
                          PaymentRecord.weekEndDate r)
               /\ PaymentModel.validate r = [])
      by (eexists; split; [left; reflexivity|split; reflexivity]).
    destruct Hr as (r & Hin & Hp & Hv). destruct (H1 r Hin) as (Hc & Hd).
    destruct (@markAsPaid_stamps_only 9 r Hc Hd Hp) as (E & _).
    exists r. eexists. split; [exact Hin|]. split; [exact (E Hv)|].
    repeat split.
  - assert (Hr : exists r n,
               In r (paymentRecords overdrawnDb)
               /\ PaymentRecord.payPeriod r
                  = Some (PaymentRecord.weekStartDate r,
                          PaymentRecord.weekEndDate r)
               /\ PaymentRecord.netPay r = Some n
               /\ JS.geZero n = false)
      by (eexists _, _; split; [left; reflexivity|repeat split; reflexivity]).
    destruct Hr as (r & n & Hin & Hp & Hn & Hneg).
    destruct (H2 r Hin) as (Hc & Hd).
    destruct (@markAsPaid_stamps_only 9 r Hc Hd Hp) as (_ & E).
    destruct (E n Hn Hneg) as (paths & Ethrow).
    exists r, paths. split; [exact Hin|exact Ethrow].
Defined.

(* ================================================================== *)
(** ** The employees controller *)
(* ================================================================== *)

(** [getEmployee] answers 200 exactly when the employee exists and the
    caller is an administrator or the user of that employee (whose user
    document is stored); the row sent is the one asked for. *)
Theorem employee_profile_access (u : caller) (i : objectId) (d : db)
    (e : Employee.t) :
  Employees.getEmployee u i d = Sent 200 e
  <-> findById Employee._id i (employees d) = Some e
      /\ (userRole u = admin
          \/ (Employee.user e = id u
              /\ isSome (findById User._id (id u) (users d)) = true)).
Proof.
  unfold Employees.getEmployee.
  destruct (findById Employee._id i (employees d)) as [found|] eqn:Ef.
  2: { split; [discriminate|]. intros (H & _). discriminate. }
  destruct (userRole u) eqn:Er; cbn [role_eqb negb].
  - split.
    + intros [= ->]. auto.
    + intros ([= ->] & _). reflexivity.
  - destruct (findById User._id (Employee.user found) (users d))
      as [owner|] eqn:Eo.
    + pose proof (findById_id _ _ _ Eo) as Hid.
      destruct (User._id owner =? id u) eqn:Eu; cbn [negb].
      * apply Nat.eqb_eq in Eu. split.
        -- intros [= ->]. split; [reflexivity|]. right.
           split; [congruence|]. rewrite <- Eu, Hid, Eo. reflexivity.
        -- intros ([= ->] & _). reflexivity.
      * apply Nat.eqb_neq in Eu. split; [discriminate|].
        intros ([= ->] & [H|(H & _)]); [discriminate|]. congruence.
    + split; [discriminate|].
      intros ([= ->] & [H|(H & Hs)]); [discriminate|].
      rewrite H in Eo. rewrite Eo in Hs. discriminate.
Qed.

(** Deleting an employee keeps the sessions and the payment records of that
    employee.  From then on such a session can be neither closed, nor moved,
    nor deleted, nor read by an employee: each of these handlers looks the
    employee up, fails on the missing row and answers 500 without writing.
    Only an administrator can still read the session. *)
Theorem deleteEmployee_strands_sessions (ev : env) (u : caller)
    (i : objectId) (d d' : db) (s : nat) (l : Location.t)
    (b : Locations.liveUpdateBody) (txt : Locations.spelling) :
  idsUnique d ->
  Employees.deleteEmployee i d = (Sent s tt, d') ->
  In l (locations d) ->
  Location.employee l = i ->
  locations d' = locations d
  /\ paymentRecords d' = paymentRecords d
  /\ findById Employee._id i (employees d') = None
  /\ Locations.checkOut ev u (Location._id l) d'
     = (Failure 500 (Msg "Server Error"), d')
  /\ Locations.updateLiveLocation ev u (Location._id l) b d'
     = (Failure 500 (Msg "Server Error"), d')
  /\ (userRole u = admin ->
      Locations.deleteLocation u (Location._id l) txt d'
      = (Failure 500 (Msg "Server Error"), d')
      /\ Locations.getLocation u (Location._id l) d' = (LocationOk 200 l, d'))
  /\ (userRole u = employee ->
      Locations.getLocation u (Location._id l) d'
      = (Failure 500 (Msg "Server Error"), d')).
Proof.
  intros (Hnl & Hne) Hdel Hin He. unfold Employees.deleteEmployee in Hdel.
  destruct (findById Employee._id i (employees d)) as [found|]; [|discriminate].
  injection Hdel as _ <-. cbn [locations paymentRecords employees].
  pose proof (findById_self Location._id _ _ Hnl Hin) as Hl.
  pose proof (findById_deleteById Employee._id i _ Hne) as Hgone.
  split; [reflexivity|]. split; [reflexivity|]. split; [exact Hgone|].
  unfold Locations.checkOut, Locations.updateLiveLocation,
    Locations.deleteLocation, Locations.getLocation.
  cbn [locations employees]. rewrite Hl. cbn [orReply bind].
  rewrite He, Hgone. cbn [orReply deref bind tryCatch].
  split; [reflexivity|]. split; [reflexivity|].
  split; intros ->; cbn [role_eqb negb replyIf deref bind tryCatch];
    [split|]; reflexivity.
Qed.

Lemma deleteEmployee_strands_sessions_witness :
  exists l,
    In l (locations aliceGone)
    /\ Locations.checkOut (at_time 300) aliceCaller (Location._id l) aliceGone
       = (Failure 500 (Msg "Server Error"), aliceGone).
Proof.
  assert (Hu : idsUnique aliceIn)
    by (split; repeat constructor; cbn; intuition discriminate).
  assert (Hl : exists l, In l (locations aliceIn) /\ Location.employee l = 10)
    by (eexists; split; [left; reflexivity|reflexivity]).
  destruct Hl as (l & Hin & He).
  destruct (@deleteEmployee_strands_sessions (at_time 300) aliceCaller 10
              aliceIn aliceGone 200 l moveBody Locations.AsPrinted Hu eq_refl
              Hin He)
    as (Hsame & _ & _ & Hout & _).
  exists l. split; [rewrite Hsame; exact Hin|exact Hout].
Defined.

(* ================================================================== *)
(** ** From the list of payment records to a record *)
(* ================================================================== *)

(** Every record on a page sent to a caller can be fetched by that caller,
    unless it is an unviewed record that fails the validators of its own
    schema.  An administrator, and an employee fetching a record they have
    viewed, get 200 with that record and nothing is written.  An employee
    fetching a record not viewed yet gets it marked as viewed when the
    stored document passes the validators; when it does not, as with a net
    pay below 0, the read answers 500 "Failed to fetch payment record" and
    writes nothing. *)
Theorem listed_payslips_are_readable (ev : env) (u : caller)
    (q : paymentQuery) (d : db) (s : nat) (pg : paymentPage)
    (r : PaymentRecord.t) :
  NoDup (map PaymentRecord._id (paymentRecords d)) ->
  NoDup (map Employee._id (employees d)) ->
  getPaymentRecords u q d = Sent s pg ->
  In r (records pg) ->
  (userRole u = admin \/ PaymentRecord.isViewed r = true ->
   Payments.getPaymentRecord ev u (PaymentRecord._id r) d = (PaymentOk 200 r, d))
  /\ (userRole u = employee ->
      PaymentRecord.isViewed r = false ->
      PaymentModel.validate r = [] ->
      fst (Payments.getPaymentRecord ev u (PaymentRecord._id r) d)
      = PaymentOk 200 (PaymentModel.markAsViewed (now ev) r))
  /\ (userRole u = employee ->
      PaymentRecord.isViewed r = false ->
      (PaymentModel.validate r <> []
       \/ exists n, PaymentRecord.netPay r = Some n /\ JS.geZero n = false) ->
      Payments.getPaymentRecord ev u (PaymentRecord._id r) d = (failedFetch, d)).
Proof.
  intros Hnp Hne H Hin.
  destruct (getPaymentRecords_visible _ _ _ H) as (_ & Hr & _).
  rewrite Hr in Hin. apply paginate_In in Hin.
  apply (Permutation_in _ (sortByWeek_perm _)) in Hin.
  destruct (visibleTo_own _ _ _ _ Hin) as (Hstored & _ & Hown).
  unfold Payments.getPaymentRecord.
  rewrite (findById_self PaymentRecord._id _ _ Hnp Hstored).
  cbn [orReply bind].
  destruct (userRole u) eqn:Er; cbn [role_eqb negb].
  { split; [reflexivity|]. split; discriminate. }
  destruct (Hown eq_refl) as (profile & Hp & He). rewrite Hp, He.
  destruct (findOne_user _ _ Hp) as (Hpin & _).
  rewrite (findById_self Employee._id _ _ Hne Hpin).
  cbn [deref bind]. rewrite Nat.eqb_refl. cbn [negb replyIf bind].
  split; [|split].
  - intros [Ha|Hv]; [discriminate|]. now rewrite Hv.
  - intros _ -> ->. reflexivity.
  - intros _ -> Hbad.
    assert (Hne' : PaymentModel.validate r <> []).
    { destruct Hbad as [Hbad|(n & Hn & Hneg)]; [exact Hbad|].
      exact (negative_netPay_invalid r Hn Hneg). }
    cbn [negb]. destruct (PaymentModel.validate r); [contradiction|].
    reflexivity.
Qed.

Lemma listed_payslips_are_readable_witness :
  (exists r,
      recordsOf (getPaymentRecords aliceCaller onePerPage janDb) = [r]
      /\ fst (Payments.getPaymentRecord (at_time 7) aliceCaller
                (PaymentRecord._id r) janDb)
         = PaymentOk 200 (PaymentModel.markAsViewed 7 r))
  /\ (exists r,
        recordsOf (getPaymentRecords aliceCaller onePerPage overdrawnDb) = [r]
        /\ Payments.getPaymentRecord (at_time 7) aliceCaller
             (PaymentRecord._id r) overdrawnDb
           = (failedFetch, overdrawnDb)).
Proof.
  split; eexists; (split; [reflexivity|]).
  - match goal with
    | |- fst (Payments.getPaymentRecord _ _ (PaymentRecord._id ?r) _) = _ =>
        assert (Hnp : NoDup (map PaymentRecord._id (paymentRecords janDb)))
          by (repeat constructor; cbn; intuition discriminate);
        assert (Hne : NoDup (map Employee._id (employees janDb)))
          by (repeat constructor; cbn; intuition discriminate);
        destruct (@listed_payslips_are_readable (at_time 7) aliceCaller
                    onePerPage janDb 200 _ r Hnp Hne eq_refl
                    (or_introl eq_refl)) as (_ & E & _)
    end.
    exact (E eq_refl eq_refl eq_refl).
  - match goal with
    | |- Payments.getPaymentRecord _ _ (PaymentRecord._id ?r) _ = _ =>
        assert (Hnp : NoDup (map PaymentRecord._id
                               (paymentRecords overdrawnDb)))
          by (repeat constructor; cbn; intuition discriminate);
        assert (Hne : NoDup (map Employee._id (employees overdrawnDb)))
          by (repeat constructor; cbn; intuition discriminate);
        destruct (@listed_payslips_are_readable (at_time 7) aliceCaller
                    onePerPage overdrawnDb 200 _ r Hnp Hne eq_refl
                    (or_introl eq_refl)) as (_ & _ & E)
    end.
    apply (E eq_refl eq_refl). right. eexists. split; reflexivity.
Defined.

(* ================================================================== *)
(** ** Attendance: any two check-ins that overlap *)
(* ================================================================== *)

(** What [checkInStore] does for coordinates that are numbers. *)
Lemma checkInStore_numbers (ev : env) (b : Locations.checkInBody)
    (mine : Employee.t) (d : db) :
  coordinatesNaN (Locations.latitude b, Locations.longitude b,
                  Locations.accuracy b) = false ->
  exists l,
    Locations.checkInStore ev b mine d
    = Next (LocationOk 201 l,
            {| users := users d;
               employees := updateById Employee._id (Employee._id mine)
                              (Locations.pushLocation (Location._id l))
                              (employees d);
               locations := locations d ++ [l];
               paymentRecords := paymentRecords d |})
    /\ Location._id l = freshId Location._id (locations d)
    /\ Locations.isOpenSessionOf (Employee._id mine) l = true.
Proof.
  intros Hnum. unfold Locations.checkInStore, Locations.Location_create.
  rewrite (numbers_pass_cast _ _ _ Hnum). cbn [throwIfAny bind].
  eexists. split; [reflexivity|]. split; [reflexivity|].
  unfold Locations.isOpenSessionOf. cbn. now rewrite Nat.eqb_refl.
Qed.

(** The pre-check of [checkIn] is no lock.  When an employee without an open
    session sends two check-ins with coordinates that are numbers, and the
    handler of each has made its pre-check before the other stores its
    session, both are answered 201 and the employee is left with two
    sessions with status checked-in, under two identifiers. *)
Theorem overlapping_checkIns_both_stored (ev1 ev2 : env) (u : caller)
    (b1 b2 : Locations.checkInBody) (d : db) (mine : Employee.t) :
  userRole u = employee ->
  Locations.checkinValidation b1 = true ->
  Locations.checkinValidation b2 = true ->
  coordinatesNaN (Locations.latitude b1, Locations.longitude b1,
                  Locations.accuracy b1) = false ->
  coordinatesNaN (Locations.latitude b2, Locations.longitude b2,
                  Locations.accuracy b2) = false ->
  findOne (fun e => Employee.user e =? id u) (employees d) = Some mine ->
  findOne (Locations.isOpenSessionOf (Employee._id mine)) (locations d) = None ->
  exists l1 l2 d',
    overlappingCheckIns ev1 ev2 u u b1 b2 d
    = (LocationOk 201 l1, LocationOk 201 l2, d')
    /\ locations d' = locations d ++ [l1; l2]
    /\ Locations.isOpenSessionOf (Employee._id mine) l1 = true
    /\ Locations.isOpenSessionOf (Employee._id mine) l2 = true
    /\ Location._id l1 <> Location._id l2
    /\ ~ openSessionsUnique d'.
Proof.
  intros Hrole Hv1 Hv2 Hn1 Hn2 Hmine Hnone.
  unfold overlappingCheckIns, Locations.checkInPrecheck.
  rewrite Hv1, Hv2, Hrole, Hmine.
  cbn [negb role_eqb replyIf orReply bind]. rewrite Hnone.
  cbn [isSome replyIf bind].
  unfold Locations.checkInResume. cbn [bind].
  destruct (@checkInStore_numbers ev1 b1 mine d Hn1) as (l1 & E1 & Hid1 & Ho1).
  rewrite E1. cbn [tryCatch].
  match goal with
  | |- context [Locations.checkInStore ev2 b2 mine ?d1] =>
      destruct (@checkInStore_numbers ev2 b2 mine d1 Hn2)
        as (l2 & E2 & Hid2 & Ho2);
      rewrite E2
  end.
  cbn [tryCatch locations] in *.
  exists l1, l2. eexists. split; [reflexivity|].
  cbn [locations]. split; [now rewrite <- app_assoc|].
  split; [exact Ho1|]. split; [exact Ho2|].
  assert (Hlt : Location._id l1 < Location._id l2).
  { rewrite Hid2. apply (freshId_above Location._id).
    apply in_or_app. right. now left. }
  split; [lia|].
  intros Huniq. specialize (Huniq (Employee._id mine)).
  cbn [locations] in Huniq.
  rewrite !filter_app in Huniq. cbn [filter] in Huniq.
  rewrite Ho1, Ho2 in Huniq. rewrite !length_app in Huniq.
  cbn [List.length] in Huniq. lia.
Qed.

Lemma overlapping_checkIns_both_stored_witness :
  exists l1 l2 d',
    overlappingCheckIns (at_time 100) (at_time 101) bobCaller bobCaller
      officeBody officeBody aliceIn
    = (LocationOk 201 l1, LocationOk 201 l2, d')
    /\ Location._id l1 <> Location._id l2
    /\ ~ openSessionsUnique d'.
Proof.
  destruct (@overlapping_checkIns_both_stored (at_time 100) (at_time 101)
              bobCaller officeBody officeBody aliceIn
              {| Employee._id := 11; Employee.user := 3;
                 Employee.locations := [] |}
              eq_refl eq_refl eq_refl eq_refl eq_refl eq_refl eq_refl)
    as (l1 & l2 & d' & E & _ & _ & _ & Hne & Hbad).
  exists l1, l2, d'. split; [exact E|]. split; [exact Hne|exact Hbad].
Defined.
